(** * send_batch.py: filtering and dispatch engine, embedded and verified

    A shallow embedding of [scripts/send_batch.py]: the date normaliser
    ([parse_date_value], [format_date_french]), the filter predicates
    ([check_date_filter], [test_filter], [apply_filters]), the selection gate
    of [get_records_to_process] and the dispatch loop
    ([send_message_to_record], [send_batch]).

    Conventions of the embedding.
    - A Python [str] is a [string]; a character is a code point of the
      Latin-1 range U+0000..U+00FF, on which [str.strip], [str.lower],
      [str.isdigit] and the classes of [re] are given in full.
    - A Python [int] is a [Z], a Python [float] a binary64 value of
      [spec_float] (precision 53, [emax] 1024, round to nearest even).
    - A cell of a record ([Any] in the signatures) is a [PyVal]: a scalar
      of JSON or a [datetime]; lists and objects of JSON are not modelled.
    - Code that may raise returns a [Res]; [try ... except] is [catch].
    - The two HTTP clients are reached through the methods the script calls
      on them; every such call is recorded in a trace of events.
    - The clients themselves ([DSClient], [GristClient]) are embedded over
      the library [requests], which is a function from a request to a
      response or an exception, and over the values of JSON.
    - The log, and the file of results that [send_batch] writes, are left
      out. *)

From Stdlib Require Import ZArith List String Ascii Bool Lia.
From Stdlib Require Import Floats.SpecFloat.
Import ListNotations.

Local Open Scope string_scope.
Local Open Scope list_scope.
Local Open Scope Z_scope.

(* ================================================================== *)
(** * Exceptions *)
(* ================================================================== *)

(** The exception classes the script can meet.  [SystemExit] is what
    [sys.exit(1)] raises. *)
Inductive exn : Type :=
| ValueError
| TypeError
| OverflowError
| OSError
| SystemExit.

Inductive Res (A : Type) : Type :=
| Ok (a : A)
| Raise (e : exn).

Arguments Ok {A} a.
Arguments Raise {A} e.

Definition exn_eqb (a b : exn) : bool :=
  match a, b with
  | ValueError, ValueError | TypeError, TypeError
  | OverflowError, OverflowError | OSError, OSError
  | SystemExit, SystemExit => true
  | _, _ => false
  end.

Definition bind {A B} (r : Res A) (k : A -> Res B) : Res B :=
  match r with
  | Ok a => k a
  | Raise e => Raise e
  end.

Notation "'let*' x ':=' r 'in' k" := (bind r (fun x => k))
  (at level 10, x pattern, r at level 100, k at level 200).

(** [try: r  except (classes): handler]. *)
Definition catch {A} (r : Res A) (classes : list exn) (handler : Res A) : Res A :=
  match r with
  | Ok a => Ok a
  | Raise e => if existsb (exn_eqb e) classes then handler else Raise e
  end.

(* ================================================================== *)
(** * Strings *)
(* ================================================================== *)

Definition ord (c : ascii) : Z := Z.of_N (N_of_ascii c).
Definition chr (z : Z) : ascii := ascii_of_N (Z.to_N z).

Definition in_range (lo hi : Z) (c : ascii) : bool :=
  (lo <=? ord c) && (ord c <=? hi).

(** [str.isspace] on one character: TAB..CR, FS..US, SPACE, NEL, NBSP. *)
Definition is_space (c : ascii) : bool :=
  in_range 9 13 c || in_range 28 32 c || (ord c =? 133) || (ord c =? 160).

(** The class [\d] of [re] and the digits [int()] accepts: 0..9. *)
Definition is_dec_digit (c : ascii) : bool := in_range 48 57 c.

(** [str.isdigit] on one character: 0..9 and the superscripts 2, 3, 1. *)
Definition is_digit_char (c : ascii) : bool :=
  is_dec_digit c || (ord c =? 178) || (ord c =? 179) || (ord c =? 185).

(** [str.lower] on one character: A..Z and the capitals U+00C0..U+00DE
    (the multiplication sign U+00D7 apart). *)
Definition lower_char (c : ascii) : ascii :=
  if in_range 65 90 c || (in_range 192 222 c && negb (ord c =? 215))
  then chr (ord c + 32) else c.

Fixpoint str_map (f : ascii -> ascii) (s : string) : string :=
  match s with
  | EmptyString => EmptyString
  | String c s' => String (f c) (str_map f s')
  end.

Fixpoint str_forallb (p : ascii -> bool) (s : string) : bool :=
  match s with
  | EmptyString => true
  | String c s' => p c && str_forallb p s'
  end.

Definition lower (s : string) : string := str_map lower_char s.

Definition str_nonempty (s : string) : bool :=
  match s with EmptyString => false | String _ _ => true end.

Fixpoint lstrip (s : string) : string :=
  match s with
  | EmptyString => EmptyString
  | String c s' => if is_space c then lstrip s' else s
  end.

Fixpoint rstrip (s : string) : string :=
  match s with
  | EmptyString => EmptyString
  | String c s' =>
      match rstrip s' with
      | EmptyString => if is_space c then EmptyString else String c EmptyString
      | r => String c r
      end
  end.

(** [s.strip()] *)
Definition strip (s : string) : string := lstrip (rstrip s).

(** [s.isdigit()] *)
Definition isdigit (s : string) : bool :=
  str_nonempty s && str_forallb is_digit_char s.

(** [s.startswith(p)] *)
Definition startswith (s p : string) : bool := prefix p s.

(** [s.endswith(p)] *)
Fixpoint endswith (s p : string) : bool :=
  String.eqb s p ||
  match s with
  | EmptyString => false
  | String _ s' => endswith s' p
  end.

(** [p in s] *)
Fixpoint contains (s p : string) : bool :=
  prefix p s ||
  match s with
  | EmptyString => false
  | String _ s' => contains s' p
  end.

(** [c in s] for one character. *)
Fixpoint has_char (c : ascii) (s : string) : bool :=
  match s with
  | EmptyString => false
  | String c' s' => Ascii.eqb c c' || has_char c s'
  end.

(** [s.split(c)] for a one-character separator. *)
Fixpoint split_on (c : ascii) (s : string) : list string :=
  match s with
  | EmptyString => [EmptyString]
  | String c' s' =>
      if Ascii.eqb c c' then EmptyString :: split_on c s'
      else match split_on c s' with
           | [] => [String c' EmptyString]
           | w :: ws => String c' w :: ws
           end
  end.

(** [s[:n]] *)
Definition slice_to (n : nat) (s : string) : string := substring 0 n s.

(** [s.replace(old, new)] for a non-empty [old]: every occurrence, left to
    right, without overlap.  [skip] counts the characters of an occurrence
    still to be dropped. *)
Fixpoint replace_from (old new : string) (skip : nat) (s : string) : string :=
  match s with
  | EmptyString => EmptyString
  | String c s' =>
      match skip with
      | S k => replace_from old new k s'
      | O =>
          if prefix old s
          then String.append new (replace_from old new (String.length old - 1) s')
          else String c (replace_from old new 0 s')
      end
  end.

Definition replace (s old new : string) : string := replace_from old new 0 s.

(** Decimal digits. *)
Definition digit_val (c : ascii) : Z := ord c - 48.
Definition digit_char (d : Z) : ascii := chr (48 + d).

(** The value of a string of decimal digits, most significant first. *)
Fixpoint Z_of_digits_from (acc : Z) (s : string) : Z :=
  match s with
  | EmptyString => acc
  | String c s' => Z_of_digits_from (10 * acc + digit_val c) s'
  end.

Definition Z_of_digits (s : string) : Z := Z_of_digits_from 0 s.

(** The longest prefix of characters in the class [p], and the rest. *)
Fixpoint span (p : ascii -> bool) (s : string) : string * string :=
  match s with
  | EmptyString => (EmptyString, EmptyString)
  | String c s' =>
      if p c then let '(a, b) := span p s' in (String c a, b)
      else (EmptyString, s)
  end.

(** The decimal digits of a positive number, least significant first;
    [fuel] bounds their number. *)
Fixpoint rev_digits (fuel : nat) (n : Z) : list Z :=
  match fuel with
  | O => []
  | S k => if n <? 10 then [n] else (n mod 10) :: rev_digits k (n / 10)
  end.

Definition string_of_digits (ds : list Z) : string :=
  fold_right (fun d s => String (digit_char d) s) EmptyString ds.

(** The decimal numeral of a natural number: no sign, no leading zero. *)
Definition string_of_nonneg (n : Z) : string :=
  string_of_digits (rev (rev_digits (S (Z.to_nat (Z.log2 n))) n)).

(** [str(n)] for an [int]. *)
Definition string_of_Z (n : Z) : string :=
  if n <? 0 then String "-" (string_of_nonneg (- n)) else string_of_nonneg n.

(** [n] in at least [w] digits, padded with zeros on the left ([%0wd]). *)
Definition zero_pad (w : nat) (n : Z) : string :=
  let s := string_of_nonneg n in
  String.append (string_of_digits (repeat 0 (w - String.length s))) s.

(* ================================================================== *)
(** * Floats: binary64 *)
(* ================================================================== *)

Definition float : Type := spec_float.

Definition prec64 : Z := 53.
Definition emax64 : Z := 1024.

Definition f_div : float -> float -> float := SFdiv prec64 emax64.
Definition f_mul : float -> float -> float := SFmul prec64 emax64.

(** [a < b], [a <= b] and [a == b] on floats; every comparison with a NaN
    is false. *)
Definition f_lt (a b : float) : bool := SFltb a b.
Definition f_le (a b : float) : bool := SFleb a b.
Definition f_eq (a b : float) : bool := SFeqb a b.

(** The integer [z] rounded to the nearest float. *)
Definition float_of_Z (z : Z) : float := binary_normalize prec64 emax64 z 0 false.

Definition is_infinite (f : float) : bool :=
  match f with S754_infinity _ => true | _ => false end.

(** An integer as an exact, unrounded operand of a division. *)
Definition exact_operand (neg : bool) (m : Z) : float :=
  match m with
  | Zpos p => S754_finite neg p 0
  | Zneg p => S754_finite (negb neg) p 0
  | Z0 => S754_zero neg
  end.

(** [float(n)] for an [int]: [OverflowError] beyond the largest float. *)
Definition float_of_int (n : Z) : Res float :=
  let f := float_of_Z n in
  if is_infinite f then Raise OverflowError else Ok f.

(** [a / b] for two [int]s, [b] positive: the quotient correctly rounded,
    [OverflowError] when it is too large for a float. *)
Definition int_truediv (a b : Z) : Res float :=
  let f := f_div (exact_operand false a) (exact_operand false b) in
  if is_infinite f then Raise OverflowError else Ok f.

(** The decimal [m * 10^e10] ([m >= 0]) with sign [neg], correctly rounded;
    overflow gives an infinity and underflow a zero. *)
Definition float_of_decimal (neg : bool) (m e10 : Z) : float :=
  if m =? 0 then S754_zero neg
  else if 0 <=? e10
       then binary_normalize prec64 emax64
              (if neg then - (m * 10 ^ e10) else m * 10 ^ e10) 0 neg
       else f_div (exact_operand neg m) (exact_operand false (10 ^ (- e10))).

Definition f_zero : float := S754_zero false.
Definition f_1000 : float := float_of_Z 1000.
Definition f_1e6 : float := float_of_Z 1000000.
Definition f_1e10 : float := float_of_Z 10000000000.

(** ** [float(s)] for a string *)

(** Characters past U+007E are rewritten before the numeral is read: a
    white space becomes a blank, anything else a question mark. *)
Definition to_ascii_numeral_char (c : ascii) : ascii :=
  if ord c <? 127 then c
  else if is_space c then " "%char else "?"%char.

(** Underscores may only stand between two digits; they are dropped. *)
Fixpoint drop_underscores (prev : ascii) (s : string) : option string :=
  match s with
  | EmptyString => if Ascii.eqb prev "_" then None else Some EmptyString
  | String c s' =>
      if Ascii.eqb c "_"
      then if is_dec_digit prev then drop_underscores c s' else None
      else if Ascii.eqb prev "_" && negb (is_dec_digit c) then None
           else option_map (String c) (drop_underscores c s')
  end.

(** The white space of the C locale, which [float()] strips. *)
Definition is_c_space (c : ascii) : bool :=
  in_range 9 13 c || (ord c =? 32).

Fixpoint lstrip_c (s : string) : string :=
  match s with
  | EmptyString => EmptyString
  | String c s' => if is_c_space c then lstrip_c s' else s
  end.

Fixpoint rstrip_c (s : string) : string :=
  match s with
  | EmptyString => EmptyString
  | String c s' =>
      match rstrip_c s' with
      | EmptyString => if is_c_space c then EmptyString else String c EmptyString
      | r => String c r
      end
  end.

(** An optional sign. *)
Definition read_sign (s : string) : bool * string :=
  match s with
  | String "-" s' => (true, s')
  | String "+" s' => (false, s')
  | _ => (false, s)
  end.

(** The exponent part [e[+-]ddd], or nothing; [None] when malformed. *)
Definition read_exponent (s : string) : option Z :=
  match s with
  | EmptyString => Some 0
  | String c s' =>
      if Ascii.eqb (lower_char c) "e"
      then let '(neg, ds) := read_sign s' in
           if str_nonempty ds && str_forallb is_dec_digit ds
           then Some (if neg then - Z_of_digits ds else Z_of_digits ds)
           else None
      else None
  end.

(** A numeral without sign: [inf], [infinity], [nan], or digits with an
    optional point and exponent and at least one digit before the exponent. *)
Definition read_unsigned (neg : bool) (s : string) : option float :=
  let l := lower s in
  if String.eqb l "inf" || String.eqb l "infinity" then Some (S754_infinity neg)
  else if String.eqb l "nan" then Some S754_nan
  else
    let '(ip, r1) := span is_dec_digit s in
    let '(fp, r2) :=
      match r1 with
      | String "." r => span is_dec_digit r
      | _ => (EmptyString, r1)
      end in
    if str_nonempty ip || str_nonempty fp
    then match read_exponent r2 with
         | Some e =>
             Some (float_of_decimal neg (Z_of_digits (String.append ip fp))
                     (e - Z.of_nat (String.length fp)))
         | None => None
         end
    else None.

Definition float_of_string (s : string) : Res float :=
  let s1 := if str_forallb (fun c => ord c <? 128) s then s
            else str_map to_ascii_numeral_char s in
  match (if has_char "_" s1 then drop_underscores "000" s1 else Some s1) with
  | None => Raise ValueError
  | Some s2 =>
      let '(neg, body) := read_sign (lstrip_c (rstrip_c s2)) in
      match read_unsigned neg body with
      | Some f => Ok f
      | None => Raise ValueError
      end
  end.

(** ** [repr(f)]: the shortest decimal that reads back as [f] *)

(** [num / den < 10 ^ k], for positive [num] and [den]. *)
Definition below_pow10 (num den k : Z) : bool :=
  if 0 <=? k then num <? den * 10 ^ k else num * 10 ^ (- k) <? den.

Fixpoint first_pow10_above (fuel : nat) (num den k : Z) : Z :=
  match fuel with
  | O => k
  | S fuel' =>
      if below_pow10 num den k then k
      else first_pow10_above fuel' num den (k + 1)
  end.

(** The least [k] with [num / den < 10 ^ k]: the position of the decimal
    point in front of the first significant digit. *)
Definition decimal_point (num den : Z) : Z :=
  first_pow10_above 6 num den
    ((Z.log2 num - Z.log2 den) * 30103 / 100000 - 1).

(** The integers next to [num / den * 10 ^ p], the nearest first (the even
    one on a tie). *)
Definition nearest_integers (num den p : Z) : list Z :=
  let a := if 0 <=? p then num * 10 ^ p else num in
  let b := if 0 <=? p then den else den * 10 ^ (- p) in
  let lo := a / b in
  let r := a mod b in
  if r =? 0 then [lo]
  else match 2 * r ?= b with
       | Lt => [lo; lo + 1]
       | Gt => [lo + 1; lo]
       | Eq => if Z.even lo then [lo; lo + 1] else [lo + 1; lo]
       end.

(** The first [n]-digit decimal, [n] from [n0] upwards, that reads back as
    [f]; with the fuel spent, the nearest one. *)
Fixpoint shortest_decimal (fuel : nat) (n : Z) (f : float)
    (num den decpt : Z) : Z * Z :=
  let e10 := decpt - n in
  let cands := nearest_integers num den (n - decpt) in
  match fuel with
  | O => (hd 0 cands, e10)
  | S fuel' =>
      match filter (fun d => f_eq (float_of_decimal false d e10) f) cands with
      | d :: _ => (d, e10)
      | [] => shortest_decimal fuel' (n + 1) f num den decpt
      end
  end.

Fixpoint strip_trailing_zeros (s : string) : string :=
  match s with
  | EmptyString => EmptyString
  | String c s' =>
      match strip_trailing_zeros s' with
      | EmptyString => if Ascii.eqb c "0" then EmptyString else String c EmptyString
      | r => String c r
      end
  end.

Definition zeros (n : Z) : string := string_of_digits (repeat 0 (Z.to_nat n)).

(** The digits [ds] with the decimal point [decpt] places to the right of
    their start, laid out as [repr] does. *)
Definition layout_repr (ds : string) (decpt : Z) : string :=
  let n := Z.of_nat (String.length ds) in
  if (decpt <=? -4) || (16 <? decpt) then
    String.append
      match ds with
      | String d (String _ _ as rest) => String d (String "." rest)
      | _ => ds
      end
      (String "e"
         (String (if decpt - 1 <? 0 then "-"%char else "+"%char)
            (zero_pad 2 (Z.abs (decpt - 1)))))
  else if decpt <=? 0 then
    String.append "0." (String.append (zeros (- decpt)) ds)
  else if decpt <? n then
    String.append (substring 0 (Z.to_nat decpt) ds)
      (String "." (substring (Z.to_nat decpt) (String.length ds) ds))
  else String.append ds (String.append (zeros (decpt - n)) ".0").

(** [repr(f)], which is also [str(f)]. *)
Definition float_repr (f : float) : string :=
  match f with
  | S754_nan => "nan"
  | S754_infinity s => if s then "-inf" else "inf"
  | S754_zero s => if s then "-0.0" else "0.0"
  | S754_finite s m e =>
      let num := if 0 <=? e then Zpos m * 2 ^ e else Zpos m in
      let den := if 0 <=? e then 1 else 2 ^ (- e) in
      let '(d, e10) :=
        shortest_decimal 16 1 (S754_finite false m e) num den
          (decimal_point num den) in
      let all := string_of_nonneg d in
      let body :=
        layout_repr (strip_trailing_zeros all)
          (Z.of_nat (String.length all) + e10) in
      if s then String "-" body else body
  end.

(* ================================================================== *)
(** * Calendar dates: the [datetime] module *)
(* ================================================================== *)

Record date : Type := mkDate { year : Z; month : Z; day : Z }.

Record datetime : Type := mkDateTime {
  dt_date : date;
  hour : Z;
  minute : Z;
  second : Z;
  microsecond : Z
}.

Definition is_leap (y : Z) : bool :=
  (y mod 4 =? 0) && (negb (y mod 100 =? 0) || (y mod 400 =? 0)).

Definition days_in_month (y m : Z) : Z :=
  if (m =? 2) then (if is_leap y then 29 else 28)
  else if (m =? 4) || (m =? 6) || (m =? 9) || (m =? 11) then 30
  else if (1 <=? m) && (m <=? 12) then 31
  else 0.

Definition MINYEAR : Z := 1.
Definition MAXYEAR : Z := 9999.

Definition valid_ymd (y m d : Z) : bool :=
  (MINYEAR <=? y) && (y <=? MAXYEAR) && (1 <=? m) && (m <=? 12)
  && (1 <=? d) && (d <=? days_in_month y m).

Definition valid_date (d : date) : bool := valid_ymd (year d) (month d) (day d).

Definition valid_hms (h mi s : Z) : bool :=
  (0 <=? h) && (h <=? 23) && (0 <=? mi) && (mi <=? 59)
  && (0 <=? s) && (s <=? 59).

(** [datetime(y, m, d, h, mi, s)]: [ValueError] on a field out of range. *)
Definition make_datetime (y m d h mi s : Z) : Res datetime :=
  if valid_ymd y m d && valid_hms h mi s
  then Ok (mkDateTime (mkDate y m d) h mi s 0)
  else Raise ValueError.

(** Comparison of two [date] objects. *)
Definition date_compare (a b : date) : comparison :=
  match year a ?= year b with
  | Eq => match month a ?= month b with
          | Eq => day a ?= day b
          | c => c
          end
  | c => c
  end.

Definition date_lt (a b : date) : bool :=
  match date_compare a b with Lt => true | _ => false end.
Definition date_le (a b : date) : bool :=
  match date_compare a b with Gt => false | _ => true end.
Definition date_eq (a b : date) : bool :=
  match date_compare a b with Eq => true | _ => false end.

(** The proleptic Gregorian date of a day number, day 0 being 1970-01-01. *)
Definition civil_from_days (days : Z) : Z * Z * Z :=
  let z := days + 719468 in
  let era := z / 146097 in
  let doe := z - era * 146097 in
  let yoe := (doe - doe / 1460 + doe / 36524 - doe / 146096) / 365 in
  let doy := doe - (365 * yoe + yoe / 4 - yoe / 100) in
  let mp := (5 * doy + 2) / 153 in
  let d := doy - (153 * mp + 2) / 5 + 1 in
  let m := if mp <? 10 then mp + 3 else mp - 9 in
  let y := yoe + era * 400 + (if m <=? 2 then 1 else 0) in
  (y, m, d).

(** ** Timestamps *)

(** A timestamp is handed to [fromtimestamp] as an [int] or as a [float]. *)
Inductive number : Type :=
| NInt (z : Z)
| NFloat (f : float).

Definition time_t_fits (t : Z) : bool := (- 2 ^ 63 <=? t) && (t <? 2 ^ 63).

(** A float rounded to an integer, half-way cases to the even one. *)
Definition round_half_even (f : float) : Z :=
  match f with
  | S754_finite s m e =>
      let a :=
        if 0 <=? e then Zpos m * 2 ^ e
        else
          let q := Zpos m / 2 ^ (- e) in
          let r := Zpos m mod 2 ^ (- e) in
          match 2 * r ?= 2 ^ (- e) with
          | Lt => q
          | Gt => q + 1
          | Eq => if Z.even q then q else q + 1
          end in
      if s then - a else a
  | _ => 0
  end.

(** The whole seconds of a float timestamp: the value is split in integral
    and fractional part, the fraction is rounded to microseconds, half-way
    cases to even, and a carry goes into the seconds. *)
Definition time_t_of_float (f : float) : Res Z :=
  match f with
  | S754_nan => Raise ValueError
  | S754_infinity _ => Raise OverflowError
  | S754_zero _ => Ok 0
  | S754_finite s m e =>
      let ip := if 0 <=? e then Zpos m * 2 ^ e else Zpos m / 2 ^ (- e) in
      let fm := if 0 <=? e then 0 else Zpos m mod 2 ^ (- e) in
      let frac := binary_normalize prec64 emax64 fm e false in
      let us := round_half_even (f_mul frac f_1e6) in
      let sec :=
        if s then (if 0 <? us then - ip - 1 else - ip)
        else (if 1000000 <=? us then ip + 1 else ip) in
      if time_t_fits sec then Ok sec else Raise OverflowError
  end.

Definition time_t_of (n : number) : Res Z :=
  match n with
  | NInt z => if time_t_fits z then Ok z else Raise OverflowError
  | NFloat f => time_t_of_float f
  end.

Definition year_in_range (y : Z) : bool := (MINYEAR <=? y) && (y <=? MAXYEAR).

Section LocalTime.

(** The offset of local time from UTC, in seconds, at an instant. *)
Variable utcoffset : Z -> Z.

(** C [localtime_r]: [OSError] when the year does not fit [tm_year]. *)
Definition localtime (t : Z) : Res (Z * Z * Z) :=
  let '(y, m, d) := civil_from_days ((t + utcoffset t) / 86400) in
  if (- 2 ^ 31 <=? y - 1900) && (y - 1900 <? 2 ^ 31)
  then Ok (y, m, d) else Raise OSError.

(** Local time of [t] with the year checked: [ValueError] outside
    [MINYEAR..MAXYEAR]. *)
Definition local_checked (t : Z) : Res (Z * Z * Z) :=
  let* (y, m, d) := localtime t in
  if year_in_range y then Ok (y, m, d) else Raise ValueError.

(** [datetime.fromtimestamp(n).date()].  After the conversion of [t]
    itself the library looks one day back, and at a clock change once
    more, to find out whether the local time is ambiguous; each look can
    fail like the conversion. *)
Definition fromtimestamp (n : number) : Res date :=
  let* t := time_t_of n in
  let* (y, m, d) := local_checked t in
  let* _ := local_checked (t - 86400) in
  let transition := utcoffset t - utcoffset (t - 86400) in
  let* _ := if transition <? 0 then local_checked (t + transition)
            else Ok (y, m, d) in
  Ok (mkDate y m d).

End LocalTime.

(** The zone of a runner whose clock is UTC. *)
Definition utc : Z -> Z := fun _ => 0.

(* ================================================================== *)
(** * Regular expressions and [strptime] *)
(* ================================================================== *)

(** The fragment of [re] that [strptime] and the script use.  Matching
    backtracks as [re] does: the alternatives of [RAlt] are tried in order,
    [RSpaces] ([\s+]) takes the longest run first, and the first way to
    satisfy the continuation [k] wins. *)
Inductive regex : Type :=
| RClass (p : ascii -> bool)
| RSeq (r1 r2 : regex)
| RAlt (r1 r2 : regex)
| RSpaces.

Fixpoint match_spaces {A} (s acc : string) (k : string -> string -> option A)
    : option A :=
  match s with
  | EmptyString => None
  | String c s' =>
      if is_space c then
        let acc' := String.append acc (String c EmptyString) in
        match match_spaces s' acc' k with
        | Some a => Some a
        | None => k acc' s'
        end
      else None
  end.

(** [rmatch r s k]: match [r] at the start of [s] and pass the matched text
    and the rest of [s] to [k]. *)
Fixpoint rmatch {A} (r : regex) (s : string) (k : string -> string -> option A)
    : option A :=
  match r with
  | RClass p =>
      match s with
      | String c s' => if p c then k (String c EmptyString) s' else None
      | EmptyString => None
      end
  | RSeq r1 r2 =>
      rmatch r1 s (fun m1 s1 =>
      rmatch r2 s1 (fun m2 s2 => k (String.append m1 m2) s2))
  | RAlt r1 r2 =>
      match rmatch r1 s k with
      | Some a => Some a
      | None => rmatch r2 s k
      end
  | RSpaces => match_spaces s EmptyString k
  end.

(** [[a-b]] *)
Definition cls (a b : ascii) : regex := RClass (in_range (ord a) (ord b)).
(** [\d] *)
Definition cls_d : regex := RClass is_dec_digit.
(** A literal character under [re.IGNORECASE]. *)
Definition lit (a : ascii) : regex :=
  RClass (fun c => Ascii.eqb (lower_char c) (lower_char a)).

(** The patterns of the directives, as [_strptime.TimeRE] has them. *)
Definition re_Y : regex := RSeq cls_d (RSeq cls_d (RSeq cls_d cls_d)).
Definition re_m : regex :=
  RAlt (RSeq (lit "1") (cls "0" "2"))
       (RAlt (RSeq (lit "0") (cls "1" "9")) (cls "1" "9")).
Definition re_d : regex :=
  RAlt (RSeq (lit "3") (cls "0" "1"))
  (RAlt (RSeq (cls "1" "2") cls_d)
  (RAlt (RSeq (lit "0") (cls "1" "9"))
  (RAlt (cls "1" "9") (RSeq (lit " ") (cls "1" "9"))))).
Definition re_H : regex :=
  RAlt (RSeq (lit "2") (cls "0" "3"))
       (RAlt (RSeq (cls "0" "1") cls_d) cls_d).
Definition re_M : regex := RAlt (RSeq (cls "0" "5") cls_d) cls_d.
Definition re_S : regex :=
  RAlt (RSeq (lit "6") (cls "0" "1"))
       (RAlt (RSeq (cls "0" "5") cls_d) cls_d).

(** One element of a compiled format: a named group or plain text. *)
Inductive fmt_item : Type :=
| IGroup (name : ascii) (r : regex)
| IText (r : regex).

Definition directive (c : ascii) : option regex :=
  if Ascii.eqb c "Y" then Some re_Y
  else if Ascii.eqb c "m" then Some re_m
  else if Ascii.eqb c "d" then Some re_d
  else if Ascii.eqb c "H" then Some re_H
  else if Ascii.eqb c "M" then Some re_M
  else if Ascii.eqb c "S" then Some re_S
  else None.

(** The pattern of a format: [%x] is the group of directive [x], a run of
    white space is [\s+], any other character stands for itself.  [None]
    for a directive that is not known. *)
Fixpoint compile_format (prev_space : bool) (fmt : string)
    : option (list fmt_item) :=
  match fmt with
  | EmptyString => Some []
  | String c rest =>
      if Ascii.eqb c "%" then
        match rest with
        | EmptyString => None
        | String x rest' =>
            match directive x, compile_format false rest' with
            | Some r, Some items => Some (IGroup x r :: items)
            | _, _ => None
            end
        end
      else if is_space c then
        if prev_space then compile_format true rest
        else option_map (cons (IText RSpaces)) (compile_format true rest)
      else option_map (cons (IText (lit c))) (compile_format false rest)
  end.

Definition captures : Type := list (ascii * string).

Fixpoint match_items {A} (items : list fmt_item) (s : string) (caps : captures)
    (k : captures -> string -> option A) : option A :=
  match items with
  | [] => k caps s
  | IGroup n r :: items' =>
      rmatch r s (fun txt s' => match_items items' s' ((n, txt) :: caps) k)
  | IText r :: items' =>
      rmatch r s (fun _ s' => match_items items' s' caps k)
  end.

(** [found.group(n)] read by [int()]; [dflt] when the group is absent. *)
Fixpoint group_int (n : ascii) (dflt : Z) (caps : captures) : Z :=
  match caps with
  | [] => dflt
  | (n', txt) :: caps' =>
      if Ascii.eqb n n' then Z_of_digits (lstrip txt)
      else group_int n dflt caps'
  end.

(** [datetime.strptime(s, fmt)]: [ValueError] when the pattern does not
    match at the start of [s], when text is left over after the match, and
    when the fields read are not a date and a time of day. *)
Definition strptime (s fmt : string) : Res datetime :=
  match compile_format false fmt with
  | None => Raise ValueError
  | Some items =>
      match match_items items s [] (fun caps rest => Some (caps, rest)) with
      | None => Raise ValueError
      | Some (caps, rest) =>
          if str_nonempty rest then Raise ValueError
          else make_datetime (group_int "Y" 1900 caps) (group_int "m" 1 caps)
                 (group_int "d" 1 caps) (group_int "H" 0 caps)
                 (group_int "M" 0 caps) (group_int "S" 0 caps)
      end
  end.

(** [re.search(r, s)]: the match that starts leftmost. *)
Fixpoint re_search (r : regex) (s : string) : option string :=
  match rmatch r s (fun m _ => Some m) with
  | Some m => Some m
  | None =>
      match s with
      | EmptyString => None
      | String _ s' => re_search r s'
      end
  end.

(** The text of one directive of [strftime]; the year in four digits. *)
Definition directive_text (x : ascii) (dt : datetime) : string :=
  if Ascii.eqb x "Y" then zero_pad 4 (year (dt_date dt))
  else if Ascii.eqb x "m" then zero_pad 2 (month (dt_date dt))
  else if Ascii.eqb x "d" then zero_pad 2 (day (dt_date dt))
  else if Ascii.eqb x "H" then zero_pad 2 (hour dt)
  else if Ascii.eqb x "M" then zero_pad 2 (minute dt)
  else if Ascii.eqb x "S" then zero_pad 2 (second dt)
  else String "%" (String x EmptyString).

(** [dt.strftime(fmt)] *)
Fixpoint strftime (fmt : string) (dt : datetime) : string :=
  match fmt with
  | EmptyString => EmptyString
  | String c rest =>
      if Ascii.eqb c "%" then
        match rest with
        | String x rest' =>
            String.append (directive_text x dt) (strftime rest' dt)
        | EmptyString => String c EmptyString
        end
      else String c (strftime rest dt)
  end.

(** [d.strftime('%d/%m/%Y')] for a [date]. *)
Definition strftime_dmy (d : date) : string :=
  strftime "%d/%m/%Y" (mkDateTime d 0 0 0 0).

(** [d.isoformat()] *)
Definition isoformat_date (d : date) : string :=
  String.append (zero_pad 4 (year d))
    (String "-" (String.append (zero_pad 2 (month d))
       (String "-" (zero_pad 2 (day d))))).

(** [str(dt)] for a [datetime]: ISO with a blank between date and time, the
    microseconds only when they are not zero. *)
Definition str_datetime (dt : datetime) : string :=
  String.append (isoformat_date (dt_date dt))
    (String " " (String.append (zero_pad 2 (hour dt))
       (String ":" (String.append (zero_pad 2 (minute dt))
          (String ":" (String.append (zero_pad 2 (second dt))
             (if microsecond dt =? 0 then EmptyString
              else String "." (zero_pad 6 (microsecond dt))))))))).

(* ================================================================== *)
(** * Values *)
(* ================================================================== *)

(** A cell of a record as [response.json()] delivers it, or a [datetime]
    object. *)
Inductive PyVal : Type :=
| VNone
| VBool (b : bool)
| VInt (z : Z)
| VFloat (f : float)
| VStr (s : string)
| VDateTime (dt : datetime).

(** Truth value: [not v] is [negb (truthy v)]. *)
Definition truthy (v : PyVal) : bool :=
  match v with
  | VNone => false
  | VBool b => b
  | VInt z => negb (z =? 0)
  | VFloat f => negb (f_eq f f_zero)
  | VStr s => str_nonempty s
  | VDateTime _ => true
  end.

Definition is_none (v : PyVal) : bool :=
  match v with VNone => true | _ => false end.

(** [str(v)] *)
Definition py_str (v : PyVal) : string :=
  match v with
  | VNone => "None"
  | VBool b => if b then "True" else "False"
  | VInt z => string_of_Z z
  | VFloat f => float_repr f
  | VStr s => s
  | VDateTime dt => str_datetime dt
  end.

(** [float(v)] *)
Definition py_float (v : PyVal) : Res float :=
  match v with
  | VNone => Raise TypeError
  | VBool b => Ok (float_of_Z (if b then 1 else 0))
  | VInt z => float_of_int z
  | VFloat f => Ok f
  | VStr s => float_of_string s
  | VDateTime _ => Raise TypeError
  end.

(** [v or 0] *)
Definition or_zero (v : PyVal) : PyVal := if truthy v then v else VInt 0.

(** [v == s] for a string [s]. *)
Definition eq_str (v : PyVal) (s : string) : bool :=
  match v with VStr s' => String.eqb s' s | _ => false end.

(** [isinstance(v, (int, float))]; a [bool] is an [int]. *)
Definition as_number (v : PyVal) : option number :=
  match v with
  | VBool b => Some (NInt (if b then 1 else 0))
  | VInt z => Some (NInt z)
  | VFloat f => Some (NFloat f)
  | _ => None
  end.

(** [int(s)] for a string that [isdigit] accepts: the superscript digits
    are no digits for [int]. *)
Definition int_of_digit_string (s : string) : Res Z :=
  if str_forallb is_dec_digit s then Ok (Z_of_digits s) else Raise ValueError.

(** A [dict] with string keys, in insertion order. *)
Definition dict (V : Type) : Type := list (string * V).

Fixpoint dict_get {V} (d : dict V) (k : string) : option V :=
  match d with
  | [] => None
  | (k', v) :: d' => if String.eqb k k' then Some v else dict_get d' k
  end.

(** [d.get(k, dflt)] *)
Definition get_or {V} (d : dict V) (k : string) (dflt : V) : V :=
  match dict_get d k with Some v => v | None => dflt end.

(* ================================================================== *)
(** * Date normaliser *)
(* ================================================================== *)

Definition date_formats : list string :=
  [ "%Y-%m-%d"; "%d/%m/%Y"; "%d-%m-%Y"; "%Y-%m-%d %H:%M:%S";
    "%d/%m/%Y %H:%M:%S"; "%Y-%m-%dT%H:%M:%S"; "%Y-%m-%dT%H:%M:%SZ" ].

(** [(\d{4}-\d{2}-\d{2})] *)
Definition iso_pattern : regex :=
  RSeq re_Y (RSeq (RClass (Ascii.eqb "-")) (RSeq cls_d (RSeq cls_d
    (RSeq (RClass (Ascii.eqb "-")) (RSeq cls_d cls_d))))).

(** [if value > 1e10: timestamp = value / 1000  else: timestamp = value] *)
Definition scale_timestamp (n : number) : Res number :=
  match n with
  | NInt z =>
      if 10 ^ 10 <? z
      then let* f := int_truediv z 1000 in Ok (NFloat f)
      else Ok (NInt z)
  | NFloat f =>
      if f_lt f_1e10 f then Ok (NFloat (f_div f f_1000)) else Ok (NFloat f)
  end.

(** The loop over [date_formats]: the first format that parses wins. *)
Fixpoint try_formats (date_str : string) (fmts : list string)
    : Res (option date) :=
  match fmts with
  | [] => Ok None
  | fmt :: fmts' =>
      catch (let* parsed_date := strptime date_str fmt in
             Ok (Some (dt_date parsed_date)))
        [ValueError] (try_formats date_str fmts')
  end.

(** The steps of [parse_date_value] that read the text as a written date:
    the formats in order, then an ISO date found anywhere in the text. *)
Definition parse_date_formats (date_str : string) : Res (option date) :=
  let* r := try_formats date_str date_formats in
  match r with
  | Some d => Ok (Some d)
  | None =>
      match re_search iso_pattern date_str with
      | Some m =>
          catch (let* dt := strptime m "%Y-%m-%d" in Ok (Some (dt_date dt)))
            [ValueError] (Ok None)
      | None => Ok None
      end
  end.

Section Script.

Variable utcoffset : Z -> Z.

(** A [try] block that returns a date; [Ok None] stands for the [pass] of
    the handler. *)
Definition try_timestamp (n : Res number) : Res (option date) :=
  catch (let* n0 := n in
         let* timestamp := scale_timestamp n0 in
         let* d := fromtimestamp utcoffset timestamp in
         Ok (Some d))
    [ValueError; OSError] (Ok None).

(** The part of [parse_date_value] that works on [str(value).strip()]. *)
Definition parse_date_text (date_str : string) : Res (option date) :=
  if negb (str_nonempty date_str) then Ok None
  else
    let* r := if isdigit date_str
              then try_timestamp (let* z := int_of_digit_string date_str in
                                 Ok (NInt z))
              else Ok None in
    match r with
    | Some d => Ok (Some d)
    | None => parse_date_formats date_str
    end.

Definition parse_date_value (value : PyVal) : Res (option date) :=
  if negb (truthy value) then Ok None
  else
    match value with
    | VDateTime dt => Ok (Some (dt_date dt))
    | _ =>
        let* r := match as_number value with
                  | Some n => try_timestamp (Ok n)
                  | None => Ok None
                  end in
        match r with
        | Some d => Ok (Some d)
        | None => parse_date_text (strip (py_str value))
        end
    end.

Definition format_date_french (value : PyVal) : Res string :=
  if negb (truthy value) then Ok EmptyString
  else
    let* parsed_date := parse_date_value value in
    match parsed_date with
    | Some d => Ok (strftime_dmy d)
    | None =>
        let* r :=
          match value with
          | VStr s =>
              catch (if has_char "-" s
                     then let* dt := strptime (slice_to 10 s) "%Y-%m-%d" in
                          Ok (Some (strftime_dmy (dt_date dt)))
                     else Ok None)
                [ValueError] (Ok None)
          | _ => Ok None
          end in
        match r with
        | Some text => Ok text
        | None => Ok (py_str value)
        end
    end.

(* ================================================================ *)
(** * Filter predicates *)
(* ================================================================ *)

Definition check_date_filter (field_value : PyVal)
    (operator filter_value : string) : Res bool :=
  if negb (str_nonempty filter_value) then Ok true
  else
    catch
      (let* field_date := parse_date_value field_value in
       match field_date with
       | None => Ok false
       | Some fd =>
           if String.eqb operator "date_before" then
             let* c := strptime filter_value "%Y-%m-%d" in
             Ok (date_lt fd (dt_date c))
           else if String.eqb operator "date_after" then
             let* c := strptime filter_value "%Y-%m-%d" in
             Ok (date_lt (dt_date c) fd)
           else if String.eqb operator "date_on" then
             let* c := strptime filter_value "%Y-%m-%d" in
             Ok (date_eq fd (dt_date c))
           else if String.eqb operator "date_between" then
             if negb (has_char "|" filter_value) then Ok false
             else
               match split_on "|" filter_value with
               | [d0; d1] =>
                   let* start_date := strptime d0 "%Y-%m-%d" in
                   let* end_date := strptime d1 "%Y-%m-%d" in
                   Ok (date_le (dt_date start_date) fd
                       && date_le fd (dt_date end_date))
               | _ => Ok false
               end
           else Ok false
       end)
      [ValueError; TypeError] (Ok false).

(** [float(field_value or 0) <op> float(value or 0)] inside its [try]. *)
Definition numeric_test (cmp : float -> float -> bool)
    (field_value : PyVal) (value : string) : Res bool :=
  catch (let* a := py_float (or_zero field_value) in
         let* b := py_float (or_zero (VStr value)) in
         Ok (cmp a b))
    [ValueError; TypeError] (Ok false).

Definition test_filter (field_value : PyVal) (operator value : string)
    : Res bool :=
  if String.eqb operator "empty" then
    Ok (is_none field_value
        || String.eqb (strip (py_str field_value)) EmptyString)
  else if String.eqb operator "not_empty" then
    Ok (negb (is_none field_value)
        && negb (String.eqb (strip (py_str field_value)) EmptyString))
  else if negb (str_nonempty value) then Ok true
  else
    let field_str :=
      if is_none field_value then EmptyString
      else lower (py_str field_value) in
    let value_str := lower value in
    if String.eqb operator "equals" then
      Ok (String.eqb field_str value_str)
    else if String.eqb operator "not_equals" then
      Ok (negb (String.eqb field_str value_str))
    else if String.eqb operator "contains" then
      Ok (contains field_str value_str)
    else if String.eqb operator "not_contains" then
      Ok (negb (contains field_str value_str))
    else if String.eqb operator "starts_with" then
      Ok (startswith field_str value_str)
    else if String.eqb operator "ends_with" then
      Ok (endswith field_str value_str)
    else if String.eqb operator "greater_than" then
      numeric_test (fun a b => f_lt b a) field_value value
    else if String.eqb operator "less_than" then
      numeric_test (fun a b => f_lt a b) field_value value
    else if String.eqb operator "greater_equal" then
      numeric_test (fun a b => f_le b a) field_value value
    else if String.eqb operator "less_equal" then
      numeric_test (fun a b => f_le a b) field_value value
    else Ok true.

(* ================================================================ *)
(** * Record selection *)
(* ================================================================ *)

(** A row of the table: [record.get('id')] and [record.get('fields')]. *)
Record record : Type := mkRecord {
  rec_id : Z;
  rec_fields : dict PyVal
}.

(** One configured filter: the keys [column], [operator] and [value]. *)
Record filter_config : Type := mkFilter {
  f_column : string;
  f_operator : string;
  f_value : string
}.

(** The body of the inner loop of [apply_filters]: one filter on the
    fields of one record. *)
Definition eval_filter (fields : dict PyVal) (fc : filter_config) : Res bool :=
  let column := f_column fc in
  let operator := f_operator fc in
  let value := f_value fc in
  let field_value := get_or fields column VNone in
  if startswith operator "date_"
  then check_date_filter field_value operator value
  else test_filter field_value operator value.

(** The inner loop: every filter is evaluated, in order. *)
Fixpoint eval_filters (fields : dict PyVal) (filters : list filter_config)
    (filter_results : list bool) : Res (list bool) :=
  match filters with
  | [] => Ok filter_results
  | fc :: filters' =>
      let* result := eval_filter fields fc in
      eval_filters fields filters' (filter_results ++ [result])
  end.

(** [any(l)] and [all(l)] *)
Definition py_any (l : list bool) : bool := existsb (fun b => b) l.
Definition py_all (l : list bool) : bool := forallb (fun b => b) l.

(** The outer loop of [apply_filters]. *)
Fixpoint filter_loop (records : list record) (filters : list filter_config)
    (filter_logic : string) (filtered_records : list record)
    : Res (list record) :=
  match records with
  | [] => Ok filtered_records
  | rec :: records' =>
      let* filter_results := eval_filters (rec_fields rec) filters [] in
      if String.eqb filter_logic "OR" then
        if py_any filter_results
        then filter_loop records' filters filter_logic (filtered_records ++ [rec])
        else filter_loop records' filters filter_logic filtered_records
      else
        if py_all filter_results
        then filter_loop records' filters filter_logic (filtered_records ++ [rec])
        else filter_loop records' filters filter_logic filtered_records
  end.

Definition apply_filters (records : list record) (filters : list filter_config)
    (filter_logic : string) : Res (list record) :=
  match filters with
  | [] => Ok records
  | _ => filter_loop records filters filter_logic []
  end.

(** The loop of [get_records_to_process] over the filtered records: the
    gate on [dossier_id] and [sync_mail]. *)
Fixpoint selection_gate (force_send : bool) (records : list record)
    (records_to_process : list record) : list record :=
  match records with
  | [] => records_to_process
  | rec :: records' =>
      let fields := rec_fields rec in
      let sync_mail := get_or fields "sync_mail" (VStr EmptyString) in
      let dossier_id := get_or fields "dossier_id" (VStr EmptyString) in
      if negb (truthy dossier_id) then
        selection_gate force_send records' records_to_process
      else if force_send then
        selection_gate force_send records' (records_to_process ++ [rec])
      else if negb (eq_str sync_mail "success") then
        selection_gate force_send records' (records_to_process ++ [rec])
      else selection_gate force_send records' records_to_process
  end.

(* ================================================================ *)
(** * Template renderer *)
(* ================================================================ *)

Fixpoint format_message_with_dates (template : string) (fields : dict PyVal)
    : Res string :=
  match fields with
  | [] => Ok template
  | (field_name, field_value) :: fields' =>
      if is_none field_value then format_message_with_dates template fields'
      else
        let* formatted := format_date_french field_value in
        let formatted_value :=
          if negb (str_nonempty formatted)
             || String.eqb formatted (py_str field_value)
          then py_str field_value else formatted in
        format_message_with_dates
          (replace template
             (String "{" (String.append field_name "}")) formatted_value)
          fields'
  end.

(* ================================================================ *)
(** * The collaborators and the trace of their calls *)
(* ================================================================ *)

(** The [dict] a send returns, read through [get('success')],
    [get('dry_run')] and [get('error')]. *)
Record result : Type := mkResult {
  res_success : bool;
  res_dry_run : bool;
  res_error : option string
}.

(** What [GristClient.get_records] returns: a [dict] with the key
    [error], or the records under [records] (none when the key is
    missing). *)
Inductive records_reply : Type :=
| RecordsError (msg : string)
| RecordsOk (records : list record).

(** What [GristClient.update_record] returns: [None], a [dict] with the
    key [error], or anything else. *)
Inductive update_reply : Type :=
| UpdateNone
| UpdateError (msg : string)
| UpdateOk.

(** One call of a method of a client. *)
Inductive event : Type :=
| EvGetRecords (doc_id table : string)
| EvSendMessage (dossier_id instructeur_id subject body : string)
| EvUpdateRecord (doc_id table : string) (record_id : Z)
    (update_data : dict PyVal).

Definition trace : Type := list event.

(** The answer of a client may depend on everything that was called
    before; a client may raise. *)
Record DSClient : Type := mkDSClient {
  send_message : trace -> string -> string -> string -> string -> Res result
}.

Record GristClient : Type := mkGristClient {
  get_records : trace -> string -> string -> Res records_reply;
  update_record : trace -> string -> string -> Z -> dict PyVal -> Res update_reply
}.

(** A computation that calls the clients: it extends the trace and
    returns or raises. *)
Definition Run (A : Type) : Type := trace -> Res A * trace.

Definition ret {A} (a : A) : Run A := fun t => (Ok a, t).

Definition lift {A} (r : Res A) : Run A := fun t => (r, t).

Definition run_bind {A B} (m : Run A) (k : A -> Run B) : Run B :=
  fun t =>
    match m t with
    | (Ok a, t') => k a t'
    | (Raise e, t') => (Raise e, t')
    end.

(** A call: the client answers on the trace so far, the call is recorded. *)
Definition call {A} (ev : event) (answer : trace -> Res A) : Run A :=
  fun t => (answer t, t ++ [ev]).

Definition ask {A} (f : trace -> A) : Run A := fun t => (Ok (f t), t).

Notation "'do' x '<-' m ';' k" := (run_bind m (fun x => k))
  (at level 10, x pattern, m at level 100, k at level 200).

(* ================================================================ *)
(** * The sender *)
(* ================================================================ *)

(** [config/public-config.json]; a key that is missing reads as the empty
    string. *)
Record Config : Type := mkConfig {
  demarche_number : string;
  message_subject : string;
  message_body : string;
  instructeur_id : string;
  grist_doc_id : string;
  grist_table : string;
  filters : list filter_config;
  filter_logic : option string
}.

(** The attributes of a [GitHubActionSender]; [clock] is
    [datetime.now().isoformat()]. *)
Record GitHubActionSender : Type := mkSender {
  config : Config;
  dry_run : bool;
  force_send : bool;
  ds_client : DSClient;
  grist_client : GristClient;
  clock : trace -> string
}.

Definition validate_config (self : GitHubActionSender) : bool :=
  forallb str_nonempty
    [ demarche_number (config self); message_subject (config self);
      message_body (config self); instructeur_id (config self);
      grist_doc_id (config self); grist_table (config self) ].

Definition get_records_to_process (self : GitHubActionSender)
    : Run (list record) :=
  do reply <- call (EvGetRecords (grist_doc_id (config self))
                      (grist_table (config self)))
                (fun t => get_records (grist_client self) t
                            (grist_doc_id (config self))
                            (grist_table (config self)));
  match reply with
  | RecordsError _ => ret []
  | RecordsOk records =>
      let filter_logic :=
        match filter_logic (config self) with
        | Some l => l
        | None => "AND"
        end in
      do records' <-
        match filters (config self) with
        | [] => ret records
        | fs => lift (apply_filters records fs filter_logic)
        end;
      ret (selection_gate (force_send self) records' [])
  end.

(** The fields written back after a send. *)
Definition update_data_of (res : result) (now : string) : dict PyVal :=
  if res_success res then
    [ ("sync_mail", VStr "success"); ("sync_date", VStr now);
      ("sync_error", VStr EmptyString) ]
  else
    let error_msg :=
      match res_error res with
      | Some m => m
      | None => "Erreur inconnue"
      end in
    [ ("sync_mail", VStr "failure"); ("sync_date", VStr now);
      ("sync_error", VStr (slice_to 500 error_msg)) ].

Definition send_message_to_record (self : GitHubActionSender) (rec : record)
    : Run result :=
  let fields := rec_fields rec in
  let record_id := rec_id rec in
  let dossier_id := py_str (get_or fields "dossier_id" (VStr EmptyString)) in
  if negb (str_nonempty dossier_id) then
    ret (mkResult false false (Some "dossier_id manquant"))
  else
    do subject <-
      lift (format_message_with_dates (message_subject (config self)) fields);
    do body <-
      lift (format_message_with_dates (message_body (config self)) fields);
    if dry_run self then ret (mkResult true true None)
    else
      do res <-
        call (EvSendMessage dossier_id (instructeur_id (config self))
                subject body)
          (fun t => send_message (ds_client self) t dossier_id
                      (instructeur_id (config self)) subject body);
      do now <- ask (clock self);
      let update_data := update_data_of res now in
      do _ <-
        (if negb (dry_run self) then
           call (EvUpdateRecord (grist_doc_id (config self))
                   (grist_table (config self)) record_id update_data)
             (fun t => update_record (grist_client self) t
                         (grist_doc_id (config self))
                         (grist_table (config self)) record_id update_data)
         else ret UpdateOk);
      ret res.

(** The summary of a run.  [br_success] is the key [success], which only
    the summary of an empty run has. *)
Record batch_result : Type := mkBatch {
  br_success : bool;
  total_records : Z;
  success_count : Z;
  error_count : Z;
  already_sent_count : Z;
  details : list (PyVal * string)
}.

(** The loop of [send_batch] that collects the date fields of a record
    for the debug log: name and French date of every field that parses. *)
Fixpoint date_fields_of (fields : dict PyVal) (date_fields : list (string * string))
    : Res (list (string * string)) :=
  match fields with
  | [] => Ok date_fields
  | (field_name, field_value) :: fields' =>
      if truthy field_value then
        let* parsed := parse_date_value field_value in
        match parsed with
        | Some _ =>
            let* formatted_date := format_date_french field_value in
            date_fields_of fields' (date_fields ++ [(field_name, formatted_date)])
        | None => date_fields_of fields' date_fields
        end
      else date_fields_of fields' date_fields
  end.

(** The update of the counters after one record. *)
Definition tally (results : batch_result) (dossier_id : PyVal) (res : result)
    : batch_result :=
  if res_success res then
    mkBatch (br_success results) (total_records results)
      (success_count results + 1) (error_count results)
      (already_sent_count results) (details results)
  else
    mkBatch (br_success results) (total_records results)
      (success_count results) (error_count results + 1)
      (already_sent_count results)
      (details results ++
         [ (dossier_id,
            match res_error res with
            | Some m => m
            | None => "Erreur inconnue"
            end) ]).

(** One turn of the loop of [send_batch], up to the result of the send. *)
Definition process_record (self : GitHubActionSender) (rec : record)
    : Run result :=
  do _ <- lift (date_fields_of (rec_fields rec) []);
  send_message_to_record self rec.

(** The loop of [send_batch] over the selected records. *)
Fixpoint dispatch_loop (self : GitHubActionSender) (records : list record)
    (results : batch_result) : Run batch_result :=
  match records with
  | [] => ret results
  | rec :: records' =>
      let dossier_id := get_or (rec_fields rec) "dossier_id" (VStr "N/A") in
      do res <- process_record self rec;
      dispatch_loop self records' (tally results dossier_id res)
  end.

Definition send_batch (self : GitHubActionSender) : Run batch_result :=
  if negb (validate_config self) then lift (Raise SystemExit)
  else
    do records <- get_records_to_process self;
    match records with
    | [] => ret (mkBatch true 0 0 0 0 [])
    | _ =>
        dispatch_loop self records
          (mkBatch false (Z.of_nat (List.length records)) 0 0 0 [])
    end.

End Script.

(* ================================================================== *)
(** * The HTTP clients *)
(* ================================================================== *)

(** A value of JSON as Python holds it: [None], [bool], [int], [float],
    [str], [list] and [dict]; a [dict] is given by its items. *)
#[warnings="-register-all"]
Inductive json : Type :=
| JNull
| JBool (b : bool)
| JInt (z : Z)
| JFloat (f : float)
| JStr (s : string)
| JList (l : list json)
| JObj (d : list (string * json)).

(** The exceptions the clients can meet.  The library [requests] raises
    the first three ([ExcOther] stands for every exception that is neither
    a [Timeout] nor a [ConnectionError], those of [response.json()]
    included); the interpreter raises the others on a value that does not
    support an operation: [k in v], [v[k]], iteration, [v.get] and
    [str.join]. *)
Inductive pyexc : Type :=
| ExcTimeout (text : string)
| ExcConnectionError (text : string)
| ExcOther (text : string)
| ExcNotContainer (v : json)
| ExcNotSubscriptable (v : json)
| ExcKeyError (k : string)
| ExcNotIterable (v : json)
| ExcNoGet (v : json)
| ExcJoin (v : json).

(** A computation of the clients: a value, or an exception. *)
Inductive attempt (A : Type) : Type :=
| Got (a : A)
| Threw (e : pyexc).

Arguments Got {A} a.
Arguments Threw {A} e.

Definition attempt_bind {A B} (r : attempt A) (k : A -> attempt B) : attempt B :=
  match r with
  | Got a => k a
  | Threw e => Threw e
  end.

Notation "'let+' x ':=' r 'in' k" := (attempt_bind r (fun x => k))
  (at level 10, x pattern, r at level 100, k at level 200).

(** Truth value of a value of JSON. *)
Definition json_truthy (v : json) : bool :=
  match v with
  | JNull => false
  | JBool b => b
  | JInt z => negb (z =? 0)
  | JFloat f => negb (f_eq f f_zero)
  | JStr s => str_nonempty s
  | JList l => match l with [] => false | _ => true end
  | JObj d => match d with [] => false | _ => true end
  end.

(** [k == v] for a string [k]. *)
Definition json_eq_str (k : string) (v : json) : bool :=
  match v with JStr s => String.eqb k s | _ => false end.

(** [k in v] for a string [k]: a key of a [dict], an element of a [list],
    a part of a [str]; [TypeError] on anything else. *)
Definition py_contains (k : string) (v : json) : attempt bool :=
  match v with
  | JObj d => Got (match dict_get d k with Some _ => true | None => false end)
  | JList l => Got (existsb (json_eq_str k) l)
  | JStr s => Got (contains s k)
  | _ => Threw (ExcNotContainer v)
  end.

(** [v[k]] for a string [k]. *)
Definition py_getitem (v : json) (k : string) : attempt json :=
  match v with
  | JObj d =>
      match dict_get d k with
      | Some x => Got x
      | None => Threw (ExcKeyError k)
      end
  | _ => Threw (ExcNotSubscriptable v)
  end.

(** The elements [for x in v] goes through: those of a [list], the keys
    of a [dict], the characters of a [str]. *)
Definition py_iter (v : json) : attempt (list json) :=
  match v with
  | JList l => Got l
  | JObj d => Got (map (fun kv => JStr (fst kv)) d)
  | JStr s => Got (map (fun c => JStr (String c EmptyString)) (list_ascii_of_string s))
  | _ => Threw (ExcNotIterable v)
  end.

(** [v.get(k, dflt)]: only a [dict] has the method. *)
Definition py_get (v : json) (k : string) (dflt : json) : attempt json :=
  match v with
  | JObj d => Got (get_or d k dflt)
  | _ => Threw (ExcNoGet v)
  end.

(** [sep.join(items)]: [TypeError] on the first item that is no [str]. *)
Fixpoint py_join (sep : string) (items : list json) : attempt string :=
  match items with
  | [] => Got EmptyString
  | JStr s :: items' =>
      match items' with
      | [] => Got s
      | _ => let+ rest := py_join sep items' in
             Got (String.append s (String.append sep rest))
      end
  | v :: _ => Threw (ExcJoin v)
  end.

(** [[f(x) for x in items]] *)
Fixpoint comprehension (f : json -> attempt json) (items : list json)
    : attempt (list json) :=
  match items with
  | [] => Got []
  | x :: items' =>
      let+ y := f x in
      let+ ys := comprehension f items' in
      Got (y :: ys)
  end.

(** [str(e)]: the text an exception of the library carries, or the one the
    interpreter gives to its own. *)
Definition str_exc (interpreter_text : pyexc -> string) (e : pyexc) : string :=
  match e with
  | ExcTimeout text | ExcConnectionError text | ExcOther text => text
  | _ => interpreter_text e
  end.

(** [{'error': msg}] *)
Definition error_dict (msg : string) : json := JObj [("error", JStr msg)].

(** The line feed, and the accented letters of the messages (U+00E0,
    U+00E9, U+00EA). *)
Definition nl : string := String "010"%char EmptyString.
Definition a_grave : string := String "224"%char EmptyString.
Definition e_acute : string := String "233"%char EmptyString.
Definition e_circumflex : string := String "234"%char EmptyString.

(** The concatenation of the parts of a text. *)
Definition text_of (parts : list string) : string := String.concat EmptyString parts.

(** ** The library [requests] *)

(** A call of [requests.post], [requests.get] or [requests.patch] with
    its arguments. *)
Record request : Type := mkRequest {
  req_method : string;
  req_url : string;
  req_headers : list (string * string);
  req_json : option json;
  req_timeout : Z
}.

(** A response: [status_code], [text] and the outcome of [json()]. *)
Record response : Type := mkResponse {
  status_code : Z;
  text : string;
  json_of : attempt json
}.

Definition bearer_headers (token : string) : list (string * string) :=
  [ ("Authorization", String.append "Bearer " token);
    ("Content-Type", "application/json") ].

Module DS.

Section Client.

(** [str(e)] for an exception of the interpreter. *)
Variable interpreter_text : pyexc -> string.
(** The library [requests]. *)
Variable requests : request -> attempt response.
(** [self.token] *)
Variable token : string.

Definition endpoint : string :=
  "https://www.demarches-simplifiees.fr/api/v2/graphql".

(** The call [requests.post(...)] of [_make_request]. *)
Definition post_of (query : string) (variables : json) : request :=
  mkRequest "POST" endpoint (bearer_headers token)
    (Some (JObj [ ("query", JStr query);
                  ("variables", if json_truthy variables then variables
                                else JObj []) ]))
    30.

Definition _make_request (query : string) (variables : json) : json :=
  match
    (let+ response := requests (post_of query variables) in
     if negb (status_code response =? 200) then
       Got (error_dict
              (text_of [ "Erreur HTTP "; string_of_Z (status_code response);
                         ": "; text response ]))
     else
       let+ data := json_of response in
       let+ has_errors := py_contains "errors" data in
       if has_errors then
         let+ errors := py_getitem data "errors" in
         let+ items := py_iter errors in
         let+ error_messages :=
           comprehension (fun error => py_get error "message" (JStr "Erreur inconnue"))
             items in
         let+ joined := py_join ", " error_messages in
         Got (error_dict (text_of [ "Erreurs GraphQL: "; joined ]))
       else py_get data "data" (JObj []))
  with
  | Got v => v
  | Threw (ExcTimeout _) =>
      error_dict (text_of [ "Timeout lors de la connexion "; a_grave; " DS" ])
  | Threw (ExcConnectionError _) =>
      error_dict (text_of [ "Impossible de se connecter "; a_grave; " DS" ])
  | Threw e =>
      error_dict (text_of [ "Erreur lors de la requ"; e_circumflex; "te: ";
                            str_exc interpreter_text e ])
  end.

(** The GraphQL mutation of [send_message]. *)
Definition query : string :=
  String.concat nl
    [ "";
      "        mutation dossierEnvoyerMessage($input: DossierEnvoyerMessageInput!) {";
      "          dossierEnvoyerMessage(input: $input) {";
      "            message {";
      "              id";
      "              email";
      "              body";
      "              createdAt";
      "            }";
      "            errors {";
      "              message";
      "            }";
      "          }";
      "        }";
      "        " ].

(** The variables of the mutation: the body is the subject in bold, an
    empty line and the text. *)
Definition variables_of (dossier_id instructeur_id subject body : string) : json :=
  JObj [ ("input",
          JObj [ ("dossierId", JStr dossier_id);
                 ("instructeurId", JStr instructeur_id);
                 ("body", JStr (text_of [ "**"; subject; "**"; nl; nl; body ])) ]) ].

Definition send_message (dossier_id instructeur_id subject body : string)
    : attempt json :=
  let variables := variables_of dossier_id instructeur_id subject body in
  let result := _make_request query variables in
  let+ has_error := py_contains "error" result in
  if has_error then Got result
  else
    let+ message_result := py_get result "dossierEnvoyerMessage" (JObj []) in
    let+ errors := py_get message_result "errors" JNull in
    if json_truthy errors then
      let+ errors' := py_getitem message_result "errors" in
      let+ items := py_iter errors' in
      let+ error_messages :=
        comprehension (fun error => py_get error "message" JNull) items in
      let+ joined := py_join ", " error_messages in
      Got (error_dict (text_of [ "Erreurs: "; joined ]))
    else
      let+ message := py_get message_result "message" (JObj []) in
      Got (JObj [ ("success", JBool true); ("message", message) ]).

End Client.

End DS.

Module Grist.

Section Client.

Variable interpreter_text : pyexc -> string.
Variable requests : request -> attempt response.
Variable token : string.

Definition base_url : string := "https://grist.numerique.gouv.fr/api".

(** [url = f"{self.base_url}/{endpoint}"] *)
Definition url_of (endpoint : string) : string := text_of [ base_url; "/"; endpoint ].

(** What follows the request in [_make_request]. *)
Definition read_response (r : attempt response) : attempt json :=
  let+ response := r in
  if negb ((status_code response =? 200) || (status_code response =? 201)) then
    Got (error_dict (text_of [ "Erreur HTTP "; string_of_Z (status_code response);
                               ": "; text response ]))
  else json_of response.

Definition _make_request (endpoint method : string) (data : option json) : json :=
  match
    (let url := url_of endpoint in
     let headers := bearer_headers token in
     if String.eqb method "GET" then
       read_response (requests (mkRequest "GET" url headers None 30))
     else if String.eqb method "PATCH" then
       read_response (requests (mkRequest "PATCH" url headers data 30))
     else
       Got (error_dict (text_of [ "M"; e_acute; "thode HTTP non support"; e_acute;
                                  "e: "; method ])))
  with
  | Got v => v
  | Threw e => error_dict (text_of [ "Erreur Grist: "; str_exc interpreter_text e ])
  end.

(** [f"docs/{doc_id}/tables/{table_name}/records"] *)
Definition records_endpoint (doc_id table_name : string) : string :=
  text_of [ "docs/"; doc_id; "/tables/"; table_name; "/records" ].

Definition get_records (doc_id table_name : string) : json :=
  _make_request (records_endpoint doc_id table_name) "GET" None.

Definition update_record (doc_id table_name : string) (record_id : Z)
    (data : json) : json :=
  let update_data :=
    JObj [ ("records",
            JList [ JObj [ ("id", JInt record_id); ("fields", data) ] ]) ] in
  _make_request (records_endpoint doc_id table_name) "PATCH" (Some update_data).

End Client.

End Grist.

(* ================================================================== *)
(** * Construction of the sender and entry point *)
(* ================================================================== *)

(** What [open(config_file)] and [json.load] come to: the two exceptions
    [__init__] catches, any other exception, or the configuration. *)
Inductive config_file : Type :=
| FileNotFoundError
| JSONDecodeError
| LoadError (e : exn)
| Loaded (c : Config).

(** [os.environ.get(name, 'false').lower() == 'true'] *)
Definition env_flag (environ : dict string) (name : string) : bool :=
  String.eqb (lower (get_or environ name "false")) "true".

Section Entry.

Variable utcoffset : Z -> Z.
(** [DSClient(token)], [GristClient(token)] and the clock. *)
Variable make_ds_client : string -> DSClient.
Variable make_grist_client : string -> GristClient.
Variable now : trace -> string.

(** [GitHubActionSender.__init__] *)
Definition __init__ (file : config_file) (environ : dict string)
    : Res GitHubActionSender :=
  match file with
  | FileNotFoundError => Raise SystemExit
  | JSONDecodeError => Raise SystemExit
  | LoadError e => Raise e
  | Loaded config =>
      let ds_token := dict_get environ "DS_API_TOKEN" in
      let grist_token := dict_get environ "GRIST_API_TOKEN" in
      let dry_run := env_flag environ "DRY_RUN" in
      let force_send := env_flag environ "FORCE_SEND" in
      match ds_token with
      | None | Some EmptyString => Raise SystemExit
      | Some ds_token =>
          match grist_token with
          | None | Some EmptyString => Raise SystemExit
          | Some grist_token =>
              Ok (mkSender config dry_run force_send (make_ds_client ds_token)
                    (make_grist_client grist_token) now)
          end
      end
  end.

(** [main]: the exit status of the process.  An exception that reaches
    [main] ends it with status 1, [SystemExit] from [sys.exit(1)]
    included. *)
Definition main (file : config_file) (environ : dict string) (t : trace)
    : Z * trace :=
  match __init__ file environ with
  | Raise _ => (1, t)
  | Ok sender =>
      match send_batch utcoffset sender t with
      | (Ok _, t') => (0, t')
      | (Raise _, t') => (1, t')
      end
  end.

End Entry.

(* ================================================================== *)
(** * Vocabulary of the statements *)
(* ================================================================== *)

(** The operator names the two predicates know. *)
Definition known_operators : list string :=
  [ "date_before"; "date_after"; "date_on"; "date_between";
    "empty"; "not_empty"; "equals"; "not_equals"; "contains";
    "not_contains"; "starts_with"; "ends_with";
    "greater_than"; "less_than"; "greater_equal"; "less_equal" ].

(** The comparison a numeric operator names; its first argument is the
    side of the field. *)
Definition numeric_comparison (operator : string)
    : option (float -> float -> bool) :=
  if String.eqb operator "greater_than" then Some (fun a b => f_lt b a)
  else if String.eqb operator "less_than" then Some (fun a b => f_lt a b)
  else if String.eqb operator "greater_equal" then Some (fun a b => f_le b a)
  else if String.eqb operator "less_equal" then Some (fun a b => f_le a b)
  else None.

(** One side of a numeric comparison read leniently: zero stands in for a
    value that is absent and for one that is no number. *)
Definition number_or_zero (v : PyVal) : float :=
  match py_float (or_zero v) with
  | Ok f => f
  | Raise _ => f_zero
  end.

(** A date and a time of day that [strftime] can be given. *)
Definition valid_datetime (dt : datetime) : bool :=
  valid_date (dt_date dt) && valid_hms (hour dt) (minute dt) (second dt).





(** The calls of a trace that send a message, and those that write back. *)
Definition is_send (ev : event) : bool :=
  match ev with EvSendMessage _ _ _ _ => true | _ => false end.
Definition is_update (ev : event) : bool :=
  match ev with EvUpdateRecord _ _ _ _ => true | _ => false end.

(** The gate of [get_records_to_process] as a predicate on one record. *)
Definition selected (force_send : bool) (r : record) : bool :=
  truthy (get_or (rec_fields r) "dossier_id" (VStr EmptyString))
  && (force_send
      || negb (eq_str (get_or (rec_fields r) "sync_mail" (VStr EmptyString))
                 "success")).

Definition is_ok {A} (r : Res A) : bool :=
  match r with Ok _ => true | Raise _ => false end.

(** The texts of a record can be produced: the collection of its date
    fields and the rendering of both templates return. *)
Definition renders (utcoffset : Z -> Z) (self : GitHubActionSender)
    (rec : record) : bool :=
  is_ok (date_fields_of utcoffset (rec_fields rec) [])
  && is_ok (format_message_with_dates utcoffset (message_subject (config self))
              (rec_fields rec))
  && is_ok (format_message_with_dates utcoffset (message_body (config self))
              (rec_fields rec)).

(** Both clients answer every call with a value: failures are reported in
    the answer, not raised. *)
Definition clients_return (self : GitHubActionSender) : Prop :=
  (forall t d i s b, is_ok (send_message (ds_client self) t d i s b) = true)
  /\ (forall t d tb i u, is_ok (update_record (grist_client self) t d tb i u) = true).

(** The error text of a result that is no success. *)
Definition error_text (res : result) : string :=
  match res_error res with
  | Some m => m
  | None => "Erreur inconnue"
  end.


(** ** Vocabulary of the round trip of written dates *)

(** The first result that is there. *)
Definition orelse {A} (a b : option A) : option A :=
  match a with Some x => Some x | None => b end.

(** [n] in two digits and in four digits, in front of [rest]. *)
Definition pad2 (n : Z) (rest : string) : string :=
  String (digit_char (n / 10)) (String (digit_char (n mod 10)) rest).
Definition pad4 (n : Z) (rest : string) : string :=
  String (digit_char (n / 1000)) (String (digit_char (n / 100 mod 10))
    (String (digit_char (n / 10 mod 10)) (String (digit_char (n mod 10)) rest))).

(** The continuation of a match with the first digit of a two-digit field
    alone. *)
Definition one_digit {A} (k : string -> string -> option A) (n : Z)
    (rest : string) : option A :=
  k (String (digit_char (n / 10)) EmptyString) (String (digit_char (n mod 10)) rest).

(** The integers [lo], [lo + 1], ..., [n] of them. *)
Fixpoint zseq (lo : Z) (n : nat) : list Z :=
  match n with
  | O => []
  | S k => lo :: zseq (lo + 1) k
  end.

(** The patterns of the three layouts the formats are made of. *)
Definition items_ymd : list fmt_item :=
  [ IGroup "Y" re_Y; IText (lit "-"); IGroup "m" re_m; IText (lit "-");
    IGroup "d" re_d ].
Definition items_dmy (sep : ascii) : list fmt_item :=
  [ IGroup "d" re_d; IText (lit sep); IGroup "m" re_m; IText (lit sep);
    IGroup "Y" re_Y ].
Definition items_hms : list fmt_item :=
  [ IGroup "H" re_H; IText (lit ":"); IGroup "M" re_M; IText (lit ":");
    IGroup "S" re_S ].

(** The texts of the three layouts. *)
Definition text_ymd (y m d : Z) (rest : string) : string :=
  pad4 y (String "-" (pad2 m (String "-" (pad2 d rest)))).
Definition text_dmy (sep : ascii) (y m d : Z) (rest : string) : string :=
  pad2 d (String sep (pad2 m (String sep (pad4 y rest)))).
Definition text_hms (h mi s : Z) (rest : string) : string :=
  pad2 h (String ":" (pad2 mi (String ":" (pad2 s rest)))).

(** The groups a match of a layout fills, the last one first. *)
Definition caps_ymd (y m d : Z) : captures :=
  [ ("d"%char, pad2 d EmptyString); ("m"%char, pad2 m EmptyString);
    ("Y"%char, pad4 y EmptyString) ].
Definition caps_dmy (y m d : Z) : captures :=
  [ ("Y"%char, pad4 y EmptyString); ("m"%char, pad2 m EmptyString);
    ("d"%char, pad2 d EmptyString) ].
Definition caps_hms (h mi s : Z) : captures :=
  [ ("S"%char, pad2 s EmptyString); ("M"%char, pad2 mi EmptyString);
    ("H"%char, pad2 h EmptyString) ].

(** The continuation of [re.match]: the groups and the text left over. *)
Definition found (caps : captures) (rest : string) : option (captures * string) :=
  Some (caps, rest).

(** The seven formats of [date_formats], by position. *)
Definition F1 : string := "%Y-%m-%d".
Definition F2 : string := "%d/%m/%Y".
Definition F3 : string := "%d-%m-%Y".
Definition F4 : string := "%Y-%m-%d %H:%M:%S".
Definition F5 : string := "%d/%m/%Y %H:%M:%S".
Definition F6 : string := "%Y-%m-%dT%H:%M:%S".
Definition F7 : string := "%Y-%m-%dT%H:%M:%SZ".

(** The format the formats lack: day, month, year with dashes and a time. *)
Definition F_dmy_dash_time : string := "%d-%m-%Y %H:%M:%S".

(** The last character of [s] is no white space. *)
Fixpoint ends_nonspace (s : string) : bool :=
  match s with
  | EmptyString => false
  | String c s' =>
      match s' with
      | EmptyString => negb (is_space c)
      | String _ _ => ends_nonspace s'
      end
  end.

(** ** Vocabulary of the further statements *)

(** The month and the day of a day number are those of a date. *)
Definition civil_ok (days : Z) : bool :=
  let '(y, m, d) := civil_from_days days in
  (1 <=? m) && (m <=? 12) && (1 <=? d) && (d <=? days_in_month y m).

(** The names of the groups of a pattern. *)
Fixpoint group_names (items : list fmt_item) : list ascii :=
  match items with
  | [] => []
  | IGroup n _ :: items' => n :: group_names items'
  | IText _ :: items' => group_names items'
  end.

(** One of three, and no more. *)
Definition exactly_one (a b c : bool) : bool :=
  (a && negb b && negb c) || (negb a && b && negb c) || (negb a && negb b && c).

(** The operators of [test_filter] that compare texts. *)
Definition text_operators : list string :=
  [ "equals"; "not_equals"; "contains"; "not_contains"; "starts_with"; "ends_with" ].

(** [math.isnan] *)
Definition is_nan (f : float) : bool :=
  match f with S754_nan => true | _ => false end.

(** A value without content: [None], or a text of white space only. *)
Definition blank (v : PyVal) : bool :=
  match v with
  | VNone => true
  | VStr s => str_forallb is_space s
  | _ => false
  end.

(** The verdict of one filter on one record, false when the evaluation
    raises. *)
Definition verdict (utcoffset : Z -> Z) (r : record) (f : filter_config) : bool :=
  match eval_filter utcoffset (rec_fields r) f with
  | Ok b => b
  | Raise _ => false
  end.

(** [l1] is [l2] with some elements left out, the order kept. *)
Inductive subsequence {A : Type} : list A -> list A -> Prop :=
| subsequence_nil : subsequence [] []
| subsequence_skip (x : A) (l1 l2 : list A) :
    subsequence l1 l2 -> subsequence l1 (x :: l2)
| subsequence_take (x : A) (l1 l2 : list A) :
    subsequence l1 l2 -> subsequence (x :: l1) (x :: l2).

(** The fields of the configuration that [validate_config] requires. *)
Definition required_fields (c : Config) : list string :=
  [ demarche_number c; message_subject c; message_body c;
    instructeur_id c; grist_doc_id c; grist_table c ].

(** What a call does, without its texts: the dossier a message goes to,
    the row a write-back changes. *)
Inductive footprint : Type :=
| Fetched
| Sent (dossier_id : string)
| Updated (record_id : Z).

Definition footprint_of (ev : event) : footprint :=
  match ev with
  | EvGetRecords _ _ => Fetched
  | EvSendMessage dossier_id _ _ _ => Sent dossier_id
  | EvUpdateRecord _ _ record_id _ => Updated record_id
  end.

(** The sender with sends forced. *)
Definition forced (self : GitHubActionSender) : GitHubActionSender :=
  mkSender (config self) (dry_run self) true (ds_client self)
    (grist_client self) (clock self).

(** The call that fetches the table. *)
Definition fetch_of (self : GitHubActionSender) : event :=
  EvGetRecords (grist_doc_id (config self)) (grist_table (config self)).

(** The text of the dossier of a record, as [send_message_to_record]
    reads it. *)
Definition dossier_of (rec : record) : string :=
  py_str (get_or (rec_fields rec) "dossier_id" (VStr EmptyString)).

(** The placeholder of a field in a template: its name in braces. *)
Definition placeholder (field_name : string) : string :=
  String "{" (String.append field_name "}").

(** ** Sample data *)

Definition f_1e30 : float := float_of_decimal false 1 30.

Definition sample_config : Config :=
  mkConfig "12345" "Dossier {dossier_id}" "Bonjour, echeance le {due}"
    "instructeur-1" "doc-1" "Table1" [] None.

(** A messaging client that accepts every message, and one that reports
    the same error for every message. *)
Definition ds_accepting : DSClient :=
  mkDSClient (fun _ _ _ _ _ => Ok (mkResult true false None)).
Definition ds_failing (msg : string) : DSClient :=
  mkDSClient (fun _ _ _ _ _ => Ok (mkResult false false (Some msg))).

(** A data store that serves [records] and acknowledges every update. *)
Definition grist_serving (records : list record) : GristClient :=
  mkGristClient (fun _ _ _ => Ok (RecordsOk records))
    (fun _ _ _ _ _ => Ok UpdateOk).

Definition sample_clock : trace -> string := fun _ => "2024-01-01T00:00:00".

Definition sample_sender (dry force : bool) (ds : DSClient)
    (records : list record) : GitHubActionSender :=
  mkSender sample_config dry force ds (grist_serving records) sample_clock.

Definition rec_42 : record :=
  mkRecord 1 [ ("dossier_id", VStr "42"); ("amount", VInt 120);
               ("due", VStr "2023-12-25") ].
Definition rec_sent : record :=
  mkRecord 2 [ ("dossier_id", VStr "43"); ("sync_mail", VStr "success") ].
Definition rec_no_dossier : record :=
  mkRecord 3 [ ("sync_mail", VStr "failure") ].
Definition rec_huge : record :=
  mkRecord 4 [ ("dossier_id", VStr "44"); ("amount", VFloat f_1e30) ].
Definition rec_45 : record :=
  mkRecord 5 [ ("dossier_id", VStr "45"); ("sync_mail", VStr "failure") ].

Definition long_message : string := string_of_list_ascii (repeat "x"%char 600).

Definition filter_amount : filter_config := mkFilter "amount" "greater_than" "100".
Definition filter_due : filter_config := mkFilter "due" "date_before" "2023-01-01".

Definition noon_2023_12_25 : datetime := mkDateTime (mkDate 2023 12 25) 14 30 0 0.

Definition filter_due_any : filter_config := mkFilter "due" "date_before" "".

(** A data store that reports an error. *)
Definition grist_erring (msg : string) : GristClient :=
  mkGristClient (fun _ _ _ => Ok (RecordsError msg))
    (fun _ _ _ _ _ => Ok UpdateOk).

Definition three_records : list record := [rec_42; rec_sent; rec_no_dossier].

(** A record whose [dossier_id] is [None]. *)
Definition rec_null_dossier : record := mkRecord 6 [ ("dossier_id", VNone) ].

(** A library [requests] that times out, and one that answers every
    request with status 200 and the same body. *)
Definition requests_timing_out : request -> attempt response :=
  fun _ => Threw (ExcTimeout "timed out").
Definition requests_answering (body : json) : request -> attempt response :=
  fun _ => Got (mkResponse 200 EmptyString (Got body)).

Definition sample_interpreter_text : pyexc -> string := fun _ => "TypeError".

Definition message_sent : json :=
  JObj [ ("data",
          JObj [ ("dossierEnvoyerMessage",
                  JObj [ ("message", JObj [ ("id", JStr "TWVzc2FnZS0x") ]);
                         ("errors", JNull) ]) ]) ].

Definition sample_environ : dict string :=
  [ ("DS_API_TOKEN", "ds-token"); ("GRIST_API_TOKEN", "grist-token");
    ("DRY_RUN", "True") ].

(* ================================================================== *)
(** * Properties *)
(* ================================================================== *)

Create HintDb script discriminated.

Lemma str_nonempty_false (s : string) : str_nonempty s = false <-> s = EmptyString.
Proof. destruct s; simpl; split; congruence. Qed.

Lemma str_nonempty_true (s : string) : str_nonempty s = true <-> s <> EmptyString.
Proof. destruct s; simpl; split; congruence. Qed.

Lemma lstrip_spaces (s : string) : str_forallb is_space s = true -> lstrip s = EmptyString.
Proof.
  induction s as [|c s IH]; simpl; [reflexivity|].
  intros H. apply andb_true_iff in H as [Hc Hs]. rewrite Hc. auto.
Qed.

Lemma rstrip_spaces (s : string) : str_forallb is_space s = true -> rstrip s = EmptyString.
Proof.
  induction s as [|c s IH]; simpl; [reflexivity|].
  intros H. apply andb_true_iff in H as [Hc Hs]. rewrite (IH Hs), Hc. reflexivity.
Qed.

Lemma strip_spaces (s : string) : str_forallb is_space s = true -> strip s = EmptyString.
Proof. intros H. unfold strip. rewrite (rstrip_spaces s H). reflexivity. Qed.

Lemma has_char_class (p : ascii -> bool) (c : ascii) (s : string) :
  p c = false -> str_forallb p s = true -> has_char c s = false.
Proof.
  intros Hc. induction s as [|c' s IH]; simpl; [reflexivity|].
  intros H. apply andb_true_iff in H as [Hc' Hs]. rewrite (IH Hs), orb_false_r.
  destruct (Ascii.eqb_spec c c') as [->|]; congruence.
Qed.

Lemma append_nonempty_r (a b : string) :
  str_nonempty b = true -> str_nonempty (String.append a b) = true.
Proof. destruct a; simpl; auto. Qed.

Lemma string_of_digits_nonempty (ds : list Z) :
  ds <> [] -> str_nonempty (string_of_digits ds) = true.
Proof. destruct ds; simpl; congruence. Qed.

Lemma string_of_nonneg_nonempty (n : Z) : str_nonempty (string_of_nonneg n) = true.
Proof.
  unfold string_of_nonneg. apply string_of_digits_nonempty.
  simpl rev_digits. destruct (n <? 10); simpl; intros H; [discriminate|].
  apply app_eq_nil in H as [_ H]. discriminate.
Qed.

Lemma layout_repr_nonempty (ds : string) (decpt : Z) :
  str_nonempty (layout_repr ds decpt) = true.
Proof.
  unfold layout_repr.
  destruct ((decpt <=? -4) || (16 <? decpt)); [now apply append_nonempty_r|].
  destruct (decpt <=? 0); [reflexivity|].
  destruct (decpt <? Z.of_nat (String.length ds)); now repeat apply append_nonempty_r.
Qed.

Lemma float_repr_nonempty (f : float) : str_nonempty (float_repr f) = true.
Proof.
  destruct f as [[|]|[|]| |s m e]; try reflexivity.
  unfold float_repr.
  destruct (shortest_decimal _ _ _ _ _ _) as [d e10].
  destruct s; [reflexivity|apply layout_repr_nonempty].
Qed.

(** The text of a truthy value is not empty. *)
Lemma py_str_nonempty (v : PyVal) : truthy v = true -> str_nonempty (py_str v) = true.
Proof.
  destruct v as [|[|]|z|f|s|dt]; simpl; try congruence; intros _.
  - unfold string_of_Z. destruct (z <? 0); [reflexivity|apply string_of_nonneg_nonempty].
  - apply float_repr_nonempty.
  - unfold str_datetime. now apply append_nonempty_r.
Qed.

Lemma slice_to_length (n : nat) (s : string) :
  String.length (slice_to n s) = Nat.min n (String.length s).
Proof.
  unfold slice_to. revert s. induction n as [|n IH]; intros [|c s]; simpl; auto.
Qed.

Lemma slice_to_prefix (n : nat) (s : string) : prefix (slice_to n s) s = true.
Proof.
  unfold slice_to. revert s. induction n as [|n IH]; intros [|c s]; simpl; auto.
  rewrite IH. destruct (ascii_dec c c); congruence.
Qed.

Lemma slice_to_short (n : nat) (s : string) :
  (String.length s <= n)%nat -> slice_to n s = s.
Proof.
  unfold slice_to. revert s. induction n as [|n IH]; intros [|c s]; simpl; auto.
  - intros H. inversion H.
  - intros H. f_equal. apply IH. now apply le_S_n.
Qed.

Lemma digit_not_space (c : ascii) : is_digit_char c = true -> is_space c = false.
Proof.
  destruct c as [[|] [|] [|] [|] [|] [|] [|] [|]]; vm_compute; congruence.
Qed.

Lemma dec_digit_is_digit (c : ascii) : is_dec_digit c = true -> is_digit_char c = true.
Proof. unfold is_digit_char. intros ->. reflexivity. Qed.




(** An operator outside [known_operators] differs from each of them. *)
Ltac unknown_operator H :=
  apply String.eqb_neq; intros ->; apply H; simpl; tauto.

Section Properties.

Variable utcoffset : Z -> Z.


(** ** Filter predicates *)

Lemma test_filter_unknown (field_value : PyVal) (operator value : string) :
  ~ In operator known_operators ->
  test_filter field_value operator value = Ok true.
Proof.
  intros H. unfold test_filter.
  replace (String.eqb operator "empty") with false by (symmetry; unknown_operator H).
  replace (String.eqb operator "not_empty") with false by (symmetry; unknown_operator H).
  destruct (negb (str_nonempty value)); [reflexivity|].
  replace (String.eqb operator "equals") with false by (symmetry; unknown_operator H).
  replace (String.eqb operator "not_equals") with false by (symmetry; unknown_operator H).
  replace (String.eqb operator "contains") with false by (symmetry; unknown_operator H).
  replace (String.eqb operator "not_contains") with false by (symmetry; unknown_operator H).
  replace (String.eqb operator "starts_with") with false by (symmetry; unknown_operator H).
  replace (String.eqb operator "ends_with") with false by (symmetry; unknown_operator H).
  replace (String.eqb operator "greater_than") with false by (symmetry; unknown_operator H).
  replace (String.eqb operator "less_than") with false by (symmetry; unknown_operator H).
  replace (String.eqb operator "greater_equal") with false by (symmetry; unknown_operator H).
  replace (String.eqb operator "less_equal") with false by (symmetry; unknown_operator H).
  reflexivity.
Qed.

Lemma check_date_filter_unknown (field_value : PyVal) (operator value : string) :
  ~ In operator known_operators ->
  value <> EmptyString ->
  check_date_filter utcoffset field_value operator value <> Ok true.
Proof.
  intros H Hv. unfold check_date_filter.
  apply str_nonempty_true in Hv. rewrite Hv. simpl negb. cbv iota.
  replace (String.eqb operator "date_before") with false by (symmetry; unknown_operator H).
  replace (String.eqb operator "date_after") with false by (symmetry; unknown_operator H).
  replace (String.eqb operator "date_on") with false by (symmetry; unknown_operator H).
  replace (String.eqb operator "date_between") with false by (symmetry; unknown_operator H).
  destruct (parse_date_value utcoffset field_value) as [[fd|]|e]; simpl; try discriminate.
  destruct e; simpl; discriminate.
Qed.

(** C1, as the code has it.  An operator name outside the sixteen known
    ones evaluates true when it does not start with [date_]; when it
    starts with [date_] it evaluates true for an empty operand and never
    for a non-empty one. *)
Theorem unknown_operator_by_family :
  forall (fields : dict PyVal) (fc : filter_config),
    ~ In (f_operator fc) known_operators ->
    (startswith (f_operator fc) "date_" = false ->
     eval_filter utcoffset fields fc = Ok true)
    /\ (startswith (f_operator fc) "date_" = true ->
        f_value fc = EmptyString ->
        eval_filter utcoffset fields fc = Ok true)
    /\ (startswith (f_operator fc) "date_" = true ->
        f_value fc <> EmptyString ->
        eval_filter utcoffset fields fc <> Ok true).
Proof.
  intros fields fc H. unfold eval_filter. repeat split.
  - intros ->. now apply test_filter_unknown.
  - intros -> Hv. unfold check_date_filter. rewrite Hv. reflexivity.
  - intros -> Hv. now apply check_date_filter_unknown.
Qed.

Lemma test_filter_numeric (field_value : PyVal) (operator value : string)
    (cmp : float -> float -> bool) :
  value <> EmptyString ->
  numeric_comparison operator = Some cmp ->
  test_filter field_value operator value = numeric_test cmp field_value value.
Proof.
  intros Hv Hop. apply str_nonempty_true in Hv.
  unfold numeric_comparison in Hop.
  destruct (String.eqb_spec operator "greater_than") as [->|_];
    [injection Hop as <-; unfold test_filter; simpl; rewrite Hv; reflexivity|].
  destruct (String.eqb_spec operator "less_than") as [->|_];
    [injection Hop as <-; unfold test_filter; simpl; rewrite Hv; reflexivity|].
  destruct (String.eqb_spec operator "greater_equal") as [->|_];
    [injection Hop as <-; unfold test_filter; simpl; rewrite Hv; reflexivity|].
  destruct (String.eqb_spec operator "less_equal") as [->|_];
    [injection Hop as <-; unfold test_filter; simpl; rewrite Hv; reflexivity|].
  discriminate.
Qed.

(** C3, as the code has it.  For a non-empty operand the four numeric
    operators read the field with zero in place of a falsy value (absent,
    empty, zero) and read both sides with [float()]; when both sides are
    numbers the result is their comparison, and when a side is no number
    ([ValueError], [TypeError]) the predicate is false. *)
Theorem numeric_operators_parse_or_fail :
  forall (field_value : PyVal) (operator value : string)
         (cmp : float -> float -> bool),
    value <> EmptyString ->
    numeric_comparison operator = Some cmp ->
    (truthy field_value = false ->
     py_float (or_zero field_value) = Ok f_zero)
    /\ (forall a b,
           py_float (or_zero field_value) = Ok a ->
           float_of_string value = Ok b ->
           test_filter field_value operator value = Ok (cmp a b))
    /\ (forall a,
           py_float (or_zero field_value) = Ok a ->
           float_of_string value = Raise ValueError ->
           test_filter field_value operator value = Ok false)
    /\ (py_float (or_zero field_value) = Raise ValueError
        \/ py_float (or_zero field_value) = Raise TypeError ->
        test_filter field_value operator value = Ok false).
Proof.
  intros field_value operator value cmp Hv Hop.
  rewrite (test_filter_numeric field_value operator value cmp Hv Hop).
  unfold numeric_test.
  assert (Hval : py_float (or_zero (VStr value)) = float_of_string value).
  { unfold or_zero. simpl. apply str_nonempty_true in Hv. rewrite Hv. reflexivity. }
  rewrite Hval. repeat split.
  - intros Hf. unfold or_zero. rewrite Hf. reflexivity.
  - intros a b -> ->. reflexivity.
  - intros a -> ->. reflexivity.
  - intros [-> | ->]; reflexivity.
Qed.

(** ** Absent values *)

(** C10, as the code has it.  A falsy value ([None], the empty string,
    a zero, [False]) is no date for the normaliser and the empty text for
    the French formatter; so is the timestamp 0.  A string of white space
    only is no date either, but the formatter hands it back unchanged. *)
Theorem falsy_value_is_absent :
  forall value : PyVal,
    (truthy value = false ->
     parse_date_value utcoffset value = Ok None
     /\ format_date_french utcoffset value = Ok EmptyString)
    /\ (forall s : string,
           value = VStr s -> s <> EmptyString ->
           str_forallb is_space s = true ->
           parse_date_value utcoffset value = Ok None
           /\ format_date_french utcoffset value = Ok s)
    /\ parse_date_value utcoffset (VInt 0) = Ok None.
Proof.
  intros value. split; [|split].
  - intros H. unfold parse_date_value, format_date_french. rewrite H. auto.
  - intros s -> Hs Hsp.
    assert (Hp : parse_date_value utcoffset (VStr s) = Ok None).
    { unfold parse_date_value. simpl. apply str_nonempty_true in Hs. rewrite Hs.
      simpl. rewrite (strip_spaces s Hsp). reflexivity. }
    split; [exact Hp|].
    unfold format_date_french. rewrite Hp. simpl.
    apply str_nonempty_true in Hs. rewrite Hs. simpl.
    rewrite (has_char_class is_space "-"%char s eq_refl Hsp). reflexivity.
  - reflexivity.
Qed.

(** ** Record selection *)

Lemma selection_gate_filter (force_send : bool) (records acc : list record) :
  selection_gate force_send records acc = acc ++ filter (selected force_send) records.
Proof.
  revert acc. induction records as [|r records IH]; intros acc; simpl.
  - now rewrite app_nil_r.
  - unfold selected at 1.
    destruct (truthy (get_or (rec_fields r) "dossier_id" (VStr EmptyString))); simpl.
    + destruct force_send; simpl.
      * rewrite IH, <- app_assoc. reflexivity.
      * destruct (eq_str (get_or (rec_fields r) "sync_mail" (VStr EmptyString)) "success");
          simpl; rewrite IH; [reflexivity|]. rewrite <- app_assoc. reflexivity.
    + apply IH.
Qed.

(** C4.  The gate keeps, in order, the records with a non-empty
    [dossier_id] whose [sync_mail] is not [success], or all of those with
    a non-empty [dossier_id] when sends are forced.  So a record whose
    [dossier_id] is absent or empty is dropped in every mode, a record
    already at [success] is left out without the force flag and taken
    with it. *)
Theorem selection_gate_rule :
  forall (force_send : bool) (records : list record),
    selection_gate force_send records [] = filter (selected force_send) records
    /\ (forall r,
           dict_get (rec_fields r) "dossier_id" = None
           \/ dict_get (rec_fields r) "dossier_id" = Some (VStr EmptyString) ->
           ~ In r (selection_gate force_send records []))
    /\ (forall r,
           truthy (get_or (rec_fields r) "dossier_id" (VStr EmptyString)) = false ->
           ~ In r (selection_gate force_send records []))
    /\ (forall r,
           get_or (rec_fields r) "sync_mail" (VStr EmptyString) = VStr "success" ->
           ~ In r (selection_gate false records []))
    /\ (forall r,
           In r records ->
           get_or (rec_fields r) "sync_mail" (VStr EmptyString) = VStr "success" ->
           truthy (get_or (rec_fields r) "dossier_id" (VStr EmptyString)) = true ->
           In r (selection_gate true records [])).
Proof.
  intros force_send records.
  assert (E : forall f, selection_gate f records [] = filter (selected f) records)
    by (intros f; apply selection_gate_filter).
  split; [apply E|]. rewrite !E. repeat split.
  - intros r H Hin. apply filter_In in Hin as [_ Hs]. unfold selected, get_or in Hs.
    destruct H as [H|H]; rewrite H in Hs; discriminate.
  - intros r H Hin. apply filter_In in Hin as [_ Hs]. unfold selected in Hs.
    rewrite H in Hs. discriminate.
  - intros r H Hin. apply filter_In in Hin as [_ Hs]. unfold selected in Hs.
    rewrite H in Hs. simpl in Hs. rewrite andb_false_r in Hs. discriminate.
  - intros r Hin _ Hd. apply filter_In. split; [exact Hin|].
    unfold selected. rewrite Hd. reflexivity.
Qed.

(** ** Filter composition *)

Lemma py_any_map {A} (b : A -> bool) (l : list A) : py_any (map b l) = existsb b l.
Proof. unfold py_any. induction l; simpl; congruence. Qed.

Lemma py_all_map {A} (b : A -> bool) (l : list A) : py_all (map b l) = forallb b l.
Proof. unfold py_all. induction l; simpl; congruence. Qed.

Lemma eval_filters_returns (fields : dict PyVal) (b : filter_config -> bool)
    (fs : list filter_config) (acc : list bool) :
  (forall f, In f fs -> eval_filter utcoffset fields f = Ok (b f)) ->
  eval_filters utcoffset fields fs acc = Ok (acc ++ map b fs).
Proof.
  revert acc. induction fs as [|f fs IH]; intros acc H; simpl.
  - now rewrite app_nil_r.
  - rewrite (H f (or_introl eq_refl)). simpl.
    rewrite IH by (intros; apply H; now right).
    now rewrite <- app_assoc.
Qed.

Lemma filter_loop_returns (b : record -> filter_config -> bool)
    (fs : list filter_config) (logic : string)
    (records acc : list record) :
  (forall r f, In r records -> In f fs ->
               eval_filter utcoffset (rec_fields r) f = Ok (b r f)) ->
  filter_loop utcoffset records fs logic acc
  = Ok (acc ++ filter (fun r => if String.eqb logic "OR"
                                then existsb (b r) fs else forallb (b r) fs)
                 records).
Proof.
  revert acc. induction records as [|r records IH]; intros acc H; simpl.
  - now rewrite app_nil_r.
  - rewrite (eval_filters_returns (rec_fields r) (b r) fs [])
      by (intros f Hf; apply H; [now left|exact Hf]).
    simpl. rewrite py_any_map, py_all_map.
    assert (H' : forall r0 f, In r0 records -> In f fs ->
                   eval_filter utcoffset (rec_fields r0) f = Ok (b r0 f))
      by (intros; apply H; [now right|assumption]).
    destruct (String.eqb logic "OR").
    + destruct (existsb (b r) fs); rewrite (IH _ H'); [|reflexivity].
      now rewrite <- app_assoc.
    + destruct (forallb (b r) fs); rewrite (IH _ H'); [|reflexivity].
      now rewrite <- app_assoc.
Qed.


(** ** Dispatch *)

Lemma selected_dossier (force_send : bool) (rec : record) :
  selected force_send rec = true ->
  str_nonempty (py_str (get_or (rec_fields rec) "dossier_id" (VStr EmptyString))) = true.
Proof.
  unfold selected. intros H. apply andb_true_iff in H as [H _].
  now apply py_str_nonempty.
Qed.


(** C7.  Outside dry-run mode, for a record with a [dossier_id] whose
    templates render and a send that returns, the dispatch calls the
    messaging client once and then writes back once.  After a success the
    fields written are [success] and an empty error text; after a
    reported error they are [failure] and the first 500 characters of
    the message of the client: the whole message when it has at most
    500 characters, exactly 500 characters otherwise. *)
Theorem outcome_written_back :
  forall (self : GitHubActionSender) (rec : record) (t : trace)
         (subject body : string) (res : result),
    dry_run self = false ->
    truthy (get_or (rec_fields rec) "dossier_id" (VStr EmptyString)) = true ->
    format_message_with_dates utcoffset (message_subject (config self))
      (rec_fields rec) = Ok subject ->
    format_message_with_dates utcoffset (message_body (config self))
      (rec_fields rec) = Ok body ->
    let dossier_id := py_str (get_or (rec_fields rec) "dossier_id" (VStr EmptyString)) in
    let sent := EvSendMessage dossier_id (instructeur_id (config self)) subject body in
    let now := clock self (t ++ [sent]) in
    send_message (ds_client self) t dossier_id (instructeur_id (config self))
      subject body = Ok res ->
    snd (send_message_to_record utcoffset self rec t)
    = t ++ [ sent;
             EvUpdateRecord (grist_doc_id (config self)) (grist_table (config self))
               (rec_id rec) (update_data_of res now) ]
    /\ (forall reply,
           update_record (grist_client self) (t ++ [sent])
             (grist_doc_id (config self)) (grist_table (config self))
             (rec_id rec) (update_data_of res now) = Ok reply ->
           fst (send_message_to_record utcoffset self rec t) = Ok res)
    /\ (res_success res = true ->
        update_data_of res now
        = [ ("sync_mail", VStr "success"); ("sync_date", VStr now);
            ("sync_error", VStr EmptyString) ])
    /\ (forall msg,
           res_success res = false -> res_error res = Some msg ->
           update_data_of res now
           = [ ("sync_mail", VStr "failure"); ("sync_date", VStr now);
               ("sync_error", VStr (slice_to 500 msg)) ]
           /\ (String.length (slice_to 500 msg) <= 500)%nat
           /\ prefix (slice_to 500 msg) msg = true
           /\ ((String.length msg <= 500)%nat -> slice_to 500 msg = msg)
           /\ ((500 < String.length msg)%nat ->
               String.length (slice_to 500 msg) = 500%nat)).
Proof.
  intros self rec t subject body res Hdry Hd Hs Hb dossier_id sent now Hsend.
  assert (Hne : str_nonempty dossier_id = true) by now apply py_str_nonempty.
  assert (E : send_message_to_record utcoffset self rec t
              = (let* _ := update_record (grist_client self) (t ++ [sent])
                             (grist_doc_id (config self)) (grist_table (config self))
                             (rec_id rec) (update_data_of res now) in Ok res,
                 t ++ [ sent;
                        EvUpdateRecord (grist_doc_id (config self))
                          (grist_table (config self)) (rec_id rec)
                          (update_data_of res now) ])).
  { unfold send_message_to_record, run_bind, lift, ret, call, ask.
    fold dossier_id. rewrite Hne, Hs, Hb, Hdry. cbn [negb]. cbv beta iota.
    fold sent. rewrite Hsend. cbn [negb]. cbv beta iota. fold now.
    rewrite <- app_assoc. simpl app.
    destruct (update_record _ _ _ _ _ _); reflexivity. }
  rewrite E. simpl fst. simpl snd. split; [reflexivity|]. split; [|split].
  - intros reply ->. reflexivity.
  - intros Hok. unfold update_data_of. rewrite Hok. reflexivity.
  - intros msg Hfail Herr. split; [|split; [|split; [|split]]].
    + unfold update_data_of. rewrite Hfail, Herr. reflexivity.
    + rewrite slice_to_length. apply Nat.le_min_l.
    + apply slice_to_prefix.
    + apply slice_to_short.
    + intros Hlong. rewrite slice_to_length. apply Nat.min_l. lia.
Qed.

Lemma is_ok_inv {A} (r : Res A) : is_ok r = true -> exists a, r = Ok a.
Proof. destruct r; simpl; [eauto|discriminate]. Qed.

Lemma process_record_returns (self : GitHubActionSender) (rec : record) (t : trace) :
  clients_return self -> renders utcoffset self rec = true ->
  exists res t', process_record utcoffset self rec t = (Ok res, t').
Proof.
  intros [Hds Hgrist] Hr. unfold renders in Hr.
  apply andb_true_iff in Hr as [Hr Hb]. apply andb_true_iff in Hr as [Hd Hs].
  apply is_ok_inv in Hd as [l Hd]. apply is_ok_inv in Hs as [subject Hs].
  apply is_ok_inv in Hb as [body Hb].
  unfold process_record, send_message_to_record, run_bind, lift, ret, call, ask.
  rewrite Hd. cbv beta iota.
  destruct (negb (str_nonempty _)); [eauto|].
  rewrite Hs, Hb. cbv beta iota.
  destruct (dry_run self); [eauto|]. cbn [negb]. cbv beta iota.
  match goal with
  | |- context [send_message ?c ?t0 ?d ?i ?s0 ?b0] =>
      destruct (is_ok_inv _ (Hds t0 d i s0 b0)) as [res ->]
  end.
  cbv beta iota.
  match goal with
  | |- context [update_record ?c ?t0 ?d ?tb ?i ?u] =>
      destruct (is_ok_inv _ (Hgrist t0 d tb i u)) as [reply ->]
  end.
  eauto.
Qed.

Lemma tally_accounts (results : batch_result) (dossier_id : PyVal) (res : result) :
  success_count (tally results dossier_id res)
  + error_count (tally results dossier_id res)
  = success_count results + error_count results + 1
  /\ Z.of_nat (List.length (details (tally results dossier_id res)))
     - error_count (tally results dossier_id res)
     = Z.of_nat (List.length (details results)) - error_count results
  /\ total_records (tally results dossier_id res) = total_records results.
Proof.
  unfold tally. destruct (res_success res); simpl; repeat split; try lia.
  rewrite length_app. simpl. lia.
Qed.

Lemma dispatch_loop_accounts (self : GitHubActionSender) (records : list record) :
  clients_return self ->
  (forall rec, In rec records -> renders utcoffset self rec = true) ->
  forall results t,
  exists results' t',
    dispatch_loop utcoffset self records results t = (Ok results', t')
    /\ success_count results' + error_count results'
       = success_count results + error_count results
         + Z.of_nat (List.length records)
    /\ Z.of_nat (List.length (details results')) - error_count results'
       = Z.of_nat (List.length (details results)) - error_count results
    /\ total_records results' = total_records results.
Proof.
  intros Hc. induction records as [|rec records IH]; intros Hr results t.
  - exists results, t. simpl. repeat split; lia.
  - destruct (process_record_returns self rec t Hc (Hr rec (or_introl eq_refl)))
      as (res & t1 & Hp).
    destruct (IH (fun r H => Hr r (or_intror H))
                (tally results (get_or (rec_fields rec) "dossier_id" (VStr "N/A")) res) t1)
      as (results' & t' & Hl & Hsum & Hdet & Htot).
    exists results', t'. cbn [dispatch_loop]. unfold run_bind at 1. rewrite Hp.
    split; [exact Hl|].
    destruct (tally_accounts results
                (get_or (rec_fields rec) "dossier_id" (VStr "N/A")) res)
      as (Hs1 & Hd1 & Ht1).
    cbn [List.length]. repeat split; lia.
Qed.

(** C2, as the code has it.  The loop has no handler of its own.  When
    the send of a record returns an error result, the error is counted,
    the identifier and the text of the error are appended to the details,
    and the loop goes on with the next record.  With clients that report
    their failures in their answers and records whose texts render, the
    loop goes through all the records and the counts add up.  An
    exception raised while one record is processed is the outcome of the
    loop: the records after it are not processed. *)
Theorem dispatch_loop_isolation :
  forall self : GitHubActionSender,
    (forall rec records results t res t',
        process_record utcoffset self rec t = (Ok res, t') ->
        res_success res = false ->
        let dossier_id := get_or (rec_fields rec) "dossier_id" (VStr "N/A") in
        dispatch_loop utcoffset self (rec :: records) results t
        = dispatch_loop utcoffset self records (tally results dossier_id res) t'
        /\ error_count (tally results dossier_id res) = error_count results + 1
        /\ success_count (tally results dossier_id res) = success_count results
        /\ details (tally results dossier_id res)
           = details results ++ [(dossier_id, error_text res)])
    /\ (forall records results t,
           clients_return self ->
           (forall rec, In rec records -> renders utcoffset self rec = true) ->
           exists results' t',
             dispatch_loop utcoffset self records results t = (Ok results', t')
             /\ success_count results' + error_count results'
                = success_count results + error_count results
                  + Z.of_nat (List.length records)
             /\ Z.of_nat (List.length (details results')) - error_count results'
                = Z.of_nat (List.length (details results)) - error_count results
             /\ total_records results' = total_records results)
    /\ (forall rec records results t e t',
           process_record utcoffset self rec t = (Raise e, t') ->
           dispatch_loop utcoffset self (rec :: records) results t = (Raise e, t')).
Proof.
  intros self. split; [|split].
  - intros rec records results t res t' Hp Hfail dossier_id.
    cbn [dispatch_loop]. unfold run_bind at 1. rewrite Hp. fold dossier_id.
    unfold tally, error_text. rewrite Hfail. simpl. auto.
  - intros records results t Hc Hr. now apply dispatch_loop_accounts.
  - intros rec records results t e t' Hp.
    cbn [dispatch_loop]. unfold run_bind at 1. rewrite Hp. reflexivity.
Qed.

(** ** Timestamps *)








End Properties.

(* ================================================================== *)
(** * The round trip of written dates *)
(* ================================================================== *)

(** ** Finite ranges *)

Lemma Z_range_cases (P : Z -> Prop) (lo : Z) (n : nat) :
  (forall i : nat, (i < n)%nat -> P (lo + Z.of_nat i)) ->
  forall z, lo <= z < lo + Z.of_nat n -> P z.
Proof.
  intros H z Hz. replace z with (lo + Z.of_nat (Z.to_nat (z - lo))) by lia.
  apply H. lia.
Qed.

Lemma zseq_In (n : nat) : forall lo z, lo <= z < lo + Z.of_nat n -> In z (zseq lo n).
Proof.
  induction n as [|n IH]; intros lo z Hz; [lia|].
  simpl. destruct (Z.eq_dec lo z) as [->|Hne]; [now left|right].
  apply IH. lia.
Qed.

Lemma Z_range_forallb (p : Z -> bool) (lo : Z) (n : nat) :
  forallb p (zseq lo n) = true ->
  forall z, lo <= z < lo + Z.of_nat n -> p z = true.
Proof.
  intros H z Hz. rewrite forallb_forall in H. apply H. now apply zseq_In.
Qed.

(** ** Digits *)

Lemma zero_pad_2 (n : Z) (rest : string) :
  0 <= n <= 99 -> String.append (zero_pad 2 n) rest = pad2 n rest.
Proof.
  intros Hn.
  assert (E : String.eqb (zero_pad 2 n) (pad2 n EmptyString) = true).
  { apply (Z_range_forallb
             (fun z => String.eqb (zero_pad 2 z) (pad2 z EmptyString))
             0 (Z.to_nat 100)); [vm_compute; reflexivity|lia]. }
  apply String.eqb_eq in E. rewrite E. reflexivity.
Qed.

Lemma zero_pad_4 (n : Z) (rest : string) :
  0 <= n <= 9999 -> String.append (zero_pad 4 n) rest = pad4 n rest.
Proof.
  intros Hn.
  assert (E : String.eqb (zero_pad 4 n) (pad4 n EmptyString) = true).
  { apply (Z_range_forallb
             (fun z => String.eqb (zero_pad 4 z) (pad4 z EmptyString))
             0 (Z.to_nat 10000)); [vm_compute; reflexivity|lia]. }
  apply String.eqb_eq in E. rewrite E. reflexivity.
Qed.

Lemma read_pad2 (n : Z) : 0 <= n <= 99 -> Z_of_digits (lstrip (pad2 n EmptyString)) = n.
Proof.
  intros Hn. apply Z.eqb_eq.
  apply (Z_range_forallb
           (fun z => Z_of_digits (lstrip (pad2 z EmptyString)) =? z)
           0 (Z.to_nat 100)); [vm_compute; reflexivity|lia].
Qed.

Lemma read_pad4 (n : Z) : 0 <= n <= 9999 -> Z_of_digits (lstrip (pad4 n EmptyString)) = n.
Proof.
  intros Hn. apply Z.eqb_eq.
  apply (Z_range_forallb
           (fun z => Z_of_digits (lstrip (pad4 z EmptyString)) =? z)
           0 (Z.to_nat 10000)); [vm_compute; reflexivity|lia].
Qed.

Lemma digit_char_dec (n : Z) : 0 <= n <= 9 -> is_dec_digit (digit_char n) = true.
Proof.
  intros Hn. apply (Z_range_forallb (fun z => is_dec_digit (digit_char z)) 0 10);
    [reflexivity|lia].
Qed.

Lemma dec_digit_not_space (c : ascii) : is_dec_digit c = true -> is_space c = false.
Proof. intros H. now apply digit_not_space, dec_digit_is_digit. Qed.

(** A digit is none of the separators of the formats. *)
Lemma dec_digit_not_lit (c a : ascii) :
  is_dec_digit c = true ->
  In a ["-"; "/"; ":"; "T"; "Z"]%char ->
  Ascii.eqb (lower_char c) (lower_char a) = false.
Proof.
  intros Hc Ha.
  assert (E : existsb (fun x => Ascii.eqb (lower_char c) (lower_char x))
                ["-"; "/"; ":"; "T"; "Z"]%char = false).
  { revert Hc. destruct c as [[|] [|] [|] [|] [|] [|] [|] [|]];
      vm_compute; intros H; first [reflexivity | discriminate H]. }
  destruct (Ascii.eqb (lower_char c) (lower_char a)) eqn:Hca; [|reflexivity].
  rewrite <- E. symmetry. apply existsb_exists. now exists a.
Qed.

Lemma pad4_digits (y : Z) :
  0 <= y <= 9999 ->
  is_dec_digit (digit_char (y / 1000)) = true
  /\ is_dec_digit (digit_char (y / 100 mod 10)) = true
  /\ is_dec_digit (digit_char (y / 10 mod 10)) = true
  /\ is_dec_digit (digit_char (y mod 10)) = true.
Proof.
  intros Hy. repeat split; apply digit_char_dec;
    try (pose proof (Z.mod_pos_bound (y / 100) 10); lia);
    try (pose proof (Z.mod_pos_bound (y / 10) 10); lia);
    try (pose proof (Z.mod_pos_bound y 10); lia).
  split; [apply Z.div_pos; lia|].
  assert (y / 1000 < 10) by (apply Z.div_lt_upper_bound; lia). lia.
Qed.

Lemma pad2_digits (n : Z) :
  0 <= n <= 99 ->
  is_dec_digit (digit_char (n / 10)) = true
  /\ is_dec_digit (digit_char (n mod 10)) = true.
Proof.
  intros Hn. split; apply digit_char_dec.
  - split; [apply Z.div_pos; lia|].
    assert (n / 10 < 10) by (apply Z.div_lt_upper_bound; lia). lia.
  - pose proof (Z.mod_pos_bound n 10). lia.
Qed.

(** White space around a digit that the context knows as one. *)
Ltac digits_no_space :=
  repeat match goal with
         | H : is_dec_digit ?c = true |- context [is_space ?c] =>
             rewrite (dec_digit_not_space c H)
         end.

(** ** Alternatives *)

Lemma orelse_some {A} (x y : option A) (a : A) : x = Some a -> orelse x y = Some a.
Proof. now intros ->. Qed.

Lemma orelse_none {A} (x y : option A) : x = None -> y = None -> orelse x y = None.
Proof. now intros -> ->. Qed.

Lemma orelse_none_r {A} (x : option A) : orelse x None = x.
Proof. now destruct x. Qed.

(** ** Continuations that agree *)

Lemma match_spaces_ext {A} (k1 k2 : string -> string -> option A) (s acc : string) :
  (forall a b, k1 a b = k2 a b) -> match_spaces s acc k1 = match_spaces s acc k2.
Proof.
  intros H. revert acc. induction s as [|c s IH]; intros acc; simpl; [reflexivity|].
  destruct (is_space c); [|reflexivity]. now rewrite IH, H.
Qed.

Lemma rmatch_ext {A} (r : regex) :
  forall (k1 k2 : string -> string -> option A) (s : string),
    (forall a b, k1 a b = k2 a b) -> rmatch r s k1 = rmatch r s k2.
Proof.
  induction r as [p|r1 IH1 r2 IH2|r1 IH1 r2 IH2|]; intros k1 k2 s H; simpl.
  - destruct s as [|c s]; [reflexivity|]. destruct (p c); [apply H|reflexivity].
  - apply IH1. intros m1 s1. apply IH2. intros m2 s2. apply H.
  - now rewrite (IH1 k1 k2 s H), (IH2 k1 k2 s H).
  - now apply match_spaces_ext.
Qed.

Lemma match_items_app {A} (l1 l2 : list fmt_item) (s : string) (caps : captures)
    (k : captures -> string -> option A) :
  match_items (l1 ++ l2) s caps k
  = match_items l1 s caps (fun caps' s' => match_items l2 s' caps' k).
Proof.
  revert s caps. induction l1 as [|[n r|r] l1 IH]; intros s caps; simpl.
  - reflexivity.
  - apply rmatch_ext. intros txt s'. apply IH.
  - apply rmatch_ext. intros txt s'. apply IH.
Qed.

(** ** The directives on the text of their field *)

(** One value of a field: both sides compute, up to the results of the
    continuation. *)
Ltac field_case :=
  intros; vm_compute;
  repeat match goal with
         | |- context [match ?k ?a ?b with _ => _ end] => destruct (k a b)
         end; reflexivity.

Section Directives.

Context {A : Type}.
Variable k : string -> string -> option A.

Lemma rmatch_m_pad (m : Z) (rest : string) :
  1 <= m <= 12 ->
  rmatch re_m (pad2 m rest) k
  = orelse (k (pad2 m EmptyString) rest)
      (if 10 <=? m then one_digit k m rest else None).
Proof.
  intros Hm. revert rest.
  apply (Z_range_cases
           (fun m => forall rest,
                rmatch re_m (pad2 m rest) k
                = orelse (k (pad2 m EmptyString) rest)
                    (if 10 <=? m then one_digit k m rest else None)) 1 12);
    [|lia].
  intros i Hi.
  do 12 (destruct i as [|i]; [field_case|]). exfalso. lia.
Qed.

Lemma rmatch_d_pad (d : Z) (rest : string) :
  1 <= d <= 31 ->
  rmatch re_d (pad2 d rest) k
  = orelse (k (pad2 d EmptyString) rest)
      (if 10 <=? d then one_digit k d rest else None).
Proof.
  intros Hd. revert rest.
  apply (Z_range_cases
           (fun d => forall rest,
                rmatch re_d (pad2 d rest) k
                = orelse (k (pad2 d EmptyString) rest)
                    (if 10 <=? d then one_digit k d rest else None)) 1 31);
    [|lia].
  intros i Hi.
  do 31 (destruct i as [|i]; [field_case|]). exfalso. lia.
Qed.

Lemma rmatch_H_pad (h : Z) (rest : string) :
  0 <= h <= 23 ->
  rmatch re_H (pad2 h rest) k
  = orelse (k (pad2 h EmptyString) rest) (one_digit k h rest).
Proof.
  intros Hh. revert rest.
  apply (Z_range_cases
           (fun h => forall rest,
                rmatch re_H (pad2 h rest) k
                = orelse (k (pad2 h EmptyString) rest) (one_digit k h rest))
           0 24); [|lia].
  intros i Hi.
  do 24 (destruct i as [|i]; [field_case|]). exfalso. lia.
Qed.

Lemma rmatch_M_pad (m : Z) (rest : string) :
  0 <= m <= 59 ->
  rmatch re_M (pad2 m rest) k
  = orelse (k (pad2 m EmptyString) rest) (one_digit k m rest).
Proof.
  intros Hm. revert rest.
  apply (Z_range_cases
           (fun m => forall rest,
                rmatch re_M (pad2 m rest) k
                = orelse (k (pad2 m EmptyString) rest) (one_digit k m rest))
           0 60); [|lia].
  intros i Hi.
  do 60 (destruct i as [|i]; [field_case|]). exfalso. lia.
Qed.

Lemma rmatch_S_pad (s : Z) (rest : string) :
  0 <= s <= 59 ->
  rmatch re_S (pad2 s rest) k
  = orelse (k (pad2 s EmptyString) rest) (one_digit k s rest).
Proof.
  intros Hs. revert rest.
  apply (Z_range_cases
           (fun s => forall rest,
                rmatch re_S (pad2 s rest) k
                = orelse (k (pad2 s EmptyString) rest) (one_digit k s rest))
           0 60); [|lia].
  intros i Hi.
  do 60 (destruct i as [|i]; [field_case|]). exfalso. lia.
Qed.

Lemma rmatch_Y_digits (c1 c2 c3 c4 : ascii) (rest : string) :
  is_dec_digit c1 = true -> is_dec_digit c2 = true ->
  is_dec_digit c3 = true -> is_dec_digit c4 = true ->
  rmatch re_Y (String c1 (String c2 (String c3 (String c4 rest)))) k
  = k (String c1 (String c2 (String c3 (String c4 EmptyString)))) rest.
Proof.
  intros H1 H2 H3 H4. unfold re_Y, cls_d. cbn [rmatch].
  now rewrite H1, H2, H3, H4.
Qed.

Lemma rmatch_Y_short (c1 c2 c3 : ascii) (rest : string) :
  is_dec_digit c3 = false ->
  rmatch re_Y (String c1 (String c2 (String c3 rest))) k = None.
Proof.
  intros H3. unfold re_Y, cls_d. cbn [rmatch].
  destruct (is_dec_digit c1); [|reflexivity].
  destruct (is_dec_digit c2); [|reflexivity].
  now rewrite H3.
Qed.

(** Whatever [re_d] matches at the start of a text is its first
    character or its first two. *)
Lemma rmatch_d_two (c1 c2 : ascii) (rest : string) :
  k (String c1 (String c2 EmptyString)) rest = None ->
  k (String c1 EmptyString) (String c2 rest) = None ->
  rmatch re_d (String c1 (String c2 rest)) k = None.
Proof.
  intros H2 H1. unfold re_d, cls, lit, cls_d. cbn [rmatch String.append].
  rewrite H2, H1.
  repeat match goal with
         | |- context [if ?b then _ else _] => destruct b
         end; reflexivity.
Qed.

Lemma rmatch_lit (a c : ascii) (rest : string) :
  rmatch (lit a) (String c rest) k
  = if Ascii.eqb (lower_char c) (lower_char a)
    then k (String c EmptyString) rest else None.
Proof. reflexivity. Qed.

Lemma rmatch_lit_hit (a : ascii) (rest : string) :
  rmatch (lit a) (String a rest) k = k (String a EmptyString) rest.
Proof. rewrite rmatch_lit. now rewrite Ascii.eqb_refl. Qed.

Lemma rmatch_lit_miss (a c : ascii) (rest : string) :
  Ascii.eqb (lower_char c) (lower_char a) = false ->
  rmatch (lit a) (String c rest) k = None.
Proof. intros H. rewrite rmatch_lit. now rewrite H. Qed.

Lemma rmatch_lit_digit (a c : ascii) (rest : string) :
  is_dec_digit c = true ->
  In a ["-"; "/"; ":"; "T"; "Z"]%char ->
  rmatch (lit a) (String c rest) k = None.
Proof. intros Hc Ha. now apply rmatch_lit_miss, dec_digit_not_lit. Qed.

Lemma rmatch_spaces_digit (c : ascii) (rest : string) :
  is_dec_digit c = true ->
  rmatch RSpaces (String c rest) k = None.
Proof. intros Hc. cbn. now rewrite (dec_digit_not_space c Hc). Qed.

Lemma rmatch_one_space (c : ascii) (rest : string) :
  is_dec_digit c = true ->
  rmatch RSpaces (String " " (String c rest)) k = k " "%string (String c rest).
Proof. intros Hc. cbn. now rewrite (dec_digit_not_space c Hc). Qed.

End Directives.

(** ** The three layouts *)

Section Layouts.

Context {A : Type}.
Variable k : captures -> string -> option A.
Variable items' : list fmt_item.

(** The pattern of year, month and day on the text of a date: the day
    is read whole, or by its first digit alone when it has two. *)
Lemma match_ymd (y m d : Z) (rest : string) (caps : captures) :
  0 <= y <= 9999 -> 1 <= m <= 12 -> 1 <= d <= 31 ->
  match_items (items_ymd ++ items') (text_ymd y m d rest) caps k
  = orelse
      (match_items items' rest (caps_ymd y m d ++ caps) k)
      (if 10 <=? d then
         match_items items' (String (digit_char (d mod 10)) rest)
           (("d"%char, String (digit_char (d / 10)) EmptyString)
              :: ("m"%char, pad2 m EmptyString)
              :: ("Y"%char, pad4 y EmptyString) :: caps) k
       else None).
Proof.
  intros Hy Hm Hd.
  destruct (pad4_digits y Hy) as (Y1 & Y2 & Y3 & Y4).
  destruct (pad2_digits m ltac:(lia)) as (M1 & M2).
  unfold items_ymd, text_ymd, caps_ymd. cbn [app match_items]. unfold pad4 at 1.
  rewrite (rmatch_Y_digits _ _ _ _ _ _ Y1 Y2 Y3 Y4).
  rewrite rmatch_lit_hit, rmatch_m_pad by lia.
  unfold one_digit. rewrite (rmatch_lit_digit _ "-" _ _ M2) by (simpl; tauto).
  replace (if 10 <=? m then None else None) with (@None A)
    by now destruct (10 <=? m).
  rewrite orelse_none_r, rmatch_lit_hit, rmatch_d_pad by lia.
  reflexivity.
Qed.

(** The pattern of day, month and year on the text of a date with the
    same separator: one way to match. *)
Lemma match_dmy (sep : ascii) (y m d : Z) (rest : string) (caps : captures) :
  In sep ["-"; "/"]%char ->
  0 <= y <= 9999 -> 1 <= m <= 12 -> 1 <= d <= 31 ->
  match_items (items_dmy sep ++ items') (text_dmy sep y m d rest) caps k
  = match_items items' rest (caps_dmy y m d ++ caps) k.
Proof.
  intros Hsep Hy Hm Hd.
  assert (Hsep' : In sep ["-"; "/"; ":"; "T"; "Z"]%char) by (simpl in *; tauto).
  destruct (pad4_digits y Hy) as (Y1 & Y2 & Y3 & Y4).
  destruct (pad2_digits m ltac:(lia)) as (M1 & M2).
  destruct (pad2_digits d ltac:(lia)) as (D1 & D2).
  unfold items_dmy, text_dmy, caps_dmy. cbn [app match_items].
  rewrite rmatch_d_pad by lia. unfold one_digit.
  rewrite (rmatch_lit_digit _ sep _ _ D2 Hsep').
  replace (if 10 <=? d then None else None) with (@None A)
    by now destruct (10 <=? d).
  rewrite orelse_none_r, rmatch_lit_hit, rmatch_m_pad by lia. unfold one_digit.
  rewrite (rmatch_lit_digit _ sep _ _ M2 Hsep').
  replace (if 10 <=? m then None else None) with (@None A)
    by now destruct (10 <=? m).
  rewrite orelse_none_r, rmatch_lit_hit. unfold pad4 at 1.
  rewrite (rmatch_Y_digits _ _ _ _ _ _ Y1 Y2 Y3 Y4). reflexivity.
Qed.

(** The pattern of the time of day on the text of a time: the seconds
    are read whole, or by their first digit alone. *)
Lemma match_hms (h mi s : Z) (rest : string) (caps : captures) :
  0 <= h <= 23 -> 0 <= mi <= 59 -> 0 <= s <= 59 ->
  match_items (items_hms ++ items') (text_hms h mi s rest) caps k
  = orelse
      (match_items items' rest (caps_hms h mi s ++ caps) k)
      (match_items items' (String (digit_char (s mod 10)) rest)
         (("S"%char, String (digit_char (s / 10)) EmptyString)
            :: ("M"%char, pad2 mi EmptyString)
            :: ("H"%char, pad2 h EmptyString) :: caps) k).
Proof.
  intros Hh Hmi Hs.
  destruct (pad2_digits h ltac:(lia)) as (H1 & H2).
  destruct (pad2_digits mi ltac:(lia)) as (M1 & M2).
  unfold items_hms, text_hms, caps_hms. cbn [app match_items].
  rewrite rmatch_H_pad by lia. unfold one_digit.
  rewrite (rmatch_lit_digit _ ":" _ _ H2) by (simpl; tauto).
  rewrite orelse_none_r, rmatch_lit_hit, rmatch_M_pad by lia. unfold one_digit.
  rewrite (rmatch_lit_digit _ ":" _ _ M2) by (simpl; tauto).
  rewrite orelse_none_r, rmatch_lit_hit, rmatch_S_pad by lia.
  reflexivity.
Qed.

(** A pattern that starts with the day does not match a text that
    starts with the year. *)
Lemma dmy_on_ymd (sep : ascii) (y m d : Z) (rest : string) (caps : captures) :
  In sep ["-"; "/"]%char -> 0 <= y <= 9999 ->
  match_items (items_dmy sep ++ items') (text_ymd y m d rest) caps k = None.
Proof.
  intros Hsep Hy.
  assert (Hsep' : In sep ["-"; "/"; ":"; "T"; "Z"]%char) by (simpl in *; tauto).
  destruct (pad4_digits y Hy) as (Y1 & Y2 & Y3 & Y4).
  unfold items_dmy, text_ymd, pad4. cbn [app match_items].
  apply rmatch_d_two; now apply rmatch_lit_digit.
Qed.

(** A pattern that starts with the year does not match a text that
    starts with the day. *)
Lemma ymd_on_dmy (sep : ascii) (y m d : Z) (rest : string) (caps : captures) :
  In sep ["-"; "/"]%char ->
  match_items (items_ymd ++ items') (text_dmy sep y m d rest) caps k = None.
Proof.
  intros Hsep. unfold items_ymd, text_dmy, pad2. cbn [app match_items].
  apply rmatch_Y_short. destruct Hsep as [<-|[<-|[]]]; reflexivity.
Qed.

(** A pattern with one separator does not match a text with the other. *)
Lemma dmy_on_other (sep sep' : ascii) (y m d : Z) (rest : string)
    (caps : captures) :
  In sep ["-"; "/"]%char -> 0 <= d <= 99 ->
  Ascii.eqb (lower_char sep') (lower_char sep) = false ->
  match_items (items_dmy sep ++ items') (text_dmy sep' y m d rest) caps k = None.
Proof.
  intros Hsep Hd Hne.
  assert (Hsep' : In sep ["-"; "/"; ":"; "T"; "Z"]%char) by (simpl in *; tauto).
  destruct (pad2_digits d Hd) as (D1 & D2).
  unfold items_dmy, text_dmy. unfold pad2 at 1. cbn [app match_items].
  apply rmatch_d_two; [now apply rmatch_lit_miss|now apply rmatch_lit_digit].
Qed.

End Layouts.

(** ** [strptime] and the loop over the formats *)

Lemma strptime_no_match (s fmt : string) (items : list fmt_item) :
  compile_format false fmt = Some items ->
  match_items items s [] found = None ->
  strptime s fmt = Raise ValueError.
Proof. intros Hc Hm. unfold strptime. rewrite Hc. fold found. now rewrite Hm. Qed.

Lemma strptime_leftover (s fmt : string) (items : list fmt_item)
    (caps : captures) (c : ascii) (rest : string) :
  compile_format false fmt = Some items ->
  match_items items s [] found = Some (caps, String c rest) ->
  strptime s fmt = Raise ValueError.
Proof. intros Hc Hm. unfold strptime. rewrite Hc. fold found. now rewrite Hm. Qed.

Lemma strptime_full (s fmt : string) (items : list fmt_item) (caps : captures) :
  compile_format false fmt = Some items ->
  match_items items s [] found = Some (caps, EmptyString) ->
  strptime s fmt
  = make_datetime (group_int "Y" 1900 caps) (group_int "m" 1 caps)
      (group_int "d" 1 caps) (group_int "H" 0 caps)
      (group_int "M" 0 caps) (group_int "S" 0 caps).
Proof. intros Hc Hm. unfold strptime. rewrite Hc. fold found. now rewrite Hm. Qed.

Lemma try_formats_skip (s f : string) (fs : list string) :
  strptime s f = Raise ValueError -> try_formats s (f :: fs) = try_formats s fs.
Proof. intros H. cbn [try_formats]. now rewrite H. Qed.

Lemma try_formats_hit (s f : string) (fs : list string) (dt : datetime) :
  strptime s f = Ok dt -> try_formats s (f :: fs) = Ok (Some (dt_date dt)).
Proof. intros H. cbn [try_formats]. now rewrite H. Qed.

Lemma formats_found (txt : string) (dd : date) :
  try_formats txt date_formats = Ok (Some dd) ->
  parse_date_formats txt = Ok (Some dd).
Proof. intros H. unfold parse_date_formats. now rewrite H. Qed.

Lemma compile_F1 : compile_format false F1 = Some (items_ymd ++ []).
Proof. reflexivity. Qed.
Lemma compile_F2 : compile_format false F2 = Some (items_dmy "/" ++ []).
Proof. reflexivity. Qed.
Lemma compile_F3 : compile_format false F3 = Some (items_dmy "-" ++ []).
Proof. reflexivity. Qed.
Lemma compile_F4 :
  compile_format false F4 = Some (items_ymd ++ IText RSpaces :: items_hms ++ []).
Proof. reflexivity. Qed.
Lemma compile_F5 :
  compile_format false F5 = Some (items_dmy "/" ++ IText RSpaces :: items_hms ++ []).
Proof. reflexivity. Qed.
Lemma compile_F6 :
  compile_format false F6 = Some (items_ymd ++ IText (lit "T") :: items_hms ++ []).
Proof. reflexivity. Qed.
Lemma compile_F7 :
  compile_format false F7
  = Some (items_ymd ++ IText (lit "T") :: items_hms ++ [IText (lit "Z")]).
Proof. reflexivity. Qed.

(** The ranges of the fields of a valid date and time. *)
Lemma valid_datetime_ranges (dt : datetime) :
  valid_datetime dt = true ->
  1 <= year (dt_date dt) <= 9999 /\ 1 <= month (dt_date dt) <= 12
  /\ 1 <= day (dt_date dt) <= 31
  /\ 0 <= hour dt <= 23 /\ 0 <= minute dt <= 59 /\ 0 <= second dt <= 59.
Proof.
  unfold valid_datetime, valid_date, valid_ymd, valid_hms, MINYEAR, MAXYEAR.
  intros H. repeat (apply andb_true_iff in H as [H ?]).
  assert (days_in_month (year (dt_date dt)) (month (dt_date dt)) <= 31).
  { unfold days_in_month.
    repeat match goal with |- context [if ?b then _ else _] => destruct b end; lia. }
  lia.
Qed.

Lemma rstrip_fixed (s : string) : ends_nonspace s = true -> rstrip s = s.
Proof.
  induction s as [|c s IH]; [discriminate|].
  destruct s as [|c' s]; intros H.
  - simpl in *. apply negb_true_iff in H. now rewrite H.
  - change (ends_nonspace (String c' s) = true) in H.
    change (rstrip (String c (String c' s)))
      with (match rstrip (String c' s) with
            | EmptyString => if is_space c then EmptyString else String c EmptyString
            | r => String c r
            end).
    now rewrite (IH H).
Qed.

Lemma not_all_digits (a : ascii) (s : string) :
  is_digit_char a = false -> has_char a s = true ->
  str_forallb is_digit_char s = false.
Proof.
  intros Ha. induction s as [|c s IH]; simpl; [discriminate|].
  intros H. apply orb_true_iff in H as [H|H].
  - apply Ascii.eqb_eq in H. subst c. now rewrite Ha.
  - rewrite (IH H). apply andb_false_r.
Qed.

(** The fields of a match, read back. *)
Ltac read_groups :=
  unfold caps_ymd, caps_dmy, caps_hms;
  cbn [group_int Ascii.eqb Bool.eqb app];
  rewrite ?read_pad2, ?read_pad4 by lia.

(** The text [strftime] writes, laid out. *)
Ltac text_of_strftime :=
  unfold text_ymd, text_dmy, text_hms, F1, F2, F3, F4, F5, F6, F7;
  cbn [strftime Ascii.eqb Bool.eqb directive_text year month day dt_date
         hour minute second];
  rewrite ?zero_pad_2, ?zero_pad_4 by lia; reflexivity.

Section WrittenDates.

Variable utcoffset : Z -> Z.

(** A text without white space at its ends that is not all digits goes
    to the formats as it is. *)
Lemma parse_written (a : ascii) (s : string) :
  lstrip s = s -> ends_nonspace s = true ->
  is_digit_char a = false -> has_char a s = true ->
  parse_date_value utcoffset (VStr s) = parse_date_formats s.
Proof.
  intros Hl Hr Ha Hs.
  assert (Hne : str_nonempty s = true) by (destruct s; [discriminate|reflexivity]).
  unfold parse_date_value. simpl. rewrite Hne. simpl.
  unfold strip. rewrite (rstrip_fixed s Hr), Hl.
  unfold parse_date_text, isdigit. rewrite Hne, (not_all_digits a s Ha Hs).
  reflexivity.
Qed.

(** A written date has no white space at its ends and is not all
    digits. *)
Ltac written sep :=
  rewrite (parse_written sep);
  [ | unfold text_ymd, text_dmy, text_hms, pad2, pad4;
      cbn [lstrip]; digits_no_space; reflexivity
    | unfold text_ymd, text_dmy, text_hms, pad2, pad4;
      cbn [ends_nonspace]; digits_no_space; reflexivity
    | reflexivity
    | unfold text_ymd, text_dmy, text_hms, pad2, pad4;
      cbn [has_char]; rewrite Ascii.eqb_refl; cbn [orb];
      rewrite ?orb_true_r; reflexivity ].

Section Dates.

Variables y m d : Z.
Hypothesis Hy : 1 <= y <= 9999.
Hypothesis Hm : 1 <= m <= 12.
Hypothesis Hd : 1 <= d <= 31.
Hypothesis Hdate : valid_ymd y m d = true.

Lemma made_date :
  make_datetime y m d 0 0 0 = Ok (mkDateTime (mkDate y m d) 0 0 0 0).
Proof. unfold make_datetime. now rewrite Hdate. Qed.

(** The date pattern alone on a text that starts with the date. *)
Lemma ymd_prefix (rest : string) :
  match_items (items_ymd ++ []) (text_ymd y m d rest) [] found
  = Some (caps_ymd y m d ++ [], rest).
Proof. rewrite match_ymd by lia. reflexivity. Qed.

Lemma dmy_prefix (sep : ascii) (rest : string) :
  In sep ["-"; "/"]%char ->
  match_items (items_dmy sep ++ []) (text_dmy sep y m d rest) [] found
  = Some (caps_dmy y m d ++ [], rest).
Proof. intros Hsep. rewrite match_dmy by (assumption || lia). reflexivity. Qed.

(** The pattern of format 4 wants white space where the text has a T. *)
Lemma F4_on_letter (rest : string) :
  match_items (items_ymd ++ IText RSpaces :: items_hms ++ [])
    (text_ymd y m d (String "T" rest)) [] found = None.
Proof.
  destruct (pad2_digits d ltac:(lia)) as (D1 & D2).
  rewrite match_ymd by lia. apply orelse_none.
  - reflexivity.
  - destruct (10 <=? d); [|reflexivity]. cbn [match_items].
    now apply rmatch_spaces_digit.
Qed.

(** Format 1: [%Y-%m-%d]. *)
Lemma back_F1 (dt : datetime) :
  strftime F1 dt = text_ymd y m d EmptyString ->
  parse_date_value utcoffset (VStr (strftime F1 dt)) = Ok (Some (mkDate y m d)).
Proof.
  intros ->.
  destruct (pad4_digits y ltac:(lia)) as (Y1 & Y2 & Y3 & Y4).
  destruct (pad2_digits d ltac:(lia)) as (D1 & D2).
  written "-"%char.
  apply formats_found. unfold date_formats.
  assert (E : strptime (text_ymd y m d EmptyString) F1
              = Ok (mkDateTime (mkDate y m d) 0 0 0 0)).
  { rewrite (strptime_full _ _ _ _ compile_F1 (ymd_prefix _)).
    read_groups. apply made_date. }
  now rewrite (try_formats_hit _ F1 _ _ E).
Qed.

(** Format 2: [%d/%m/%Y]. *)
Lemma back_F2 (dt : datetime) :
  strftime F2 dt = text_dmy "/" y m d EmptyString ->
  parse_date_value utcoffset (VStr (strftime F2 dt)) = Ok (Some (mkDate y m d)).
Proof.
  intros ->.
  destruct (pad4_digits y ltac:(lia)) as (Y1 & Y2 & Y3 & Y4).
  destruct (pad2_digits d ltac:(lia)) as (D1 & D2).
  written "/"%char.
  apply formats_found. unfold date_formats.
  rewrite (try_formats_skip _ F1)
    by (apply (strptime_no_match _ _ _ compile_F1), ymd_on_dmy; simpl; tauto).
  assert (E : strptime (text_dmy "/" y m d EmptyString) F2
              = Ok (mkDateTime (mkDate y m d) 0 0 0 0)).
  { rewrite (strptime_full _ _ _ _ compile_F2 (dmy_prefix "/" _ ltac:(simpl; tauto))).
    read_groups. apply made_date. }
  now rewrite (try_formats_hit _ F2 _ _ E).
Qed.

(** Format 3: [%d-%m-%Y]. *)
Lemma back_F3 (dt : datetime) :
  strftime F3 dt = text_dmy "-" y m d EmptyString ->
  parse_date_value utcoffset (VStr (strftime F3 dt)) = Ok (Some (mkDate y m d)).
Proof.
  intros ->.
  destruct (pad4_digits y ltac:(lia)) as (Y1 & Y2 & Y3 & Y4).
  destruct (pad2_digits d ltac:(lia)) as (D1 & D2).
  written "-"%char.
  apply formats_found. unfold date_formats.
  rewrite (try_formats_skip _ F1)
    by (apply (strptime_no_match _ _ _ compile_F1), ymd_on_dmy; simpl; tauto).
  rewrite (try_formats_skip _ F2)
    by (apply (strptime_no_match _ _ _ compile_F2), dmy_on_other;
        [simpl; tauto|lia|reflexivity]).
  assert (E : strptime (text_dmy "-" y m d EmptyString) F3
              = Ok (mkDateTime (mkDate y m d) 0 0 0 0)).
  { rewrite (strptime_full _ _ _ _ compile_F3 (dmy_prefix "-" _ ltac:(simpl; tauto))).
    read_groups. apply made_date. }
  now rewrite (try_formats_hit _ F3 _ _ E).
Qed.

Section Times.

Variables h mi s : Z.
Hypothesis Hh : 0 <= h <= 23.
Hypothesis Hmi : 0 <= mi <= 59.
Hypothesis Hs : 0 <= s <= 59.

Lemma made_datetime :
  make_datetime y m d h mi s = Ok (mkDateTime (mkDate y m d) h mi s 0).
Proof.
  unfold make_datetime. rewrite Hdate. unfold valid_hms.
  replace (0 <=? h) with true by (symmetry; apply Z.leb_le; lia).
  replace (h <=? 23) with true by (symmetry; apply Z.leb_le; lia).
  replace (0 <=? mi) with true by (symmetry; apply Z.leb_le; lia).
  replace (mi <=? 59) with true by (symmetry; apply Z.leb_le; lia).
  replace (0 <=? s) with true by (symmetry; apply Z.leb_le; lia).
  replace (s <=? 59) with true by (symmetry; apply Z.leb_le; lia).
  reflexivity.
Qed.

Lemma hms_tail (items' : list fmt_item) (rest : string) (caps : captures)
    (a : captures * string) :
  match_items items' rest (caps_hms h mi s ++ caps) found = Some a ->
  match_items (items_hms ++ items') (text_hms h mi s rest) caps found = Some a.
Proof. intros H. rewrite match_hms by lia. now apply orelse_some. Qed.

(** The time pattern after one blank. *)
Lemma spaces_hms (items' : list fmt_item) (rest : string) (caps : captures)
    (a : captures * string) :
  match_items items' rest (caps_hms h mi s ++ caps) found = Some a ->
  match_items (IText RSpaces :: items_hms ++ items')
    (String " " (text_hms h mi s rest)) caps found = Some a.
Proof.
  intros H. destruct (pad2_digits h ltac:(lia)) as (H1 & H2).
  cbn [match_items]. unfold text_hms at 1, pad2 at 1.
  rewrite (rmatch_one_space _ _ _ H1). now apply hms_tail.
Qed.

(** The time pattern after the letter T. *)
Lemma letter_hms (items' : list fmt_item) (rest : string) (caps : captures)
    (a : captures * string) :
  match_items items' rest (caps_hms h mi s ++ caps) found = Some a ->
  match_items (IText (lit "T") :: items_hms ++ items')
    (String "T" (text_hms h mi s rest)) caps found = Some a.
Proof.
  intros H. cbn [match_items]. rewrite rmatch_lit_hit. now apply hms_tail.
Qed.

(** Format 4: [%Y-%m-%d %H:%M:%S]. *)
Lemma back_F4 (dt : datetime) :
  strftime F4 dt = text_ymd y m d (String " " (text_hms h mi s EmptyString)) ->
  parse_date_value utcoffset (VStr (strftime F4 dt)) = Ok (Some (mkDate y m d)).
Proof.
  intros ->.
  destruct (pad4_digits y ltac:(lia)) as (Y1 & Y2 & Y3 & Y4).
  destruct (pad2_digits s ltac:(lia)) as (S1 & S2).
  written "-"%char.
  apply formats_found. unfold date_formats.
  rewrite (try_formats_skip _ F1)
    by (eapply strptime_leftover; [apply compile_F1|apply ymd_prefix]).
  rewrite (try_formats_skip _ F2)
    by (apply (strptime_no_match _ _ _ compile_F2), dmy_on_ymd;
        [simpl; tauto|lia]).
  rewrite (try_formats_skip _ F3)
    by (apply (strptime_no_match _ _ _ compile_F3), dmy_on_ymd;
        [simpl; tauto|lia]).
  assert (E : strptime (text_ymd y m d (String " " (text_hms h mi s EmptyString))) F4
              = Ok (mkDateTime (mkDate y m d) h mi s 0)).
  { rewrite (strptime_full _ _ _ (caps_hms h mi s ++ caps_ymd y m d ++ [])
               compile_F4).
    - read_groups. apply made_datetime.
    - rewrite match_ymd by lia. apply orelse_some. now apply spaces_hms. }
  now rewrite (try_formats_hit _ F4 _ _ E).
Qed.

(** Format 5: [%d/%m/%Y %H:%M:%S]. *)
Lemma back_F5 (dt : datetime) :
  strftime F5 dt = text_dmy "/" y m d (String " " (text_hms h mi s EmptyString)) ->
  parse_date_value utcoffset (VStr (strftime F5 dt)) = Ok (Some (mkDate y m d)).
Proof.
  intros ->.
  destruct (pad2_digits d ltac:(lia)) as (D1 & D2).
  destruct (pad2_digits s ltac:(lia)) as (S1 & S2).
  written "/"%char.
  apply formats_found. unfold date_formats.
  rewrite (try_formats_skip _ F1)
    by (apply (strptime_no_match _ _ _ compile_F1), ymd_on_dmy; simpl; tauto).
  rewrite (try_formats_skip _ F2)
    by (eapply strptime_leftover;
        [apply compile_F2|apply dmy_prefix; simpl; tauto]).
  rewrite (try_formats_skip _ F3)
    by (apply (strptime_no_match _ _ _ compile_F3), dmy_on_other;
        [simpl; tauto|lia|reflexivity]).
  rewrite (try_formats_skip _ F4)
    by (apply (strptime_no_match _ _ _ compile_F4), ymd_on_dmy; simpl; tauto).
  assert (E : strptime (text_dmy "/" y m d (String " " (text_hms h mi s EmptyString))) F5
              = Ok (mkDateTime (mkDate y m d) h mi s 0)).
  { rewrite (strptime_full _ _ _ (caps_hms h mi s ++ caps_dmy y m d ++ [])
               compile_F5).
    - read_groups. apply made_datetime.
    - rewrite match_dmy by (lia || (simpl; tauto)). now apply spaces_hms. }
  now rewrite (try_formats_hit _ F5 _ _ E).
Qed.

(** Format 6: [%Y-%m-%dT%H:%M:%S]. *)
Lemma back_F6 (dt : datetime) :
  strftime F6 dt = text_ymd y m d (String "T" (text_hms h mi s EmptyString)) ->
  parse_date_value utcoffset (VStr (strftime F6 dt)) = Ok (Some (mkDate y m d)).
Proof.
  intros ->.
  destruct (pad4_digits y ltac:(lia)) as (Y1 & Y2 & Y3 & Y4).
  destruct (pad2_digits s ltac:(lia)) as (S1 & S2).
  written "-"%char.
  apply formats_found. unfold date_formats.
  rewrite (try_formats_skip _ F1)
    by (eapply strptime_leftover; [apply compile_F1|apply ymd_prefix]).
  rewrite (try_formats_skip _ F2)
    by (apply (strptime_no_match _ _ _ compile_F2), dmy_on_ymd;
        [simpl; tauto|lia]).
  rewrite (try_formats_skip _ F3)
    by (apply (strptime_no_match _ _ _ compile_F3), dmy_on_ymd;
        [simpl; tauto|lia]).
  rewrite (try_formats_skip _ F4)
    by (apply (strptime_no_match _ _ _ compile_F4), F4_on_letter).
  rewrite (try_formats_skip _ F5)
    by (apply (strptime_no_match _ _ _ compile_F5), dmy_on_ymd;
        [simpl; tauto|lia]).
  assert (E : strptime (text_ymd y m d (String "T" (text_hms h mi s EmptyString))) F6
              = Ok (mkDateTime (mkDate y m d) h mi s 0)).
  { rewrite (strptime_full _ _ _ (caps_hms h mi s ++ caps_ymd y m d ++ [])
               compile_F6).
    - read_groups. apply made_datetime.
    - rewrite match_ymd by lia. apply orelse_some. now apply letter_hms. }
  now rewrite (try_formats_hit _ F6 _ _ E).
Qed.

(** Format 7: [%Y-%m-%dT%H:%M:%SZ]. *)
Lemma back_F7 (dt : datetime) :
  strftime F7 dt = text_ymd y m d (String "T" (text_hms h mi s "Z")) ->
  parse_date_value utcoffset (VStr (strftime F7 dt)) = Ok (Some (mkDate y m d)).
Proof.
  intros ->.
  destruct (pad4_digits y ltac:(lia)) as (Y1 & Y2 & Y3 & Y4).
  written "-"%char.
  apply formats_found. unfold date_formats.
  rewrite (try_formats_skip _ F1)
    by (eapply strptime_leftover; [apply compile_F1|apply ymd_prefix]).
  rewrite (try_formats_skip _ F2)
    by (apply (strptime_no_match _ _ _ compile_F2), dmy_on_ymd;
        [simpl; tauto|lia]).
  rewrite (try_formats_skip _ F3)
    by (apply (strptime_no_match _ _ _ compile_F3), dmy_on_ymd;
        [simpl; tauto|lia]).
  rewrite (try_formats_skip _ F4)
    by (apply (strptime_no_match _ _ _ compile_F4), F4_on_letter).
  rewrite (try_formats_skip _ F5)
    by (apply (strptime_no_match _ _ _ compile_F5), dmy_on_ymd;
        [simpl; tauto|lia]).
  rewrite (try_formats_skip _ F6).
  2:{ apply (strptime_leftover _ _ _ (caps_hms h mi s ++ caps_ymd y m d ++ [])
               "Z" EmptyString compile_F6).
      rewrite match_ymd by lia. apply orelse_some. now apply letter_hms. }
  assert (E : strptime (text_ymd y m d (String "T" (text_hms h mi s "Z"))) F7
              = Ok (mkDateTime (mkDate y m d) h mi s 0)).
  { rewrite (strptime_full _ _ _ (caps_hms h mi s ++ caps_ymd y m d ++ [])
               compile_F7).
    - read_groups. apply made_datetime.
    - rewrite match_ymd by lia. apply orelse_some. apply letter_hms.
      cbn [match_items]. now rewrite rmatch_lit_hit. }
  now rewrite (try_formats_hit _ F7 _ _ E).
Qed.

End Times.

End Dates.

(** C9, as the code has it.  For each of the seven formats of
    [date_formats] and every valid date and time of day, the text that
    [strftime] writes in that format reads back as the date. *)
Theorem written_date_round_trip :
  forall (fmt : string) (dt : datetime),
    In fmt date_formats ->
    valid_datetime dt = true ->
    parse_date_value utcoffset (VStr (strftime fmt dt)) = Ok (Some (dt_date dt)).
Proof.
  intros fmt dt Hfmt Hv.
  destruct (valid_datetime_ranges dt Hv) as (Hy & Hm & Hd & Hh & Hmi & Hs).
  assert (Hdate : valid_ymd (year (dt_date dt)) (month (dt_date dt))
                    (day (dt_date dt)) = true).
  { unfold valid_datetime, valid_date in Hv.
    now apply andb_true_iff in Hv as [Hv _]. }
  destruct dt as [[y m d] h mi s us].
  cbn [dt_date year month day hour minute second] in *.
  unfold date_formats in Hfmt. cbn [In] in Hfmt.
  destruct Hfmt as [<-|[<-|[<-|[<-|[<-|[<-|[<-|[]]]]]]]].
  - apply (back_F1 y m d); try assumption. text_of_strftime.
  - apply (back_F2 y m d); try assumption. text_of_strftime.
  - apply (back_F3 y m d); try assumption. text_of_strftime.
  - apply (back_F4 y m d) with (h := h) (mi := mi) (s := s); try assumption.
    text_of_strftime.
  - apply (back_F5 y m d) with (h := h) (mi := mi) (s := s); try assumption.
    text_of_strftime.
  - apply (back_F6 y m d) with (h := h) (mi := mi) (s := s); try assumption.
    text_of_strftime.
  - apply (back_F7 y m d) with (h := h) (mi := mi) (s := s); try assumption.
    text_of_strftime.
Qed.

End WrittenDates.

(* ================================================================== *)
(** * The statements on sample data *)
(* ================================================================== *)

(** ** Scenarios *)

Example scenario_amount_selected :
  apply_filters utc [rec_42] [filter_amount] "AND" = Ok [rec_42].
Proof. reflexivity. Qed.

Example scenario_due_excluded :
  apply_filters utc [rec_42] [filter_due] "AND" = Ok [].
Proof. reflexivity. Qed.

Example scenario_template :
  format_message_with_dates utc "Bonjour, echeance le {due}" (rec_fields rec_42)
  = Ok "Bonjour, echeance le 25/12/2023".
Proof. reflexivity. Qed.

Example scenario_between_inclusive :
  check_date_filter utc (VStr "2023-12-25") "date_between" "2023-12-25|2023-12-31"
  = Ok true
  /\ check_date_filter utc (VStr "2023-12-31") "date_between" "2023-12-25|2023-12-31"
     = Ok true
  /\ check_date_filter utc (VStr "2023-12-24") "date_between" "2023-12-25|2023-12-31"
     = Ok false
  /\ check_date_filter utc (VStr "2024-01-01") "date_between" "2023-12-25|2023-12-31"
     = Ok false.
Proof. repeat split; reflexivity. Qed.

(** A number too large for the clock of the platform: the conversion
    raises [OverflowError], which no handler of the script names. *)
Example huge_number_raises :
  parse_date_value utc (VFloat f_1e30) = Raise OverflowError
  /\ parse_date_value utc (VInt (10 ^ 30)) = Raise OverflowError
  /\ test_filter (VInt (10 ^ 400)) "less_than" "5" = Raise OverflowError.
Proof. repeat split; vm_compute; reflexivity. Qed.

(** ** C1 *)

Lemma bogus_unknown : ~ In "bogus" known_operators.
Proof. simpl. intuition discriminate. Qed.

Lemma date_bogus_unknown : ~ In "date_bogus" known_operators.
Proof. simpl. intuition discriminate. Qed.

Lemma unknown_operator_witness :
  eval_filter utc (rec_fields rec_42) (mkFilter "amount" "bogus" "5") = Ok true
  /\ eval_filter utc (rec_fields rec_42) (mkFilter "due" "date_bogus" "") = Ok true
  /\ eval_filter utc (rec_fields rec_42) (mkFilter "due" "date_bogus" "2023-01-01")
     <> Ok true.
Proof.
  split; [|split].
  - destruct (unknown_operator_by_family utc (rec_fields rec_42)
                (mkFilter "amount" "bogus" "5") bogus_unknown) as (H & _).
    apply H. reflexivity.
  - destruct (unknown_operator_by_family utc (rec_fields rec_42)
                (mkFilter "due" "date_bogus" "") date_bogus_unknown) as (_ & H & _).
    apply H; reflexivity.
  - destruct (unknown_operator_by_family utc (rec_fields rec_42)
                (mkFilter "due" "date_bogus" "2023-01-01") date_bogus_unknown)
      as (_ & _ & H).
    apply H; [reflexivity|discriminate].
Defined.

(** An unknown operator with the prefix [date_] on a date, with an
    operand: false, where C1 says true. *)
Lemma unknown_date_operator_is_false :
  ~ In "date_bogus" known_operators
  /\ eval_filter utc (rec_fields rec_42) (mkFilter "due" "date_bogus" "2023-01-01")
     = Ok false.
Proof. split; [exact date_bogus_unknown|reflexivity]. Qed.

(** ** C3 *)

Lemma numeric_operators_witness :
  test_filter (VInt 120) "greater_than" "100"
  = Ok (f_lt (float_of_Z 100) (float_of_Z 120))
  /\ py_float (or_zero VNone) = Ok f_zero
  /\ test_filter VNone "less_than" "5" = Ok (f_lt f_zero (float_of_Z 5))
  /\ test_filter (VStr "abc") "less_than" "5" = Ok false.
Proof.
  split; [|split; [|split]].
  - destruct (numeric_operators_parse_or_fail (VInt 120) "greater_than" "100"
                (fun a b => f_lt b a)) as (_ & H & _);
      [discriminate|reflexivity|].
    apply H; reflexivity.
  - destruct (numeric_operators_parse_or_fail VNone "less_than" "5"
                (fun a b => f_lt a b)) as (H & _);
      [discriminate|reflexivity|].
    apply H. reflexivity.
  - destruct (numeric_operators_parse_or_fail VNone "less_than" "5"
                (fun a b => f_lt a b)) as (_ & H & _);
      [discriminate|reflexivity|].
    apply H; reflexivity.
  - destruct (numeric_operators_parse_or_fail (VStr "abc") "less_than" "5"
                (fun a b => f_lt a b)) as (_ & _ & _ & H);
      [discriminate|reflexivity|].
    apply H. left. reflexivity.
Defined.

(** A field that is no number under [less_than]: false, where the
    comparison with zero in its place, as C3 has it, is true. *)
Lemma unparseable_side_is_false :
  test_filter (VStr "abc") "less_than" "5" = Ok false
  /\ f_lt (number_or_zero (VStr "abc")) (number_or_zero (VStr "5")) = true.
Proof. split; reflexivity. Qed.

(** ** C4 *)

Lemma selection_gate_witness :
  ~ In rec_no_dossier (selection_gate true [rec_42; rec_sent; rec_no_dossier] [])
  /\ ~ In rec_sent (selection_gate false [rec_42; rec_sent; rec_no_dossier] [])
  /\ In rec_sent (selection_gate true [rec_42; rec_sent; rec_no_dossier] []).
Proof.
  split; [|split].
  - destruct (selection_gate_rule true [rec_42; rec_sent; rec_no_dossier])
      as (_ & H & _).
    apply H. left. reflexivity.
  - destruct (selection_gate_rule false [rec_42; rec_sent; rec_no_dossier])
      as (_ & _ & _ & H & _).
    apply H. reflexivity.
  - destruct (selection_gate_rule true [rec_42; rec_sent; rec_no_dossier])
      as (_ & _ & _ & _ & H).
    apply H; [simpl; tauto|reflexivity|reflexivity].
Defined.

(** ** C5 *)


(** ** C6 *)


(** ** C7 *)

Lemma outcome_witness :
  snd (send_message_to_record utc
         (sample_sender false false (ds_failing long_message) []) rec_42 [])
  = [ EvSendMessage "42" "instructeur-1" "Dossier 01/01/1970"
        "Bonjour, echeance le 25/12/2023";
      EvUpdateRecord "doc-1" "Table1" 1
        [ ("sync_mail", VStr "failure");
          ("sync_date", VStr "2024-01-01T00:00:00");
          ("sync_error", VStr (slice_to 500 long_message)) ] ]
  /\ String.length (slice_to 500 long_message) = 500%nat
  /\ snd (send_message_to_record utc
            (sample_sender false false ds_accepting []) rec_42 [])
     = [ EvSendMessage "42" "instructeur-1" "Dossier 01/01/1970"
           "Bonjour, echeance le 25/12/2023";
         EvUpdateRecord "doc-1" "Table1" 1
           [ ("sync_mail", VStr "success");
             ("sync_date", VStr "2024-01-01T00:00:00");
             ("sync_error", VStr "") ] ].
Proof.
  destruct (outcome_written_back utc
              (sample_sender false false (ds_failing long_message) []) rec_42 []
              "Dossier 01/01/1970" "Bonjour, echeance le 25/12/2023"
              (mkResult false false (Some long_message))
              eq_refl eq_refl eq_refl eq_refl eq_refl)
    as (Htrace & _ & _ & Hfail).
  destruct (Hfail long_message eq_refl eq_refl) as (Hdata & _ & _ & _ & Hlong).
  destruct (outcome_written_back utc
              (sample_sender false false ds_accepting []) rec_42 []
              "Dossier 01/01/1970" "Bonjour, echeance le 25/12/2023"
              (mkResult true false None)
              eq_refl eq_refl eq_refl eq_refl eq_refl)
    as (Htrace' & _ & Hok & _).
  split; [|split].
  - rewrite Htrace, Hdata. reflexivity.
  - apply Hlong. vm_compute. repeat constructor.
  - rewrite Htrace', (Hok eq_refl). reflexivity.
Defined.

(** ** C2 *)

Lemma failing_client_returns (msg : string) (records : list record) :
  clients_return (sample_sender false false (ds_failing msg) records).
Proof. split; intros; reflexivity. Qed.

Lemma dispatch_loop_witness :
  (exists results' t',
      dispatch_loop utc (sample_sender false false (ds_failing "refus") [])
        [rec_42; rec_45] (mkBatch false 2 0 0 0 []) []
      = (Ok results', t')
      /\ success_count results' + error_count results' = 2
      /\ Z.of_nat (List.length (details results')) - error_count results' = 0
      /\ total_records results' = 2)
  /\ dispatch_loop utc (sample_sender false false (ds_failing "refus") [])
       [rec_huge; rec_45] (mkBatch false 2 0 0 0 []) []
     = (Raise OverflowError, [])
  /\ details (tally (mkBatch false 2 0 0 0 []) (VStr "42")
                (mkResult false false (Some "refus")))
     = [(VStr "42", "refus")].
Proof.
  destruct (dispatch_loop_isolation utc
              (sample_sender false false (ds_failing "refus") []))
    as (Hstep & Hall & Hraise).
  split; [|split].
  - apply (Hall [rec_42; rec_45] (mkBatch false 2 0 0 0 []) []).
    + apply failing_client_returns.
    + intros rec [<-|[<-|[]]]; reflexivity.
  - apply Hraise. vm_compute. reflexivity.
  - destruct (Hstep rec_42 [rec_45] (mkBatch false 2 0 0 0 []) []
                (mkResult false false (Some "refus"))
                [ EvSendMessage "42" "instructeur-1" "Dossier 01/01/1970"
                    "Bonjour, echeance le 25/12/2023";
                  EvUpdateRecord "doc-1" "Table1" 1
                    [ ("sync_mail", VStr "failure");
                      ("sync_date", VStr "2024-01-01T00:00:00");
                      ("sync_error", VStr "refus") ] ])
      as (_ & _ & _ & Hd); [reflexivity|reflexivity|].
    exact Hd.
Defined.

(** A record with a number too large in a cell, between two others: the
    run ends with the exception at that record, after the first record
    was sent and written back; the third is never processed and nothing is
    counted. *)
Lemma exception_ends_the_run :
  send_batch utc
    (sample_sender false false ds_accepting [rec_42; rec_huge; rec_45]) []
  = (Raise OverflowError,
     [ EvGetRecords "doc-1" "Table1";
       EvSendMessage "42" "instructeur-1" "Dossier 01/01/1970"
         "Bonjour, echeance le 25/12/2023";
       EvUpdateRecord "doc-1" "Table1" 1
         [ ("sync_mail", VStr "success");
           ("sync_date", VStr "2024-01-01T00:00:00");
           ("sync_error", VStr "") ] ]).
Proof. vm_compute. reflexivity. Qed.

(** ** C8 *)




(** ** C9 *)

Lemma round_trip_witness :
  parse_date_value utc (VStr (strftime "%d/%m/%Y %H:%M:%S" noon_2023_12_25))
  = Ok (Some (mkDate 2023 12 25))
  /\ strftime "%d/%m/%Y %H:%M:%S" noon_2023_12_25 = "25/12/2023 14:30:00".
Proof.
  split; [|reflexivity].
  apply (written_date_round_trip utc "%d/%m/%Y %H:%M:%S" noon_2023_12_25);
    [simpl; tauto|reflexivity].
Defined.

(** Day, month and year with dashes and a time of day: a variant with a
    time suffix that C9 counts among the formats, and no date for the
    normaliser. *)
Lemma dashed_date_with_time_is_lost :
  valid_datetime noon_2023_12_25 = true
  /\ strftime F_dmy_dash_time noon_2023_12_25 = "25-12-2023 14:30:00"
  /\ parse_date_value utc (VStr (strftime F_dmy_dash_time noon_2023_12_25))
     = Ok None.
Proof. repeat split; reflexivity. Qed.

(** ** C10 *)

Lemma falsy_witness :
  (parse_date_value utc (VFloat (S754_zero true)) = Ok None
   /\ format_date_french utc (VFloat (S754_zero true)) = Ok "")
  /\ (parse_date_value utc (VBool false) = Ok None
      /\ format_date_french utc (VBool false) = Ok "")
  /\ (parse_date_value utc (VStr "   ") = Ok None
      /\ format_date_french utc (VStr "   ") = Ok "   ").
Proof.
  split; [|split].
  - destruct (falsy_value_is_absent utc (VFloat (S754_zero true))) as (H & _).
    apply H. reflexivity.
  - destruct (falsy_value_is_absent utc (VBool false)) as (H & _).
    apply H. reflexivity.
  - destruct (falsy_value_is_absent utc (VStr "   ")) as (_ & H & _).
    apply (H "   "); [reflexivity|discriminate|reflexivity].
Defined.

(** A string of white space only: the formatter hands it back, where C10
    says it gives the empty text. *)
Lemma blank_text_is_kept :
  str_forallb is_space "   " = true
  /\ format_date_french utc (VStr "   ") = Ok "   "
  /\ format_date_french utc (VStr "   ") <> Ok "".
Proof. split; [reflexivity|split; [reflexivity|discriminate]]. Qed.

(* ================================================================== *)
(** * Further properties *)
(* ================================================================== *)

(** ** White space around a text *)

Lemma lstrip_head (s : string) (c : ascii) (r : string) :
  lstrip s = String c r -> is_space c = false.
Proof.
  induction s as [|a s IH]; simpl; [discriminate|].
  destruct (is_space a) eqn:E; [exact IH|]. intros H. injection H as <- _. exact E.
Qed.

Lemma lstrip_idem (s : string) : lstrip (lstrip s) = lstrip s.
Proof.
  destruct (lstrip s) as [|c r] eqn:E; [reflexivity|].
  simpl. now rewrite (lstrip_head s c r E).
Qed.

Lemma lstrip_padding (w s : string) :
  str_forallb is_space w = true -> lstrip (String.append w s) = lstrip s.
Proof.
  induction w as [|c w IH]; simpl; [reflexivity|].
  intros H. apply andb_true_iff in H as [Hc Hw]. rewrite Hc. now apply IH.
Qed.

Lemma rstrip_padding (s w : string) :
  str_forallb is_space w = true -> rstrip (String.append s w) = rstrip s.
Proof.
  intros Hw. induction s as [|c s IH].
  - simpl. now apply rstrip_spaces.
  - cbn [String.append rstrip]. now rewrite IH.
Qed.

Lemma rstrip_ends (s : string) :
  rstrip s = EmptyString \/ ends_nonspace (rstrip s) = true.
Proof.
  induction s as [|c s IH]; [now left|].
  cbn [rstrip]. destruct (rstrip s) as [|c' r] eqn:E.
  - destruct (is_space c) eqn:Hc; [now left|right]. simpl. now rewrite Hc.
  - right. destruct IH as [IH|IH]; [discriminate|]. exact IH.
Qed.

Lemma rstrip_idem (s : string) : rstrip (rstrip s) = rstrip s.
Proof.
  destruct (rstrip_ends s) as [H|H]; [now rewrite H|now apply rstrip_fixed].
Qed.

Lemma lstrip_ends (s : string) :
  ends_nonspace s = true -> ends_nonspace (lstrip s) = true.
Proof.
  induction s as [|c s IH]; [discriminate|].
  intros H. cbn [lstrip]. destruct (is_space c) eqn:Hc; [|exact H].
  destruct s as [|c' s]; [simpl in H; now rewrite Hc in H|].
  apply IH. exact H.
Qed.

Lemma strip_idem (s : string) : strip (strip s) = strip s.
Proof.
  unfold strip. destruct (rstrip_ends s) as [H|H].
  - now rewrite H.
  - rewrite (rstrip_fixed _ (lstrip_ends _ H)). apply lstrip_idem.
Qed.

Lemma rstrip_lead (w s : string) :
  str_forallb is_space w = true ->
  lstrip (rstrip (String.append w s)) = lstrip (rstrip s).
Proof.
  induction w as [|c w IH]; [reflexivity|].
  intros H. simpl in H. apply andb_true_iff in H as [Hc Hw].
  cbn [String.append rstrip].
  destruct (rstrip (String.append w s)) as [|c' r] eqn:E.
  - rewrite Hc. rewrite <- (IH Hw). reflexivity.
  - cbn [lstrip]. rewrite Hc. rewrite <- (IH Hw). reflexivity.
Qed.

Lemma strip_padding (w1 s w2 : string) :
  str_forallb is_space w1 = true -> str_forallb is_space w2 = true ->
  strip (String.append w1 (String.append s w2)) = strip s.
Proof.
  intros H1 H2. unfold strip. rewrite (rstrip_lead _ _ H1).
  now rewrite (rstrip_padding _ _ H2).
Qed.

Section PaddedText.
Variable utcoffset : Z -> Z.

Lemma parse_date_value_text (s : string) :
  parse_date_value utcoffset (VStr s) = parse_date_text utcoffset (strip s).
Proof.
  unfold parse_date_value. simpl. destruct s as [|c s]; reflexivity.
Qed.

(** White space around a text does not change the date read from it: the
    text padded with white space on both sides, and the text stripped,
    read as the text itself. *)
Theorem padded_text_reads_the_same :
  forall w1 s w2 : string,
    str_forallb is_space w1 = true -> str_forallb is_space w2 = true ->
    parse_date_value utcoffset (VStr (String.append w1 (String.append s w2)))
    = parse_date_value utcoffset (VStr s)
    /\ parse_date_value utcoffset (VStr (strip s))
       = parse_date_value utcoffset (VStr s).
Proof.
  intros w1 s w2 H1 H2. rewrite !parse_date_value_text. split.
  - now rewrite strip_padding.
  - now rewrite strip_idem.
Qed.
End PaddedText.

(** ** Calendar *)

Lemma is_leap_era (y k : Z) : is_leap (y + k * 400) = is_leap y.
Proof.
  unfold is_leap.
  replace ((y + k * 400) mod 4) with (y mod 4)
    by (replace (y + k * 400) with (y + (k * 100) * 4) by lia;
        now rewrite Z.mod_add by lia).
  replace ((y + k * 400) mod 100) with (y mod 100)
    by (replace (y + k * 400) with (y + (k * 4) * 100) by lia;
        now rewrite Z.mod_add by lia).
  replace ((y + k * 400) mod 400) with (y mod 400)
    by (now rewrite Z.mod_add by lia).
  reflexivity.
Qed.

Lemma days_in_month_era (y k m : Z) : days_in_month (y + k * 400) m = days_in_month y m.
Proof. unfold days_in_month. now rewrite is_leap_era. Qed.

Lemma civil_from_days_era (days : Z) :
  civil_from_days days
  = let '(y, m, d) := civil_from_days ((days + 719468) mod 146097 - 719468) in
    (y + (days + 719468) / 146097 * 400, m, d).
Proof.
  unfold civil_from_days.
  replace ((days + 719468) mod 146097 - 719468 + 719468)
    with ((days + 719468) mod 146097) by lia.
  set (z := days + 719468).
  pose proof (Z.mod_pos_bound z 146097 ltac:(lia)) as Hb.
  rewrite (Z.div_small (z mod 146097) 146097) by lia.
  replace (z - z / 146097 * 146097) with (z mod 146097)
    by (rewrite Z.mod_eq by lia; lia).
  replace (z mod 146097 - 0 * 146097) with (z mod 146097) by lia.
  cbv zeta. f_equal. f_equal. lia.
Qed.

Lemma civil_ok_first_era :
  forallb civil_ok (zseq (-719468) (Z.to_nat 146097)) = true.
Proof. vm_cast_no_check (eq_refl true). Qed.

Lemma civil_from_days_valid (days : Z) : civil_ok days = true.
Proof.
  unfold civil_ok. rewrite civil_from_days_era.
  pose proof (Z.mod_pos_bound (days + 719468) 146097 ltac:(lia)) as Hb.
  pose proof (Z_range_forallb civil_ok (-719468) (Z.to_nat 146097)
                civil_ok_first_era ((days + 719468) mod 146097 - 719468)
                ltac:(lia)) as H.
  unfold civil_ok in H.
  destruct (civil_from_days ((days + 719468) mod 146097 - 719468)) as [[y m] d].
  now rewrite days_in_month_era.
Qed.

Section ValidTimestamps.
Variable utcoffset : Z -> Z.

Lemma local_checked_valid (t y m d : Z) :
  local_checked utcoffset t = Ok (y, m, d) -> valid_ymd y m d = true.
Proof.
  unfold local_checked, localtime.
  pose proof (civil_from_days_valid ((t + utcoffset t) / 86400)) as Hc.
  unfold civil_ok in Hc.
  destruct (civil_from_days ((t + utcoffset t) / 86400)) as [[y0 m0] d0].
  destruct ((- 2 ^ 31 <=? y0 - 1900) && (y0 - 1900 <? 2 ^ 31)); [|discriminate].
  cbn [bind]. destruct (year_in_range y0) eqn:Hy; [|discriminate].
  intros H. injection H as <- <- <-.
  unfold valid_ymd. unfold year_in_range in Hy.
  apply andb_true_iff in Hy as [Hy1 Hy2].
  repeat (apply andb_true_iff in Hc as [Hc ?]).
  repeat (apply andb_true_iff; split); assumption.
Qed.

Lemma fromtimestamp_valid (n : number) (d : date) :
  fromtimestamp utcoffset n = Ok d -> valid_date d = true.
Proof.
  unfold fromtimestamp. destruct (time_t_of n) as [t|]; [|discriminate].
  cbn [bind]. destruct (local_checked utcoffset t) as [[[y m] d0]|] eqn:E; [|discriminate].
  cbn [bind]. destruct (local_checked utcoffset (t - 86400)); [|discriminate].
  cbn [bind].
  destruct (if utcoffset t - utcoffset (t - 86400) <? 0
            then local_checked utcoffset (t + (utcoffset t - utcoffset (t - 86400)))
            else Ok (y, m, d0)); [|discriminate].
  cbn [bind]. intros H. injection H as <-.
  exact (local_checked_valid _ _ _ _ E).
Qed.

Lemma try_timestamp_valid (n : Res number) (d : date) :
  try_timestamp utcoffset n = Ok (Some d) -> valid_date d = true.
Proof.
  unfold try_timestamp. destruct n as [n0|e]; cbn [bind].
  - destruct (scale_timestamp n0) as [ts|e]; cbn [bind].
    + destruct (fromtimestamp utcoffset ts) as [d0|e] eqn:E; cbn [bind catch].
      * intros H. injection H as <-. exact (fromtimestamp_valid _ _ E).
      * destruct (existsb (exn_eqb e) [ValueError; OSError]); discriminate.
    + cbn [catch]. destruct (existsb (exn_eqb e) [ValueError; OSError]); discriminate.
  - cbn [catch]. destruct (existsb (exn_eqb e) [ValueError; OSError]); discriminate.
Qed.

End ValidTimestamps.

Lemma make_datetime_valid (y m d h mi s : Z) (dt : datetime) :
  make_datetime y m d h mi s = Ok dt ->
  dt = mkDateTime (mkDate y m d) h mi s 0 /\ valid_datetime dt = true.
Proof.
  unfold make_datetime. destruct (valid_ymd y m d && valid_hms h mi s) eqn:E; [|discriminate].
  intros H. injection H as <-. split; [reflexivity|exact E].
Qed.

Lemma strptime_valid (s fmt : string) (dt : datetime) :
  strptime s fmt = Ok dt -> valid_datetime dt = true.
Proof.
  unfold strptime. destruct (compile_format false fmt) as [items|]; [|discriminate].
  destruct (match_items items s [] _) as [[caps rest]|]; [|discriminate].
  destruct (str_nonempty rest); [discriminate|].
  intros H. now apply make_datetime_valid in H.
Qed.

Lemma strptime_raises (s fmt : string) (e : exn) :
  strptime s fmt = Raise e -> e = ValueError.
Proof.
  unfold strptime. destruct (compile_format false fmt) as [items|]; [|congruence].
  destruct (match_items items s [] _) as [[caps rest]|]; [|congruence].
  destruct (str_nonempty rest); [congruence|].
  unfold make_datetime. destruct (_ && _); [discriminate|congruence].
Qed.

Lemma valid_datetime_date (dt : datetime) :
  valid_datetime dt = true -> valid_date (dt_date dt) = true.
Proof. unfold valid_datetime. intros H. now apply andb_true_iff in H. Qed.

Lemma try_formats_valid (s : string) (fmts : list string) (d : date) :
  try_formats s fmts = Ok (Some d) -> valid_date d = true.
Proof.
  induction fmts as [|f fmts IH]; cbn [try_formats]; [discriminate|].
  destruct (strptime s f) as [dt|e] eqn:E; cbn [bind catch].
  - intros H. injection H as <-. apply valid_datetime_date. exact (strptime_valid _ _ _ E).
  - rewrite (strptime_raises _ _ _ E). simpl. exact IH.
Qed.

Lemma try_formats_returns (s : string) (fmts : list string) :
  exists r, try_formats s fmts = Ok r.
Proof.
  induction fmts as [|f fmts IH]; cbn [try_formats]; [eauto|].
  destruct (strptime s f) as [dt|e] eqn:E; cbn [bind catch]; [eauto|].
  rewrite (strptime_raises _ _ _ E). simpl. exact IH.
Qed.

Lemma parse_date_formats_valid (s : string) (d : date) :
  parse_date_formats s = Ok (Some d) -> valid_date d = true.
Proof.
  unfold parse_date_formats.
  destruct (try_formats s date_formats) as [[d0|]|e] eqn:E; cbn [bind]; [| |discriminate].
  - intros H. injection H as <-. exact (try_formats_valid _ _ _ E).
  - destruct (re_search iso_pattern s) as [m|]; [|discriminate].
    destruct (strptime m "%Y-%m-%d") as [dt|e] eqn:Es; cbn [bind catch].
    + intros H. injection H as <-. apply valid_datetime_date. exact (strptime_valid _ _ _ Es).
    + rewrite (strptime_raises _ _ _ Es). simpl. discriminate.
Qed.

Lemma parse_date_formats_returns (s : string) :
  exists r, parse_date_formats s = Ok r.
Proof.
  unfold parse_date_formats. destruct (try_formats_returns s date_formats) as [r ->].
  cbn [bind]. destruct r as [d|]; [eauto|].
  destruct (re_search iso_pattern s) as [m|]; [|eauto].
  destruct (strptime m "%Y-%m-%d") as [dt|e] eqn:Es; cbn [bind catch]; [eauto|].
  rewrite (strptime_raises _ _ _ Es). simpl. eauto.
Qed.

Section ValidDates.
Variable utcoffset : Z -> Z.

Lemma parse_date_text_valid (s : string) (d : date) :
  parse_date_text utcoffset s = Ok (Some d) -> valid_date d = true.
Proof.
  unfold parse_date_text. destruct (negb (str_nonempty s)); [discriminate|].
  destruct (isdigit s).
  - destruct (try_timestamp utcoffset _) as [[d0|]|e] eqn:E; cbn [bind]; [| |discriminate].
    + intros H. injection H as <-. exact (try_timestamp_valid _ _ _ E).
    + apply parse_date_formats_valid.
  - cbn [bind]. apply parse_date_formats_valid.
Qed.

(** Every date the normaliser returns is a date of the calendar: the year
    within 1..9999, the month within 1..12, the day within the month, leap
    years counted; from a timestamp, from a written date and from an ISO
    date found in a text.  A [datetime] object hands its own date over, so
    that one has to be valid. *)
Theorem parsed_date_is_valid :
  forall (value : PyVal) (d : date),
    (forall dt, value = VDateTime dt -> valid_date (dt_date dt) = true) ->
    parse_date_value utcoffset value = Ok (Some d) ->
    valid_date d = true.
Proof.
  intros value d Hdt. unfold parse_date_value.
  destruct (negb (truthy value)); [discriminate|].
  destruct value as [|b|z|f|s|dt];
    try (cbn [as_number];
         match goal with
         | |- context [try_timestamp ?u ?n] =>
             destruct (try_timestamp u n) as [[d0|]|e] eqn:E; cbn [bind];
             [intros H; injection H as <-; exact (try_timestamp_valid _ _ _ E)
             |apply parse_date_text_valid|discriminate]
         end).
  - cbn [as_number bind]. apply parse_date_text_valid.
  - cbn [as_number bind]. apply parse_date_text_valid.
  - intros H. injection H as <-. now apply Hdt.
Qed.

End ValidDates.

(** ** What a match hands to its continuation *)

Lemma match_spaces_inv {A} (k : string -> string -> option A) (s acc : string) (a : A) :
  match_spaces s acc k = Some a -> exists m s', k m s' = Some a.
Proof.
  revert acc. induction s as [|c s IH]; intros acc; simpl; [discriminate|].
  destruct (is_space c); [|discriminate].
  destruct (match_spaces s _ k) as [a'|] eqn:E.
  - intros H. injection H as <-. exact (IH _ E).
  - eauto.
Qed.

Lemma rmatch_inv {A} (r : regex) :
  forall (k : string -> string -> option A) (s : string) (a : A),
    rmatch r s k = Some a -> exists m s', k m s' = Some a.
Proof.
  induction r as [p|r1 IH1 r2 IH2|r1 IH1 r2 IH2|]; intros k s a; simpl.
  - destruct s as [|c s]; [discriminate|]. destruct (p c); [eauto|discriminate].
  - intros H. apply IH1 in H as (m1 & s1 & H). apply IH2 in H as (m2 & s2 & H). eauto.
  - destruct (rmatch r1 s k) as [a'|] eqn:E.
    + intros H. injection H as <-. exact (IH1 _ _ _ E).
    + apply IH2.
  - apply match_spaces_inv.
Qed.

Lemma match_items_inv {A} (items : list fmt_item) :
  forall (k : captures -> string -> option A) (s : string) (caps : captures) (a : A),
    match_items items s caps k = Some a ->
    exists new s',
      k (new ++ caps) s' = Some a
      /\ Forall (fun p => In (fst p) (group_names items)) new.
Proof.
  induction items as [|[n r|r] items IH]; intros k s caps a; cbn [match_items group_names].
  - intros H. exists [], s. split; [exact H|constructor].
  - intros H. apply rmatch_inv in H as (txt & s1 & H).
    apply IH in H as (new & s' & H & Hn).
    exists (new ++ [(n, txt)]), s'. split.
    + now rewrite <- app_assoc.
    + apply Forall_app. split.
      * eapply Forall_impl; [|exact Hn]. intros p Hp. now right.
      * constructor; [now left|constructor].
  - intros H. apply rmatch_inv in H as (txt & s1 & H).
    apply IH in H as (new & s' & H & Hn). eauto.
Qed.

Lemma group_int_skip (n : ascii) (dflt : Z) (new caps : captures) :
  Forall (fun p => Ascii.eqb n (fst p) = false) new ->
  group_int n dflt (new ++ caps) = group_int n dflt caps.
Proof.
  induction new as [|[n' txt] new IH]; intros H; [reflexivity|].
  inversion H as [|? ? Hn Hrest]; subst. cbn [app group_int]. cbn [fst] in Hn.
  rewrite Hn. now apply IH.
Qed.

Lemma append_assoc (a b c : string) :
  String.append (String.append a b) c = String.append a (String.append b c).
Proof. induction a as [|x a IH]; simpl; [reflexivity|now rewrite IH]. Qed.

Lemma rstrip_cons (c : ascii) (s : string) :
  is_space c = false -> rstrip (String c s) = String c (rstrip s).
Proof. intros H. cbn [rstrip]. rewrite H. now destruct (rstrip s). Qed.

(** The formats either fail on a text or read one and the same date
    from it. *)
Lemma try_formats_one_date (s : string) (dd : date) (fmts : list string) :
  (forall f dt, In f fmts -> strptime s f = Ok dt -> dt_date dt = dd) ->
  try_formats s fmts = Ok None \/ try_formats s fmts = Ok (Some dd).
Proof.
  induction fmts as [|f fmts IH]; intros H; cbn [try_formats]; [now left|].
  destruct (strptime s f) as [dt|e] eqn:E; cbn [bind catch].
  - right. now rewrite (H f dt (or_introl eq_refl) E).
  - rewrite (strptime_raises _ _ _ E). simpl. apply IH.
    intros f' dt' Hf. apply H. now right.
Qed.

Section IsoPrefix.

Variables y m d : Z.
Hypothesis Hy : 1 <= y <= 9999.
Hypothesis Hm : 1 <= m <= 12.
Hypothesis Hd : 1 <= d <= 31.
Hypothesis Hdate : valid_ymd y m d = true.

Lemma iso_text (rest : string) :
  String.append (isoformat_date (mkDate y m d)) rest = text_ymd y m d rest.
Proof.
  unfold isoformat_date, text_ymd. cbn [year month day].
  rewrite append_assoc. cbn [String.append]. rewrite append_assoc.
  cbn [String.append].
  now rewrite zero_pad_4, !zero_pad_2 by lia.
Qed.

Lemma strptime_iso :
  strptime (text_ymd y m d EmptyString) F1 = Ok (mkDateTime (mkDate y m d) 0 0 0 0).
Proof.
  rewrite (strptime_full _ _ _ _ compile_F1 (ymd_prefix y m d Hy Hm Hd _)).
  read_groups. now apply made_date.
Qed.

Lemma F1_date (r : string) (dt : datetime) :
  strptime (text_ymd y m d r) F1 = Ok dt -> dt_date dt = mkDate y m d.
Proof.
  unfold strptime. rewrite compile_F1. fold found.
  rewrite (ymd_prefix y m d Hy Hm Hd r).
  destruct (str_nonempty r); [discriminate|].
  read_groups. intros H. apply make_datetime_valid in H as [-> _]. reflexivity.
Qed.

Lemma tail_date (fmt : string) (items' : list fmt_item) (r : string) (dt : datetime) :
  compile_format false fmt = Some (items_ymd ++ items') ->
  (forall c rest caps, is_dec_digit c = true ->
                       match_items items' (String c rest) caps found = None) ->
  Forall (fun n => In n ["H"; "M"; "S"]%char) (group_names items') ->
  strptime (text_ymd y m d r) fmt = Ok dt -> dt_date dt = mkDate y m d.
Proof.
  intros Hc Hdigit Hnames. unfold strptime. rewrite Hc. fold found.
  rewrite match_ymd by lia.
  destruct (pad2_digits d ltac:(lia)) as (D1 & D2).
  rewrite (Hdigit _ _ _ D2).
  replace (if 10 <=? d then None else None) with (@None (captures * string))
    by now destruct (10 <=? d).
  rewrite orelse_none_r.
  destruct (match_items items' r _ found) as [[caps' rest']|] eqn:E; [|discriminate].
  destruct (str_nonempty rest'); [discriminate|].
  apply match_items_inv in E as (new & s' & E & Hnew).
  unfold found in E. injection E as <- _.
  assert (Hskip : forall n, In n ["Y"; "m"; "d"]%char ->
                    Forall (fun p : ascii * string => Ascii.eqb n (fst p) = false) new).
  { intros n Hn. eapply Forall_impl; [|exact Hnew].
    intros p Hp. rewrite Forall_forall in Hnames. apply Hnames in Hp.
    simpl in Hn, Hp.
    destruct Hn as [<-|[<-|[<-|[]]]]; destruct Hp as [<-|[<-|[<-|[]]]]; reflexivity. }
  rewrite !group_int_skip by (apply Hskip; simpl; tauto).
  read_groups. intros H. apply make_datetime_valid in H as [-> _]. reflexivity.
Qed.

Lemma spaces_on_digit (items' : list fmt_item) (c : ascii) (rest : string)
    (caps : captures) :
  is_dec_digit c = true ->
  match_items (IText RSpaces :: items') (String c rest) caps found = None.
Proof. intros Hc. cbn [match_items]. now apply rmatch_spaces_digit. Qed.

Lemma letter_on_digit (items' : list fmt_item) (c : ascii) (rest : string)
    (caps : captures) :
  is_dec_digit c = true ->
  match_items (IText (lit "T") :: items') (String c rest) caps found = None.
Proof.
  intros Hc. cbn [match_items]. apply rmatch_lit_digit; [exact Hc|simpl; tauto].
Qed.

Lemma formats_one_date (r : string) :
  try_formats (text_ymd y m d r) date_formats = Ok None
  \/ try_formats (text_ymd y m d r) date_formats = Ok (Some (mkDate y m d)).
Proof.
  apply try_formats_one_date. intros f dt Hf.
  unfold date_formats in Hf. cbn [In] in Hf.
  destruct Hf as [<-|[<-|[<-|[<-|[<-|[<-|[<-|[]]]]]]]].
  - apply F1_date.
  - rewrite (strptime_no_match _ _ _ compile_F2); [discriminate|].
    apply dmy_on_ymd; [simpl; tauto|lia].
  - rewrite (strptime_no_match _ _ _ compile_F3); [discriminate|].
    apply dmy_on_ymd; [simpl; tauto|lia].
  - apply (tail_date _ _ _ _ compile_F4).
    + intros. now apply spaces_on_digit.
    + repeat constructor; simpl; tauto.
  - rewrite (strptime_no_match _ _ _ compile_F5); [discriminate|].
    apply dmy_on_ymd; [simpl; tauto|lia].
  - apply (tail_date _ _ _ _ compile_F6).
    + intros. now apply letter_on_digit.
    + repeat constructor; simpl; tauto.
  - apply (tail_date _ _ _ _ compile_F7).
    + intros. now apply letter_on_digit.
    + repeat constructor; simpl; tauto.
Qed.

Lemma iso_pattern_found (r : string) :
  re_search iso_pattern (text_ymd y m d r) = Some (text_ymd y m d EmptyString).
Proof.
  destruct (pad4_digits y ltac:(lia)) as (Y1 & Y2 & Y3 & Y4).
  destruct (pad2_digits m ltac:(lia)) as (M1 & M2).
  destruct (pad2_digits d ltac:(lia)) as (D1 & D2).
  unfold text_ymd, pad4, pad2, iso_pattern, re_Y, cls_d.
  cbn [re_search rmatch]. rewrite Y1, Y2, Y3, Y4, M1, M2, D1, D2.
  cbn [Ascii.eqb Bool.eqb String.append]. reflexivity.
Qed.

Lemma parse_date_formats_iso (r : string) :
  parse_date_formats (text_ymd y m d r) = Ok (Some (mkDate y m d)).
Proof.
  unfold parse_date_formats.
  destruct (formats_one_date r) as [-> | ->]; cbn [bind]; [|reflexivity].
  rewrite iso_pattern_found. fold F1. rewrite strptime_iso. reflexivity.
Qed.

Lemma text_ymd_strip (r : string) :
  strip (text_ymd y m d r) = text_ymd y m d (rstrip r).
Proof.
  destruct (pad4_digits y ltac:(lia)) as (Y1 & Y2 & Y3 & Y4).
  destruct (pad2_digits m ltac:(lia)) as (M1 & M2).
  destruct (pad2_digits d ltac:(lia)) as (D1 & D2).
  unfold strip, text_ymd, pad4, pad2.
  rewrite !rstrip_cons by (reflexivity || now apply dec_digit_not_space).
  cbn [lstrip]. now rewrite (dec_digit_not_space _ Y1).
Qed.

Lemma text_ymd_not_digits (r : string) : isdigit (text_ymd y m d r) = false.
Proof.
  unfold isdigit. rewrite (not_all_digits "-" _ eq_refl); [apply andb_false_r|].
  unfold text_ymd, pad4, pad2. cbn [has_char]. rewrite Ascii.eqb_refl.
  cbn [orb]. now rewrite ?orb_true_r.
Qed.

End IsoPrefix.

Lemma valid_date_ranges (d : date) :
  valid_date d = true ->
  1 <= year d <= 9999 /\ 1 <= month d <= 12 /\ 1 <= day d <= 31.
Proof.
  intros H.
  destruct (valid_datetime_ranges (mkDateTime d 0 0 0 0)) as (Hy & Hm & Hd & _).
  - unfold valid_datetime. cbn [dt_date hour minute second]. now rewrite H.
  - auto.
Qed.

Section IsoDates.
Variable utcoffset : Z -> Z.

(** A text that starts with the ISO form of a date reads as that date,
    whatever follows it: a time with fractions of a second, a zone, any
    other text. *)
Theorem iso_date_then_anything :
  forall (d : date) (rest : string),
    valid_date d = true ->
    parse_date_value utcoffset (VStr (String.append (isoformat_date d) rest))
    = Ok (Some d).
Proof.
  intros [y m d] rest Hv.
  destruct (valid_date_ranges _ Hv) as (Hy & Hm & Hd). cbn [year month day] in *.
  rewrite iso_text by assumption.
  rewrite parse_date_value_text, text_ymd_strip by assumption.
  unfold parse_date_text. rewrite text_ymd_not_digits. cbn [negb bind].
  unfold text_ymd at 1, pad4 at 1. cbn [str_nonempty negb].
  now apply parse_date_formats_iso.
Qed.

End IsoDates.

(** ** Comparison of dates *)

Lemma date_compare_antisym (a b : date) :
  date_compare b a = CompOpp (date_compare a b).
Proof.
  unfold date_compare.
  rewrite (Z.compare_antisym (year a) (year b)),
          (Z.compare_antisym (month a) (month b)),
          (Z.compare_antisym (day a) (day b)).
  destruct (year a ?= year b), (month a ?= month b), (day a ?= day b); reflexivity.
Qed.

Lemma date_compare_eq (a b : date) : date_compare a b = Eq <-> a = b.
Proof.
  unfold date_compare. destruct a as [y m d], b as [y' m' d']. cbn [year month day].
  split.
  - destruct (Z.compare_spec y y'); try discriminate.
    destruct (Z.compare_spec m m'); try discriminate.
    destruct (Z.compare_spec d d'); try discriminate. now subst.
  - intros H. injection H as -> -> ->. now rewrite !Z.compare_refl.
Qed.

Lemma date_eq_true (a b : date) : date_eq a b = true <-> a = b.
Proof.
  unfold date_eq. rewrite <- date_compare_eq.
  destruct (date_compare a b); split; congruence.
Qed.

Lemma date_orders (a b : date) :
  exactly_one (date_lt a b) (date_eq a b) (date_lt b a) = true.
Proof.
  unfold date_lt, date_eq. rewrite (date_compare_antisym a b).
  destruct (date_compare a b); reflexivity.
Qed.

Lemma date_le_spec (a b : date) :
  date_le a b = true <->
  (year a < year b
   \/ (year a = year b /\ (month a < month b
                           \/ (month a = month b /\ day a <= day b)))).
Proof.
  unfold date_le, date_compare.
  destruct (Z.compare_spec (year a) (year b));
    destruct (Z.compare_spec (month a) (month b));
    destruct (Z.compare_spec (day a) (day b)); split; intros; try lia;
      try reflexivity; try discriminate.
Qed.

Lemma date_lt_le (a b : date) : date_lt a b = negb (date_le b a).
Proof.
  unfold date_lt, date_le. rewrite (date_compare_antisym a b).
  destruct (date_compare a b); reflexivity.
Qed.

Lemma date_le_trans (a b c : date) :
  date_le a b = true -> date_le b c = true -> date_le a c = true.
Proof. rewrite !date_le_spec. lia. Qed.

Lemma append_nil_r (s : string) : String.append s EmptyString = s.
Proof. induction s as [|c s IH]; simpl; [reflexivity|now rewrite IH]. Qed.

Lemma strptime_isoformat (c : date) :
  valid_date c = true ->
  strptime (isoformat_date c) "%Y-%m-%d" = Ok (mkDateTime c 0 0 0 0).
Proof.
  intros Hv. destruct (valid_date_ranges _ Hv) as (Hy & Hm & Hd).
  destruct c as [y m d]. cbn [year month day] in *.
  rewrite <- (append_nil_r (isoformat_date _)), iso_text by assumption.
  apply strptime_iso; assumption || exact Hv.
Qed.

Lemma has_char_append (c : ascii) (a b : string) :
  has_char c (String.append a (String c b)) = true.
Proof.
  induction a as [|x a IH]; simpl.
  - now rewrite Ascii.eqb_refl.
  - rewrite IH. apply orb_true_r.
Qed.

Lemma split_on_absent (c : ascii) (s : string) :
  has_char c s = false -> split_on c s = [s].
Proof.
  induction s as [|x s IH]; simpl; [reflexivity|].
  intros H. apply orb_false_iff in H as [Hx Hs]. rewrite Hx, (IH Hs). reflexivity.
Qed.

Lemma split_on_first (c : ascii) (a b : string) :
  has_char c a = false ->
  split_on c (String.append a (String c b)) = a :: split_on c b.
Proof.
  induction a as [|x a IH]; simpl.
  - intros _. now rewrite Ascii.eqb_refl.
  - intros H. apply orb_false_iff in H as [Hx Ha]. rewrite Hx, (IH Ha). reflexivity.
Qed.

Lemma isoformat_no_bar (c : date) :
  valid_date c = true -> has_char "|" (isoformat_date c) = false.
Proof.
  intros Hv. destruct (valid_date_ranges _ Hv) as (Hy & Hm & Hd).
  destruct c as [y m d]. cbn [year month day] in *.
  rewrite <- (append_nil_r (isoformat_date _)), iso_text by assumption.
  destruct (pad4_digits y ltac:(lia)) as (Y1 & Y2 & Y3 & Y4).
  destruct (pad2_digits m ltac:(lia)) as (M1 & M2).
  destruct (pad2_digits d ltac:(lia)) as (D1 & D2).
  apply (has_char_class (fun x => is_dec_digit x || Ascii.eqb x "-")); [reflexivity|].
  unfold text_ymd, pad4, pad2. cbn [str_forallb].
  now rewrite Y1, Y2, Y3, Y4, M1, M2, D1, D2.
Qed.

Lemma isoformat_nonempty (c : date) : str_nonempty (isoformat_date c) = true.
Proof.
  unfold isoformat_date. apply str_nonempty_true. intros H.
  destruct (zero_pad 4 (year c)); discriminate.
Qed.

Section DateFilters.
Variable utcoffset : Z -> Z.

(** ** The French formatter on its own output *)




(** ** Date filters *)

Lemma check_date_filter_on_date (field_value : PyVal) (fd : date)
    (operator filter_value : string) :
  parse_date_value utcoffset field_value = Ok (Some fd) ->
  filter_value <> EmptyString ->
  check_date_filter utcoffset field_value operator filter_value
  = catch
      (if String.eqb operator "date_before" then
         let* c := strptime filter_value "%Y-%m-%d" in
         Ok (date_lt fd (dt_date c))
       else if String.eqb operator "date_after" then
         let* c := strptime filter_value "%Y-%m-%d" in
         Ok (date_lt (dt_date c) fd)
       else if String.eqb operator "date_on" then
         let* c := strptime filter_value "%Y-%m-%d" in
         Ok (date_eq fd (dt_date c))
       else if String.eqb operator "date_between" then
         if negb (has_char "|" filter_value) then Ok false
         else
           match split_on "|" filter_value with
           | [d0; d1] =>
               let* start_date := strptime d0 "%Y-%m-%d" in
               let* end_date := strptime d1 "%Y-%m-%d" in
               Ok (date_le (dt_date start_date) fd
                   && date_le fd (dt_date end_date))
           | _ => Ok false
           end
       else Ok false)
      [ValueError; TypeError] (Ok false).
Proof.
  intros Hp Hne. unfold check_date_filter.
  apply str_nonempty_true in Hne. rewrite Hne, Hp. reflexivity.
Qed.

(** On a field with a date and an operand in ISO form, [date_before],
    [date_on] and [date_after] compare the two dates; [date_on] holds
    exactly when they are equal, and exactly one of the three holds. *)
Theorem date_operators_trichotomy :
  forall (field_value : PyVal) (fd c : date),
    parse_date_value utcoffset field_value = Ok (Some fd) ->
    valid_date c = true ->
    check_date_filter utcoffset field_value "date_before" (isoformat_date c)
    = Ok (date_lt fd c)
    /\ check_date_filter utcoffset field_value "date_on" (isoformat_date c)
       = Ok (date_eq fd c)
    /\ check_date_filter utcoffset field_value "date_after" (isoformat_date c)
       = Ok (date_lt c fd)
    /\ (date_eq fd c = true <-> fd = c)
    /\ exactly_one (date_lt fd c) (date_eq fd c) (date_lt c fd) = true.
Proof.
  intros field_value fd c Hp Hv.
  assert (Hne : isoformat_date c <> EmptyString)
    by (apply str_nonempty_true, isoformat_nonempty).
  rewrite !(check_date_filter_on_date _ fd _ _ Hp Hne).
  cbn [String.eqb Ascii.eqb Bool.eqb]. rewrite (strptime_isoformat c Hv).
  cbn [bind catch dt_date].
  repeat split; try apply date_eq_true; try apply date_orders.
Qed.

(** [date_between] with two ISO dates joined by a bar holds exactly when
    the date of the field is neither before the first nor after the
    second; with the first date after the second it holds for no field. *)
Theorem date_between_is_an_inclusive_range :
  forall (field_value : PyVal) (fd lo hi : date),
    parse_date_value utcoffset field_value = Ok (Some fd) ->
    valid_date lo = true -> valid_date hi = true ->
    check_date_filter utcoffset field_value "date_between"
      (String.append (isoformat_date lo) (String "|" (isoformat_date hi)))
    = Ok (date_le lo fd && date_le fd hi)
    /\ (date_lt hi lo = true ->
        check_date_filter utcoffset field_value "date_between"
          (String.append (isoformat_date lo) (String "|" (isoformat_date hi)))
        = Ok false).
Proof.
  intros field_value fd lo hi Hp Hlo Hhi.
  assert (E : check_date_filter utcoffset field_value "date_between"
                (String.append (isoformat_date lo) (String "|" (isoformat_date hi)))
              = Ok (date_le lo fd && date_le fd hi)).
  { rewrite (check_date_filter_on_date _ fd _ _ Hp).
    - cbn [String.eqb Ascii.eqb Bool.eqb]. rewrite has_char_append. cbn [negb].
      rewrite (split_on_first _ _ _ (isoformat_no_bar lo Hlo)).
      rewrite (split_on_absent _ _ (isoformat_no_bar hi Hhi)).
      rewrite (strptime_isoformat lo Hlo), (strptime_isoformat hi Hhi).
      reflexivity.
    - intros H. pose proof (isoformat_nonempty lo) as Hn.
      destruct (isoformat_date lo); discriminate. }
  split; [exact E|]. intros Hrev. rewrite E. f_equal.
  destruct (date_le lo fd) eqn:H1; [|reflexivity].
  destruct (date_le fd hi) eqn:H2; [|reflexivity].
  rewrite date_lt_le, (date_le_trans _ _ _ H1 H2) in Hrev. discriminate.
Qed.

(** Whenever the date of the field can be read, a date filter returns a
    truth value, whatever the operator and the operand.  A field without a
    date fails every date filter with a non-empty operand, and an operand
    that is no date makes [date_before], [date_after] and [date_on] false:
    the [ValueError] of [strptime] does not leave the filter. *)
Theorem date_filter_reports_false_not_errors :
  forall (field_value : PyVal) (operator filter_value : string)
         (r : option date),
    parse_date_value utcoffset field_value = Ok r ->
    (exists b, check_date_filter utcoffset field_value operator filter_value = Ok b)
    /\ (r = None -> filter_value <> EmptyString ->
        check_date_filter utcoffset field_value operator filter_value = Ok false)
    /\ (forall e,
           In operator ["date_before"; "date_after"; "date_on"] ->
           filter_value <> EmptyString ->
           strptime filter_value "%Y-%m-%d" = Raise e ->
           check_date_filter utcoffset field_value operator filter_value = Ok false).
Proof.
  intros field_value operator filter_value r Hp.
  assert (Hs : forall s (k : datetime -> bool),
             exists b, catch (let* c := strptime s "%Y-%m-%d" in Ok (k c))
                         [ValueError; TypeError] (Ok false) = Ok b).
  { intros s k. destruct (strptime s "%Y-%m-%d") as [dt|e] eqn:E; cbn [bind catch].
    - eauto.
    - rewrite (strptime_raises _ _ _ E). simpl. eauto. }
  split; [|split].
  - destruct (String.eqb_spec filter_value EmptyString) as [->|Hne];
      [unfold check_date_filter; simpl; eauto|].
    destruct r as [fd|].
    + rewrite (check_date_filter_on_date _ fd _ _ Hp Hne).
      destruct (String.eqb operator "date_before"); [apply Hs|].
      destruct (String.eqb operator "date_after"); [apply Hs|].
      destruct (String.eqb operator "date_on"); [apply Hs|].
      destruct (String.eqb operator "date_between"); [|simpl; eauto].
      destruct (negb (has_char "|" filter_value)); [simpl; eauto|].
      destruct (split_on "|" filter_value) as [|d0 [|d1 [|d2 l]]]; try (simpl; eauto).
      destruct (strptime d0 "%Y-%m-%d") as [dt0|e0] eqn:E0; cbn [bind catch].
      * destruct (strptime d1 "%Y-%m-%d") as [dt1|e1] eqn:E1; cbn [bind catch]; [eauto|].
        rewrite (strptime_raises _ _ _ E1). simpl. eauto.
      * rewrite (strptime_raises _ _ _ E0). simpl. eauto.
    + unfold check_date_filter. apply str_nonempty_true in Hne.
      rewrite Hne, Hp. simpl. eauto.
  - intros -> Hne. unfold check_date_filter. apply str_nonempty_true in Hne.
    now rewrite Hne, Hp.
  - intros e Hop Hne Hbad. rewrite (strptime_raises _ _ _ Hbad) in Hbad.
    unfold check_date_filter. apply str_nonempty_true in Hne. rewrite Hne, Hp.
    cbn [negb bind]. destruct r as [fd|]; [|reflexivity].
    simpl in Hop. destruct Hop as [<-|[<-|[<-|[]]]];
      cbn [String.eqb Ascii.eqb Bool.eqb]; rewrite Hbad; reflexivity.
Qed.

End DateFilters.

(** ** Containment of texts *)

Lemma prefix_refl (s : string) : prefix s s = true.
Proof.
  induction s as [|c s IH]; simpl; [reflexivity|].
  destruct (ascii_dec c c); [exact IH|contradiction].
Qed.

Lemma contains_refl (s : string) : contains s s = true.
Proof. destruct s; cbn [contains]; now rewrite prefix_refl. Qed.

Lemma endswith_refl (s : string) : endswith s s = true.
Proof. destruct s; cbn [endswith]; now rewrite String.eqb_refl. Qed.

Lemma prefix_contains (s p : string) : prefix p s = true -> contains s p = true.
Proof. intros H. destruct s; cbn [contains]; now rewrite H. Qed.

Lemma endswith_contains (s p : string) : endswith s p = true -> contains s p = true.
Proof.
  induction s as [|c s IH]; cbn [endswith contains].
  - rewrite orb_false_r. intros H. apply String.eqb_eq in H. now subst.
  - intros H. apply orb_true_iff in H as [H|H].
    + apply String.eqb_eq in H. subst p. now rewrite prefix_refl.
    + rewrite (IH H). apply orb_true_r.
Qed.

(** ** Lower case *)

Lemma lower_char_idem (c : ascii) : lower_char (lower_char c) = lower_char c.
Proof. destruct c as [[|] [|] [|] [|] [|] [|] [|] [|]]; vm_compute; reflexivity. Qed.

Lemma lower_idem (s : string) : lower (lower s) = lower s.
Proof.
  unfold lower. induction s as [|c s IH]; simpl; [reflexivity|].
  now rewrite lower_char_idem, IH.
Qed.

Lemma lower_nonempty (s : string) : str_nonempty (lower s) = str_nonempty s.
Proof. now destruct s. Qed.

(** For a non-empty operand, [not_equals] and [not_contains] are the
    negations of [equals] and [contains]; a field that equals the operand
    starts and ends with it, and a field that starts or ends with the
    operand contains it. *)
Theorem text_operators_cohere :
  forall (field_value : PyVal) (value : string),
    value <> EmptyString ->
    exists eq co st en : bool,
      test_filter field_value "equals" value = Ok eq
      /\ test_filter field_value "not_equals" value = Ok (negb eq)
      /\ test_filter field_value "contains" value = Ok co
      /\ test_filter field_value "not_contains" value = Ok (negb co)
      /\ test_filter field_value "starts_with" value = Ok st
      /\ test_filter field_value "ends_with" value = Ok en
      /\ (eq = true -> st = true /\ en = true)
      /\ (st = true -> co = true)
      /\ (en = true -> co = true).
Proof.
  intros field_value value Hne. apply str_nonempty_true in Hne.
  set (field_str := if is_none field_value then EmptyString
                    else lower (py_str field_value)).
  exists (String.eqb field_str (lower value)), (contains field_str (lower value)),
         (startswith field_str (lower value)), (endswith field_str (lower value)).
  unfold test_filter. cbn [String.eqb Ascii.eqb Bool.eqb]. rewrite Hne. cbn [negb].
  fold field_str. repeat split.
  - apply String.eqb_eq in H. rewrite H. apply prefix_refl.
  - apply String.eqb_eq in H. rewrite H. apply endswith_refl.
  - apply prefix_contains.
  - apply endswith_contains.
Qed.

(** The six text operators do not tell upper case from lower case, on
    neither side. *)
Theorem text_operators_ignore_case :
  forall (s value operator : string),
    In operator text_operators ->
    test_filter (VStr (lower s)) operator (lower value)
    = test_filter (VStr s) operator value.
Proof.
  intros s value operator Hop. unfold text_operators in Hop. cbn [In] in Hop.
  unfold test_filter. cbn [is_none py_str].
  rewrite lower_nonempty, !lower_idem.
  destruct Hop as [<-|[<-|[<-|[<-|[<-|[<-|[]]]]]]]; reflexivity.
Qed.

(** ** Order of floats *)

Lemma SFcompare_antisym (a b : float) :
  SFcompare b a = option_map CompOpp (SFcompare a b).
Proof.
  destruct a as [sa|sa| |sa ma ea], b as [sb|sb| |sb mb eb]; simpl;
    try reflexivity; try (destruct sa; reflexivity); try (destruct sb; reflexivity);
    try (destruct sa, sb; reflexivity).
  rewrite (Z.compare_antisym ea eb).
  change (Pos.compare_cont Eq mb ma) with (Pos.compare mb ma).
  change (Pos.compare_cont Eq ma mb) with (Pos.compare ma mb).
  rewrite (Pos.compare_antisym ma mb).
  destruct sa, sb, (ea ?= eb), (ma ?= mb)%positive; reflexivity.
Qed.

Lemma SFcompare_nan (a b : float) :
  SFcompare a b = None <-> is_nan a || is_nan b = true.
Proof.
  destruct a as [sa|sa| |sa ma ea], b as [sb|sb| |sb mb eb]; simpl;
    split; intros H; try reflexivity; try discriminate.
Qed.

(** When both sides are numbers: with a NaN on a side the four numeric
    operators are all false; without one, [greater_than] is the negation
    of [less_equal] and [less_than] that of [greater_equal]. *)
Theorem numeric_operators_cohere :
  forall (field_value : PyVal) (value : string) (a b : float),
    value <> EmptyString ->
    py_float (or_zero field_value) = Ok a ->
    float_of_string value = Ok b ->
    exists gt lt ge le : bool,
      test_filter field_value "greater_than" value = Ok gt
      /\ test_filter field_value "less_than" value = Ok lt
      /\ test_filter field_value "greater_equal" value = Ok ge
      /\ test_filter field_value "less_equal" value = Ok le
      /\ (is_nan a || is_nan b = true ->
          gt = false /\ lt = false /\ ge = false /\ le = false)
      /\ (is_nan a || is_nan b = false ->
          gt = negb le /\ lt = negb ge).
Proof.
  intros field_value value a b Hne Ha Hb.
  assert (Hval : py_float (or_zero (VStr value)) = Ok b).
  { unfold or_zero. simpl. apply str_nonempty_true in Hne. now rewrite Hne. }
  exists (f_lt b a), (f_lt a b), (f_le b a), (f_le a b).
  rewrite (test_filter_numeric _ "greater_than" _ _ Hne eq_refl),
          (test_filter_numeric _ "less_than" _ _ Hne eq_refl),
          (test_filter_numeric _ "greater_equal" _ _ Hne eq_refl),
          (test_filter_numeric _ "less_equal" _ _ Hne eq_refl).
  unfold numeric_test. rewrite Ha, Hval. cbn [bind catch].
  repeat (split; [reflexivity|]).
  unfold f_lt, f_le, SFltb, SFleb. rewrite (SFcompare_antisym a b). split.
  - intros H. apply SFcompare_nan in H. rewrite H. simpl. auto.
  - intros H. destruct (SFcompare a b) as [[| |]|] eqn:E; simpl; auto.
    apply SFcompare_nan in E. congruence.
Qed.

(** ** Subsequences *)

Lemma subsequence_refl {A} (l : list A) : subsequence l l.
Proof. induction l; constructor; assumption. Qed.

Lemma subsequence_filter {A} (p q : A -> bool) (l : list A) :
  (forall x, In x l -> p x = true -> q x = true) ->
  subsequence (filter p l) (filter q l).
Proof.
  induction l as [|x l IH]; intros H; simpl; [constructor|].
  assert (IH' : subsequence (filter p l) (filter q l))
    by (apply IH; intros y Hy; apply H; now right).
  destruct (p x) eqn:Hp.
  - rewrite (H x (or_introl eq_refl) Hp). now constructor.
  - destruct (q x); [now constructor|exact IH'].
Qed.

Lemma subsequence_of_filter {A} (p : A -> bool) (l : list A) :
  subsequence (filter p l) l.
Proof.
  induction l as [|x l IH]; simpl; [constructor|].
  destruct (p x); now constructor.
Qed.

Lemma subsequence_trans {A} (l1 l2 l3 : list A) :
  subsequence l1 l2 -> subsequence l2 l3 -> subsequence l1 l3.
Proof.
  intros H12 H23. revert l1 H12.
  induction H23 as [|x l2 l3 H IH|x l2 l3 H IH]; intros l1 H12.
  - exact H12.
  - apply subsequence_skip. now apply IH.
  - inversion H12; subst.
    + apply subsequence_skip. now apply IH.
    + apply subsequence_take. now apply IH.
Qed.

Lemma subsequence_In {A} (l1 l2 : list A) (x : A) :
  subsequence l1 l2 -> In x l1 -> In x l2.
Proof.
  induction 1 as [|y l1 l2 H IH|y l1 l2 H IH]; simpl; [tauto| |]; intuition.
Qed.

Lemma filter_twice {A} (p q : A -> bool) (l : list A) :
  filter q (filter p l) = filter (fun x => p x && q x) l.
Proof.
  induction l as [|x l IH]; simpl; [reflexivity|].
  destruct (p x); simpl; [destruct (q x)|]; now rewrite IH.
Qed.

Lemma filter_agree {A} (p q : A -> bool) (l : list A) :
  (forall x, In x l -> p x = q x) -> filter p l = filter q l.
Proof.
  induction l as [|x l IH]; intros H; simpl; [reflexivity|].
  rewrite (H x (or_introl eq_refl)), IH; [reflexivity|].
  intros y Hy. apply H. now right.
Qed.

Section FilterLoops.
Variable utcoffset : Z -> Z.

(** ** The loops of [apply_filters] *)

Lemma eval_filters_acc (fields : dict PyVal) (fs : list filter_config) :
  forall acc,
    eval_filters utcoffset fields fs acc
    = let* l := eval_filters utcoffset fields fs [] in Ok (acc ++ l).
Proof.
  induction fs as [|f fs IH]; intros acc; cbn [eval_filters bind].
  - now rewrite app_nil_r.
  - destruct (eval_filter utcoffset fields f) as [b|e]; cbn [bind]; [|reflexivity].
    rewrite (IH (acc ++ [b])), (IH ([] ++ [b])).
    destruct (eval_filters utcoffset fields fs []); cbn [bind]; [|reflexivity].
    now rewrite <- app_assoc.
Qed.

Lemma eval_filters_app (fields : dict PyVal) (fs1 fs2 : list filter_config) :
  eval_filters utcoffset fields (fs1 ++ fs2) []
  = let* l1 := eval_filters utcoffset fields fs1 [] in
    let* l2 := eval_filters utcoffset fields fs2 [] in
    Ok (l1 ++ l2).
Proof.
  induction fs1 as [|f fs1 IH]; cbn [app eval_filters bind].
  - now destruct (eval_filters utcoffset fields fs2 []).
  - destruct (eval_filter utcoffset fields f) as [b|e]; cbn [bind]; [|reflexivity].
    rewrite (eval_filters_acc fields (fs1 ++ fs2)), (eval_filters_acc fields fs1), IH.
    destruct (eval_filters utcoffset fields fs1 []); cbn [bind]; [|reflexivity].
    destruct (eval_filters utcoffset fields fs2 []); cbn [bind]; [|reflexivity].
    now rewrite <- app_assoc.
Qed.

Lemma eval_filters_verdicts (r : record) (fs : list filter_config) (l : list bool) :
  eval_filters utcoffset (rec_fields r) fs [] = Ok l ->
  (forall f, In f fs -> eval_filter utcoffset (rec_fields r) f = Ok (verdict utcoffset r f))
  /\ l = map (verdict utcoffset r) fs.
Proof.
  revert l. induction fs as [|f fs IH]; intros l; cbn [eval_filters].
  - intros H. injection H as <-. split; [intros f []|reflexivity].
  - destruct (eval_filter utcoffset (rec_fields r) f) as [b|e] eqn:E; cbn [bind];
      [|discriminate].
    rewrite eval_filters_acc.
    destruct (eval_filters utcoffset (rec_fields r) fs []) as [l'|e] eqn:E'; cbn [bind];
      [|discriminate].
    intros H. injection H as <-. destruct (IH l' eq_refl) as [IH1 IH2].
    assert (Hb : verdict utcoffset r f = b) by (unfold verdict; now rewrite E).
    split.
    + intros f' [<-|Hf]; [now rewrite Hb|now apply IH1].
    + cbn [map app]. now rewrite Hb, IH2.
Qed.

Lemma filter_loop_acc (fs : list filter_config) (logic : string)
    (records : list record) :
  forall acc,
    filter_loop utcoffset records fs logic acc
    = let* l := filter_loop utcoffset records fs logic [] in Ok (acc ++ l).
Proof.
  induction records as [|r records IH]; intros acc; cbn [filter_loop bind].
  - now rewrite app_nil_r.
  - destruct (eval_filters utcoffset (rec_fields r) fs []) as [l|e]; cbn [bind];
      [|reflexivity].
    destruct (String.eqb logic "OR").
    + destruct (py_any l); rewrite (IH acc) || rewrite (IH (acc ++ [r]));
        try rewrite (IH ([] ++ [r]));
        destruct (filter_loop utcoffset records fs logic []); cbn [bind];
        try reflexivity; now rewrite <- app_assoc.
    + destruct (py_all l); rewrite (IH acc) || rewrite (IH (acc ++ [r]));
        try rewrite (IH ([] ++ [r]));
        destruct (filter_loop utcoffset records fs logic []); cbn [bind];
        try reflexivity; now rewrite <- app_assoc.
Qed.

Lemma filter_loop_evaluates (fs : list filter_config) (logic : string)
    (records : list record) (out : list record) :
  filter_loop utcoffset records fs logic [] = Ok out ->
  forall r f, In r records -> In f fs ->
              eval_filter utcoffset (rec_fields r) f = Ok (verdict utcoffset r f).
Proof.
  revert out. induction records as [|r0 records IH]; intros out H r f Hr Hf; [destruct Hr|].
  cbn [filter_loop] in H.
  destruct (eval_filters utcoffset (rec_fields r0) fs []) as [l|e] eqn:E;
    cbn [bind] in H; [|discriminate].
  assert (Hrest : exists out', filter_loop utcoffset records fs logic [] = Ok out').
  { destruct (String.eqb logic "OR");
      [destruct (py_any l)|destruct (py_all l)];
      try rewrite filter_loop_acc in H;
      destruct (filter_loop utcoffset records fs logic []); try discriminate; eauto. }
  destruct Hrest as [out' Hout']. destruct Hr as [<-|Hr].
  - now apply (eval_filters_verdicts _ _ _ E).
  - now apply (IH out' Hout').
Qed.

Lemma filter_loop_selects (fs : list filter_config) (logic : string)
    (records : list record) (out : list record) :
  filter_loop utcoffset records fs logic [] = Ok out ->
  out = filter (fun r => if String.eqb logic "OR"
                         then existsb (verdict utcoffset r) fs
                         else forallb (verdict utcoffset r) fs) records.
Proof.
  intros H. pose proof (filter_loop_evaluates _ _ _ _ H) as He.
  rewrite (filter_loop_returns utcoffset (verdict utcoffset) fs logic records [] He) in H.
  injection H as <-. reflexivity.
Qed.

Lemma filter_loop_defined (fs : list filter_config) (logic : string)
    (records : list record) :
  (forall r f, In r records -> In f fs ->
               eval_filter utcoffset (rec_fields r) f = Ok (verdict utcoffset r f)) ->
  filter_loop utcoffset records fs logic []
  = Ok (filter (fun r => if String.eqb logic "OR"
                         then existsb (verdict utcoffset r) fs
                         else forallb (verdict utcoffset r) fs) records).
Proof.
  intros He.
  now rewrite (filter_loop_returns utcoffset (verdict utcoffset) fs logic records [] He).
Qed.

(** Any logic other than the exact text [OR] is AND: lower-case [or],
    for one. *)
Theorem filter_logic_other_than_or_is_and :
  forall (records : list record) (fs : list filter_config) (logic : string),
    logic <> "OR" ->
    apply_filters utcoffset records fs logic
    = apply_filters utcoffset records fs "AND".
Proof.
  intros records fs logic Hne. unfold apply_filters.
  destruct fs as [|f fs]; [reflexivity|].
  generalize (@nil record).
  induction records as [|r records IH]; intros acc; cbn [filter_loop]; [reflexivity|].
  apply String.eqb_neq in Hne. rewrite Hne. cbn [String.eqb Ascii.eqb Bool.eqb].
  destruct (eval_filters utcoffset (rec_fields r) (f :: fs) []); cbn [bind]; [|reflexivity].
  destruct (py_all a); apply IH.
Qed.

(** What AND keeps, OR keeps: when the filters return under AND they
    return under OR, the records kept under AND are among those kept
    under OR, and these among the input, each time in the order of the
    input. *)
Theorem and_selection_is_within_or :
  forall (records : list record) (fs : list filter_config) (kept : list record),
    apply_filters utcoffset records fs "AND" = Ok kept ->
    exists any : list record,
      apply_filters utcoffset records fs "OR" = Ok any
      /\ subsequence kept any
      /\ subsequence any records.
Proof.
  intros records fs kept H. unfold apply_filters in *.
  destruct fs as [|f fs].
  - injection H as <-. exists records. repeat split; apply subsequence_refl.
  - pose proof (filter_loop_evaluates _ _ _ _ H) as He.
    apply filter_loop_selects in H. subst kept.
    rewrite (filter_loop_defined _ "OR" _ He). eexists. split; [reflexivity|].
    cbn [String.eqb Ascii.eqb Bool.eqb]. split.
    + apply subsequence_filter. intros r _ Hall.
      cbn [forallb existsb] in *. apply andb_true_iff in Hall as [Hf _].
      now rewrite Hf.
    + apply subsequence_of_filter.
Qed.

(** Under AND, two lists of filters applied together keep what the
    second list keeps of what the first list keeps. *)
Theorem and_filters_compose :
  forall (records : list record) (fs1 fs2 : list filter_config)
         (kept : list record),
    apply_filters utcoffset records (fs1 ++ fs2) "AND" = Ok kept ->
    exists mid : list record,
      apply_filters utcoffset records fs1 "AND" = Ok mid
      /\ apply_filters utcoffset mid fs2 "AND" = Ok kept.
Proof.
  intros records fs1 fs2 kept H.
  destruct fs1 as [|f1 fs1]; [exists records; split; [reflexivity|exact H]|].
  unfold apply_filters in H. cbn [app] in H.
  pose proof (filter_loop_evaluates _ _ _ _ H) as He.
  apply filter_loop_selects in H. cbn [String.eqb Ascii.eqb Bool.eqb] in H.
  exists (filter (fun r => forallb (verdict utcoffset r) (f1 :: fs1)) records).
  split.
  - unfold apply_filters. rewrite (filter_loop_defined _ "AND"); [reflexivity|].
    intros r f Hr Hf. apply He; [exact Hr|]. cbn [app]. destruct Hf as [<-|Hf]; [now left|].
    right. apply in_or_app. now left.
  - subst kept. unfold apply_filters. destruct fs2 as [|f2 fs2].
    + rewrite app_nil_r. reflexivity.
    + rewrite (filter_loop_defined _ "AND").
      * cbn [String.eqb Ascii.eqb Bool.eqb]. rewrite filter_twice. f_equal.
        apply filter_agree. intros r _.
        change (f1 :: fs1 ++ f2 :: fs2) with ((f1 :: fs1) ++ f2 :: fs2).
        now rewrite forallb_app.
      * intros r f Hr Hf. apply filter_In in Hr as [Hr _]. apply He; [exact Hr|].
        change (f1 :: fs1 ++ f2 :: fs2) with ((f1 :: fs1) ++ f2 :: fs2).
        apply in_or_app. now right.
Qed.

(** Records are filtered one by one: filtering two lists put end to end
    is filtering each and putting the results end to end, and raises what
    the first list raises, or else what the second raises. *)
Theorem records_are_filtered_one_by_one :
  forall (records1 records2 : list record) (fs : list filter_config)
         (logic : string),
    apply_filters utcoffset (records1 ++ records2) fs logic
    = let* kept1 := apply_filters utcoffset records1 fs logic in
      let* kept2 := apply_filters utcoffset records2 fs logic in
      Ok (kept1 ++ kept2).
Proof.
  intros records1 records2 fs logic. unfold apply_filters.
  destruct fs as [|f fs]; [reflexivity|].
  induction records1 as [|r records1 IH]; cbn [app filter_loop bind].
  - now destruct (filter_loop utcoffset records2 (f :: fs) logic []).
  - destruct (eval_filters utcoffset (rec_fields r) (f :: fs) []) as [l|e];
      cbn [bind]; [|reflexivity].
    assert (E : forall acc,
               filter_loop utcoffset (records1 ++ records2) (f :: fs) logic acc
               = let* kept1 := filter_loop utcoffset records1 (f :: fs) logic acc in
                 let* kept2 := filter_loop utcoffset records2 (f :: fs) logic [] in
                 Ok (kept1 ++ kept2)).
    { intros acc. rewrite filter_loop_acc, IH, (filter_loop_acc _ _ records1 acc).
      destruct (filter_loop utcoffset records1 (f :: fs) logic []); cbn [bind];
        [|reflexivity].
      destruct (filter_loop utcoffset records2 (f :: fs) logic []); cbn [bind];
        [|reflexivity].
      now rewrite app_assoc. }
    destruct (String.eqb logic "OR"); [destruct (py_any l)|destruct (py_all l)];
      apply E.
Qed.

End FilterLoops.

Lemma py_all_insert (l1 l2 : list bool) :
  py_all (l1 ++ true :: l2) = py_all (l1 ++ l2).
Proof. unfold py_all. now rewrite !forallb_app. Qed.

Section EmptyValues.
Variable utcoffset : Z -> Z.

Lemma eval_filter_empty_value (fields : dict PyVal) (fc : filter_config) :
  f_value fc = EmptyString ->
  f_operator fc <> "empty" -> f_operator fc <> "not_empty" ->
  eval_filter utcoffset fields fc = Ok true.
Proof.
  intros Hv H1 H2. unfold eval_filter, check_date_filter, test_filter.
  rewrite Hv. apply String.eqb_neq in H1, H2. rewrite H1, H2.
  now destruct (startswith (f_operator fc) "date_").
Qed.

Lemma eval_filters_insert (fields : dict PyVal) (fs1 fs2 : list filter_config)
    (fc : filter_config) :
  eval_filter utcoffset fields fc = Ok true ->
  eval_filters utcoffset fields (fs1 ++ fc :: fs2) []
  = let* l1 := eval_filters utcoffset fields fs1 [] in
    let* l2 := eval_filters utcoffset fields fs2 [] in
    Ok (l1 ++ true :: l2).
Proof.
  intros H. rewrite eval_filters_app. cbn [eval_filters]. rewrite H. cbn [bind].
  rewrite (eval_filters_acc utcoffset fields fs2 ([] ++ [true])).
  destruct (eval_filters utcoffset fields fs1 []); cbn [bind]; [|reflexivity].
  now destruct (eval_filters utcoffset fields fs2 []).
Qed.

(** A filter with an empty operand, [empty] and [not_empty] apart, is
    true on every record; under AND it changes nothing, wherever it stands
    in the list of filters. *)
Theorem filter_with_empty_value_is_neutral :
  forall (records : list record) (fs1 fs2 : list filter_config)
         (fc : filter_config),
    f_value fc = EmptyString ->
    f_operator fc <> "empty" -> f_operator fc <> "not_empty" ->
    (forall fields, eval_filter utcoffset fields fc = Ok true)
    /\ apply_filters utcoffset records (fs1 ++ fc :: fs2) "AND"
       = apply_filters utcoffset records (fs1 ++ fs2) "AND".
Proof.
  intros records fs1 fs2 fc Hv H1 H2.
  assert (Ht : forall fields, eval_filter utcoffset fields fc = Ok true)
    by (intros; now apply eval_filter_empty_value).
  split; [exact Ht|].
  unfold apply_filters.
  destruct (fs1 ++ fc :: fs2) as [|f0 fs0] eqn:E0; [now destruct fs1|].
  rewrite <- E0. clear E0 f0 fs0.
  destruct (fs1 ++ fs2) as [|f fs] eqn:E.
  - apply app_eq_nil in E as [-> ->]. cbn [app].
    rewrite filter_loop_acc.
    assert (forall acc, filter_loop utcoffset records [fc] "AND" acc = Ok (acc ++ records)).
    { induction records as [|r records IH]; intros acc; cbn [filter_loop eval_filters].
      - now rewrite app_nil_r.
      - rewrite Ht. cbn [bind app py_all forallb andb String.eqb Ascii.eqb Bool.eqb].
        rewrite IH, <- app_assoc. reflexivity. }
    now rewrite H.
  - rewrite <- E. clear E f fs. generalize (@nil record).
    induction records as [|r records IH]; intros acc; cbn [filter_loop]; [reflexivity|].
    rewrite (eval_filters_insert _ _ _ _ (Ht _)), eval_filters_app.
    destruct (eval_filters utcoffset (rec_fields r) fs1 []); cbn [bind]; [|reflexivity].
    destruct (eval_filters utcoffset (rec_fields r) fs2 []); cbn [bind]; [|reflexivity].
    cbn [String.eqb Ascii.eqb Bool.eqb]. rewrite py_all_insert.
    destruct (py_all (a ++ a0)); apply IH.
Qed.

End EmptyValues.

Section Runs.
Variable utcoffset : Z -> Z.

Lemma validate_config_required (self : GitHubActionSender) :
  validate_config self = false <-> In EmptyString (required_fields (config self)).
Proof.
  unfold validate_config, required_fields. cbn [forallb In].
  destruct (demarche_number (config self)), (message_subject (config self)),
    (message_body (config self)), (instructeur_id (config self)),
    (grist_doc_id (config self)), (grist_table (config self)); cbn;
    split; intros H; try discriminate; try tauto;
    repeat (destruct H as [H|H]; try discriminate); try contradiction.
Qed.

(** A data store that reports an error is read as an empty table: the
    run makes the one call that fetches the table and returns the summary
    of a run without records, [success] true. *)
Theorem store_error_reads_as_an_empty_table :
  forall (self : GitHubActionSender) (t : trace) (reply : records_reply),
    validate_config self = true ->
    get_records (grist_client self) t (grist_doc_id (config self))
      (grist_table (config self)) = Ok reply ->
    (exists msg, reply = RecordsError msg) \/ reply = RecordsOk [] ->
    send_batch utcoffset self t
    = (Ok (mkBatch true 0 0 0 0 []),
       t ++ [EvGetRecords (grist_doc_id (config self)) (grist_table (config self))]).
Proof.
  intros self t reply Hv Hget Hreply.
  unfold send_batch. rewrite Hv. cbn [negb].
  unfold get_records_to_process, run_bind, call, ret, lift. rewrite Hget.
  destruct Hreply as [[msg ->]| ->]; [reflexivity|].
  destruct (filters (config self)) as [|f fs]; reflexivity.
Qed.

(** ** The records to process *)

Lemma apply_filters_subsequence (records : list record) (fs : list filter_config)
    (logic : string) (out : list record) :
  apply_filters utcoffset records fs logic = Ok out -> subsequence out records.
Proof.
  unfold apply_filters. destruct fs as [|f fs].
  - intros H. injection H as <-. apply subsequence_refl.
  - intros H. apply filter_loop_selects in H. subst out. apply subsequence_of_filter.
Qed.

Lemma get_records_to_process_cases (self : GitHubActionSender) (t : trace) :
  get_records_to_process utcoffset self t
  = (let* reply := get_records (grist_client self) t (grist_doc_id (config self))
                     (grist_table (config self)) in
     match reply with
     | RecordsError _ => Ok []
     | RecordsOk served =>
         let* kept := apply_filters utcoffset served (filters (config self))
                        (match filter_logic (config self) with
                         | Some l => l
                         | None => "AND"
                         end) in
         Ok (selection_gate (force_send self) kept [])
     end,
     t ++ [fetch_of self]).
Proof.
  unfold get_records_to_process, run_bind, call, ret, lift, fetch_of.
  destruct (get_records _ _ _ _) as [[msg|served]|e]; cbn [bind]; try reflexivity.
  destruct (filters (config self)) as [|f fs] eqn:E; [reflexivity|].
  now destruct (apply_filters utcoffset served (f :: fs) _).
Qed.

(** The records to process are records the data store served, in the
    order served, each with a [dossier_id] whose text is not empty;
    fetching them is one call.  Forcing only adds records: what is
    processed without the force flag is processed with it, in the same
    order. *)
Theorem records_to_process_are_served_records :
  forall (self : GitHubActionSender) (t t' : trace) (out : list record),
    get_records_to_process utcoffset self t = (Ok out, t') ->
    t' = t ++ [fetch_of self]
    /\ (forall served,
           get_records (grist_client self) t (grist_doc_id (config self))
             (grist_table (config self)) = Ok (RecordsOk served) ->
           subsequence out served)
    /\ (forall rec, In rec out -> dossier_of rec <> EmptyString)
    /\ (exists out' : list record,
           get_records_to_process utcoffset (forced self) t = (Ok out', t')
           /\ subsequence out out').
Proof.
  intros self t t' out H.
  rewrite get_records_to_process_cases in H.
  rewrite get_records_to_process_cases. unfold forced at 1 2 3 4 5 6.
  cbn [config grist_client force_send].
  change (fetch_of (forced self)) with (fetch_of self).
  destruct (get_records _ _ _ _) as [[msg|served]|e]; cbn [bind] in *; [| |discriminate].
  - injection H as <- <-. split; [reflexivity|]. split; [discriminate|].
    split; [intros rec []|]. exists []. split; [reflexivity|constructor].
  - destruct (apply_filters utcoffset served _ _) as [kept|e] eqn:E; cbn [bind] in *;
      [|discriminate].
    injection H as <- <-. rewrite !selection_gate_filter. cbn [app].
    split; [reflexivity|]. split; [|split].
    + intros served' Hs. injection Hs as <-.
      eapply subsequence_trans; [apply subsequence_of_filter|].
      exact (apply_filters_subsequence _ _ _ _ E).
    + intros rec Hin. apply filter_In in Hin as [_ Hs].
      apply str_nonempty_true. exact (selected_dossier _ _ Hs).
    + eexists. split; [reflexivity|].
      apply subsequence_filter. intros r _. unfold selected.
      intros Hs. apply andb_true_iff in Hs as [Hd _]. now rewrite Hd.
Qed.

(** ** The calls of a run *)

Lemma send_dry_trace (self : GitHubActionSender) (rec : record) (t : trace) :
  dry_run self = true -> snd (send_message_to_record utcoffset self rec t) = t.
Proof.
  intros Hdry. unfold send_message_to_record, run_bind, lift, ret. rewrite Hdry.
  destruct (negb (str_nonempty _)); [reflexivity|].
  destruct (format_message_with_dates utcoffset (message_subject _) _); [|reflexivity].
  destruct (format_message_with_dates utcoffset (message_body _) _); reflexivity.
Qed.

Lemma process_dry_trace (self : GitHubActionSender) (rec : record) (t : trace) :
  dry_run self = true -> snd (process_record utcoffset self rec t) = t.
Proof.
  intros Hdry. unfold process_record, run_bind, lift.
  destruct (date_fields_of utcoffset (rec_fields rec) []); [|reflexivity].
  now apply send_dry_trace.
Qed.

Lemma dispatch_dry_trace (self : GitHubActionSender) (records : list record) :
  dry_run self = true ->
  forall results t, snd (dispatch_loop utcoffset self records results t) = t.
Proof.
  intros Hdry. induction records as [|rec records IH]; intros results t; [reflexivity|].
  cbn [dispatch_loop]. unfold run_bind at 1.
  pose proof (process_dry_trace self rec t Hdry) as Hp.
  destruct (process_record utcoffset self rec t) as [[res|e] t1]; cbn [snd] in Hp; subst t1.
  - apply IH.
  - reflexivity.
Qed.

(** A whole run in dry-run mode makes at most the call that fetches the
    table: no message is sent and no record written back, whatever the
    clients answer and whether the run returns or raises. *)
Theorem dry_run_batch_only_fetches :
  forall (self : GitHubActionSender) (t : trace),
    dry_run self = true ->
    (snd (send_batch utcoffset self t) = t
     \/ snd (send_batch utcoffset self t) = t ++ [fetch_of self])
    /\ filter is_send (snd (send_batch utcoffset self t)) = filter is_send t
    /\ filter is_update (snd (send_batch utcoffset self t)) = filter is_update t.
Proof.
  intros self t Hdry.
  assert (E : snd (send_batch utcoffset self t) = t
              \/ snd (send_batch utcoffset self t) = t ++ [fetch_of self]).
  { unfold send_batch. destruct (negb (validate_config self)); [now left|right].
    unfold run_bind at 1. rewrite get_records_to_process_cases.
    match goal with
    | |- snd (match ?r with _ => _ end) = _ => destruct r as [[|r0 rs]|e]
    end; try reflexivity.
    now apply dispatch_dry_trace. }
  split; [exact E|].
  destruct E as [-> | ->]; [now split|].
  rewrite !filter_app. cbn. now rewrite !app_nil_r.
Qed.

(** The calls of one record outside dry-run mode: the message, then the
    write-back. *)
Lemma process_record_calls (self : GitHubActionSender) (rec : record)
    (t t' : trace) (res : result) :
  dry_run self = false -> dossier_of rec <> EmptyString ->
  process_record utcoffset self rec t = (Ok res, t') ->
  exists ev1 ev2,
    t' = t ++ [ev1; ev2]
    /\ footprint_of ev1 = Sent (dossier_of rec)
    /\ footprint_of ev2 = Updated (rec_id rec).
Proof.
  intros Hdry Hd. apply str_nonempty_true in Hd. unfold dossier_of in *.
  unfold process_record, send_message_to_record, run_bind, lift, ret, call, ask.
  destruct (date_fields_of utcoffset (rec_fields rec) []); [|discriminate].
  rewrite Hd, Hdry. cbn [negb].
  destruct (format_message_with_dates utcoffset (message_subject _) _) as [subject|];
    [|discriminate].
  destruct (format_message_with_dates utcoffset (message_body _) _) as [body|];
    [|discriminate].
  destruct (send_message _ _ _ _ _ _) as [res0|]; [|discriminate].
  destruct (update_record _ _ _ _ _ _) as [reply|]; [|discriminate].
  intros H. injection H as _ <-.
  eexists _, _. rewrite <- app_assoc. split; [reflexivity|]. split; reflexivity.
Qed.

Lemma dispatch_loop_calls (self : GitHubActionSender) (records : list record) :
  dry_run self = false ->
  (forall rec, In rec records -> dossier_of rec <> EmptyString) ->
  forall results t results' t',
    dispatch_loop utcoffset self records results t = (Ok results', t') ->
    exists calls,
      t' = t ++ calls
      /\ map footprint_of calls
         = flat_map (fun rec => [Sent (dossier_of rec); Updated (rec_id rec)]) records.
Proof.
  intros Hdry. induction records as [|rec records IH]; intros Hd results t results' t' H.
  - cbn in H. injection H as _ <-. exists []. now rewrite app_nil_r.
  - cbn [dispatch_loop] in H. unfold run_bind at 1 in H.
    destruct (process_record utcoffset self rec t) as [[res|e] t1] eqn:Ep; [|discriminate].
    destruct (process_record_calls self rec t t1 res Hdry (Hd rec (or_introl eq_refl)) Ep)
      as (ev1 & ev2 & -> & F1 & F2).
    destruct (IH (fun r Hr => Hd r (or_intror Hr)) _ _ _ _ H) as (calls & -> & Hc).
    exists (ev1 :: ev2 :: calls). split.
    + now rewrite <- app_assoc.
    + cbn [map flat_map app]. now rewrite F1, F2, Hc.
Qed.

(** Outside dry-run mode, the calls of a run that returns are: the call
    that fetches the table, then for each record to process, in their
    order, one message to the dossier of the record followed by one
    write-back to the row of the record. *)
Theorem each_record_gets_one_message_and_one_write_back :
  forall (self : GitHubActionSender) (t t' : trace) (results : batch_result),
    dry_run self = false ->
    send_batch utcoffset self t = (Ok results, t') ->
    exists (records : list record) (calls : list event),
      get_records_to_process utcoffset self t = (Ok records, t ++ [fetch_of self])
      /\ t' = t ++ fetch_of self :: calls
      /\ map footprint_of calls
         = flat_map (fun rec => [Sent (dossier_of rec); Updated (rec_id rec)]) records.
Proof.
  intros self t t' results Hdry H. unfold send_batch in H.
  destruct (negb (validate_config self)); [discriminate|].
  unfold run_bind at 1 in H.
  destruct (get_records_to_process utcoffset self t) as [[records|e] t1] eqn:Eg;
    [|discriminate].
  assert (Ht1 : t1 = t ++ [fetch_of self]).
  { pose proof (get_records_to_process_cases self t) as E. rewrite Eg in E.
    now injection E. }
  subst t1. exists records.
  destruct records as [|r0 rs] eqn:Er.
  - cbn in H. injection H as _ <-. exists []. repeat split.
  - rewrite <- Er in *.
    assert (Hd : forall rec, In rec records -> dossier_of rec <> EmptyString).
    { pose proof (get_records_to_process_cases self t) as E. rewrite Eg in E.
      injection E as E. intros rec Hin.
      destruct (get_records _ _ _ _) as [[msg|served]|e]; cbn [bind] in E;
        [injection E as ->; destruct Hin| |discriminate].
      destruct (apply_filters utcoffset served _ _) as [kept|e]; cbn [bind] in E;
        [|discriminate].
      injection E as ->. rewrite selection_gate_filter in Hin. cbn [app] in Hin.
      apply filter_In in Hin as [_ Hs].
      apply str_nonempty_true. exact (selected_dossier _ _ Hs). }
    assert (H' : dispatch_loop utcoffset self records
                   (mkBatch false (Z.of_nat (List.length records)) 0 0 0 [])
                   (t ++ [fetch_of self]) = (Ok results, t')).
    { rewrite Er. rewrite Er in H. exact H. }
    destruct (dispatch_loop_calls self records Hdry Hd _ _ _ _ H') as (calls & -> & Hc).
    exists calls. repeat split; [|exact Hc]. now rewrite <- app_assoc.
Qed.

(** ** The summary of a run *)

Lemma tally_keeps (results : batch_result) (dossier_id : PyVal) (res : result) :
  already_sent_count (tally results dossier_id res) = already_sent_count results
  /\ br_success (tally results dossier_id res) = br_success results.
Proof. unfold tally. now destruct (res_success res). Qed.

Lemma dispatch_loop_counts (self : GitHubActionSender) (records : list record) :
  forall results t results' t',
    dispatch_loop utcoffset self records results t = (Ok results', t') ->
    success_count results' + error_count results'
    = success_count results + error_count results + Z.of_nat (List.length records)
    /\ Z.of_nat (List.length (details results')) - error_count results'
       = Z.of_nat (List.length (details results)) - error_count results
    /\ success_count results <= success_count results'
    /\ error_count results <= error_count results'
    /\ total_records results' = total_records results
    /\ already_sent_count results' = already_sent_count results
    /\ br_success results' = br_success results.
Proof.
  induction records as [|rec records IH]; intros results t results' t' H.
  - cbn in H. injection H as <- _. cbn [List.length]. repeat split; lia.
  - cbn [dispatch_loop] in H. unfold run_bind at 1 in H.
    destruct (process_record utcoffset self rec t) as [[res|e] t1]; [|discriminate].
    apply IH in H as (H1 & H2 & H3 & H4 & H5 & H6 & H7).
    destruct (tally_accounts results
                (get_or (rec_fields rec) "dossier_id" (VStr "N/A")) res)
      as (T1 & T2 & T3).
    destruct (tally_keeps results
                (get_or (rec_fields rec) "dossier_id" (VStr "N/A")) res)
      as (T4 & T5).
    assert (T6 : success_count results
                 <= success_count (tally results
                      (get_or (rec_fields rec) "dossier_id" (VStr "N/A")) res)
                 /\ error_count results
                    <= error_count (tally results
                         (get_or (rec_fields rec) "dossier_id" (VStr "N/A")) res)).
    { unfold tally. destruct (res_success res); cbn; lia. }
    cbn [List.length]. repeat split; try congruence; lia.
Qed.

(** The summary of a run that returns: [total_records] is the number of
    records to process, successes and errors add up to it, [details] has
    one entry per error, [already_sent_count] is 0, and [success] is set
    exactly when there was no record to process. *)
Theorem summary_counts_add_up :
  forall (self : GitHubActionSender) (t t' : trace) (results : batch_result),
    send_batch utcoffset self t = (Ok results, t') ->
    exists records : list record,
      get_records_to_process utcoffset self t = (Ok records, t ++ [fetch_of self])
      /\ total_records results = Z.of_nat (List.length records)
      /\ success_count results + error_count results = total_records results
      /\ 0 <= success_count results /\ 0 <= error_count results
      /\ Z.of_nat (List.length (details results)) = error_count results
      /\ already_sent_count results = 0
      /\ (br_success results = true <-> records = []).
Proof.
  intros self t t' results H. unfold send_batch in H.
  destruct (negb (validate_config self)); [discriminate|].
  unfold run_bind at 1 in H.
  destruct (get_records_to_process utcoffset self t) as [[records|e] t1] eqn:Eg;
    [|discriminate].
  assert (Ht1 : t1 = t ++ [fetch_of self]).
  { pose proof (get_records_to_process_cases self t) as E. rewrite Eg in E.
    now injection E. }
  subst t1. exists records. split; [reflexivity|].
  destruct records as [|r0 rs].
  - cbn in H. injection H as <- _. cbn. repeat split; try lia; try reflexivity.
  - apply dispatch_loop_counts in H as (H1 & H2 & H3 & H4 & H5 & H6 & H7).
    cbn [total_records success_count error_count already_sent_count br_success
           details List.length] in *.
    repeat split; try lia; try congruence; try discriminate.
Qed.

End Runs.

(** ** Replacement in a text *)

Lemma replace_from_absent (old new : string) (s : string) :
  contains s old = false -> replace_from old new 0 s = s.
Proof.
  induction s as [|c s IH]; [reflexivity|].
  cbn [contains replace_from]. intros H. apply orb_false_iff in H as [Hp Hc].
  rewrite Hp, (IH Hc). reflexivity.
Qed.








Section Templates.
Variable utcoffset : Z -> Z.

(** A template that holds the placeholder of no field of the record
    comes out unchanged. *)
Theorem template_without_placeholders_is_kept :
  forall (template : string) (fields : dict PyVal) (out : string),
    (forall field_name field_value,
        In (field_name, field_value) fields ->
        contains template (placeholder field_name) = false) ->
    format_message_with_dates utcoffset template fields = Ok out ->
    out = template.
Proof.
  intros template fields. induction fields as [|[k v] fields IH]; intros out Hc H.
  - cbn in H. now injection H.
  - cbn [format_message_with_dates] in H.
    assert (Hc' : forall k' v', In (k', v') fields ->
                    contains template (placeholder k') = false)
      by (intros k' v' Hin; apply (Hc k' v'); now right).
    destruct (is_none v); [now apply IH|].
    destruct (format_date_french utcoffset v) as [formatted|e]; cbn [bind] in H;
      [|discriminate].
    unfold replace in H. fold (placeholder k) in H.
    rewrite replace_from_absent in H by (apply (Hc k v); now left).
    now apply IH.
Qed.



End Templates.

Lemma string_of_Z_nonempty (z : Z) : str_nonempty (string_of_Z z) = true.
Proof.
  unfold string_of_Z. destruct (z <? 0); [reflexivity|apply string_of_nonneg_nonempty].
Qed.

Lemma str_datetime_nonempty (dt : datetime) : str_nonempty (str_datetime dt) = true.
Proof.
  unfold str_datetime. pose proof (isoformat_nonempty (dt_date dt)) as H.
  destruct (isoformat_date (dt_date dt)); [discriminate|reflexivity].
Qed.

(** Only the empty string has an empty text. *)
Lemma py_str_empty (v : PyVal) : py_str v = EmptyString -> v = VStr EmptyString.
Proof.
  destruct v as [|b|z|f|s|dt]; cbn [py_str]; intros H.
  - discriminate.
  - destruct b; discriminate.
  - pose proof (string_of_Z_nonempty z) as Hn. rewrite H in Hn. discriminate.
  - pose proof (float_repr_nonempty f) as Hn. rewrite H in Hn. discriminate.
  - now subst.
  - pose proof (str_datetime_nonempty dt) as Hn. rewrite H in Hn. discriminate.
Qed.

Section DossierGuard.
Variable utcoffset : Z -> Z.

(** The guard of [send_message_to_record] turns a record away only when
    [dossier_id] is missing or the empty text: the result is the error
    [dossier_id manquant] and nothing is called.  Any other cell, [None]
    and zero too, passes: outside dry-run mode the message goes to the
    dossier named by the text of the cell. *)
Theorem dossier_guard_rejects_only_missing_or_empty :
  forall (self : GitHubActionSender) (rec : record) (t : trace),
    (dict_get (rec_fields rec) "dossier_id" = None
     \/ dict_get (rec_fields rec) "dossier_id" = Some (VStr EmptyString) ->
     send_message_to_record utcoffset self rec t
     = (Ok (mkResult false false (Some "dossier_id manquant")), t))
    /\ (forall (v : PyVal) (subject body : string),
           dict_get (rec_fields rec) "dossier_id" = Some v ->
           v <> VStr EmptyString ->
           dry_run self = false ->
           format_message_with_dates utcoffset (message_subject (config self))
             (rec_fields rec) = Ok subject ->
           format_message_with_dates utcoffset (message_body (config self))
             (rec_fields rec) = Ok body ->
           exists rest,
             snd (send_message_to_record utcoffset self rec t)
             = t ++ EvSendMessage (py_str v) (instructeur_id (config self))
                      subject body :: rest).
Proof.
  intros self rec t. split.
  - intros H. unfold send_message_to_record, get_or.
    destruct H as [-> | ->]; reflexivity.
  - intros v subject body Hv Hne Hdry Hs Hb.
    assert (Hd : str_nonempty (py_str v) = true).
    { apply str_nonempty_true. intros H. apply Hne. now apply py_str_empty. }
    unfold send_message_to_record, get_or, run_bind, lift, ret, call, ask.
    rewrite Hv, Hd, Hs, Hb, Hdry. cbn [negb].
    destruct (send_message _ _ _ _ _ _) as [res|e].
    + destruct (update_record _ _ _ _ _ _); cbn [snd]; rewrite <- app_assoc;
        eexists; reflexivity.
    + cbn [snd]. eexists. reflexivity.
Qed.

End DossierGuard.

Section ClientProperties.

Variable interpreter_text : pyexc -> string.
Variable requests : request -> attempt response.
Variable token : string.

(** ** The messaging client *)

Lemma ds_request_cases (query : string) (variables : json) :
  (exists response d,
      requests (DS.post_of token query variables) = Got response
      /\ status_code response = 200
      /\ json_of response = Got (JObj d)
      /\ dict_get d "errors" = None
      /\ DS._make_request interpreter_text requests token query variables = get_or d "data" (JObj []))
  \/ (exists msg, DS._make_request interpreter_text requests token query variables = error_dict msg).
Proof.
  unfold DS._make_request.
  assert (Hh : forall e : pyexc,
             exists msg,
               match e with
               | ExcTimeout _ =>
                   error_dict (text_of [ "Timeout lors de la connexion "; a_grave; " DS" ])
               | ExcConnectionError _ =>
                   error_dict (text_of [ "Impossible de se connecter "; a_grave; " DS" ])
               | _ =>
                   error_dict (text_of [ "Erreur lors de la requ"; e_circumflex; "te: ";
                                         str_exc interpreter_text e ])
               end = error_dict msg)
    by (intros e; destruct e; eauto).
  destruct (requests (DS.post_of token query variables)) as [response|e] eqn:Er;
    cbn [attempt_bind]; [|right; apply Hh].
  destruct (status_code response =? 200) eqn:Es; cbn [negb]; [|right; eauto].
  apply Z.eqb_eq in Es.
  destruct (json_of response) as [data|e] eqn:Ej; cbn [attempt_bind]; [|right; apply Hh].
  destruct data as [|b|z|f|s|l|d]; cbn [py_contains attempt_bind];
    try (right; eexists; reflexivity).
  - destruct (contains s "errors"); right; eexists; reflexivity.
  - destruct (existsb (json_eq_str "errors") l); right; eexists; reflexivity.
  - destruct (dict_get d "errors") as [errors|] eqn:Ee.
    + right. cbn [py_getitem]. rewrite Ee. cbn [attempt_bind].
      destruct (py_iter errors) as [items|e]; cbn [attempt_bind]; [|apply Hh].
      destruct (comprehension _ items) as [msgs|e]; cbn [attempt_bind]; [|apply Hh].
      destruct (py_join ", " msgs) as [joined|e]; cbn [attempt_bind]; [eauto|apply Hh].
    + left. exists response, d. cbn [py_get]. repeat split; assumption || reflexivity.
Qed.


(** [DSClient.send_message] reports a failure below it in its answer:
    unless the server answers 200 with an object free of [errors], the
    answer is a [dict] with the key [error], neither an exception nor a
    success. *)
Theorem ds_send_reports_failures :
  forall (dossier_id instructeur_id subject body : string),
    (forall response d,
        requests (DS.post_of token DS.query
                    (DS.variables_of dossier_id instructeur_id subject body))
        = Got response ->
        status_code response = 200 ->
        json_of response = Got (JObj d) ->
        dict_get d "errors" <> None) ->
    exists msg,
      DS.send_message interpreter_text requests token dossier_id instructeur_id subject body = Got (error_dict msg).
Proof.
  intros dossier_id instructeur_id subject body H. unfold DS.send_message.
  destruct (ds_request_cases DS.query
              (DS.variables_of dossier_id instructeur_id subject body))
    as [(response & d & Hr & Hs & Hj & He & _)|[msg ->]].
  - now destruct (H response d Hr Hs Hj).
  - exists msg. reflexivity.
Qed.

(** On an answer with status 200 and an object without [errors],
    [send_message] reports success, with the message of the server, when
    [data] is an object without the key [error] whose
    [dossierEnvoyerMessage] is an object with no errors; it raises when
    [data] is null, and when [dossierEnvoyerMessage] is null. *)
Theorem ds_send_on_an_answer :
  forall (dossier_id instructeur_id subject body : string)
         (response : response) (d : list (string * json)),
    requests (DS.post_of token DS.query
                (DS.variables_of dossier_id instructeur_id subject body))
    = Got response ->
    status_code response = 200 ->
    json_of response = Got (JObj d) ->
    dict_get d "errors" = None ->
    (forall dd mr,
        get_or d "data" (JObj []) = JObj dd ->
        dict_get dd "error" = None ->
        get_or dd "dossierEnvoyerMessage" (JObj []) = JObj mr ->
        json_truthy (get_or mr "errors" JNull) = false ->
        DS.send_message interpreter_text requests token dossier_id instructeur_id subject body
        = Got (JObj [ ("success", JBool true);
                      ("message", get_or mr "message" (JObj [])) ]))
    /\ (dict_get d "data" = Some JNull ->
        DS.send_message interpreter_text requests token dossier_id instructeur_id subject body
        = Threw (ExcNotContainer JNull))
    /\ (forall dd,
           get_or d "data" (JObj []) = JObj dd ->
           dict_get dd "error" = None ->
           dict_get dd "dossierEnvoyerMessage" = Some JNull ->
           DS.send_message interpreter_text requests token dossier_id instructeur_id subject body
           = Threw (ExcNoGet JNull)).
Proof.
  intros dossier_id instructeur_id subject body response d Hr Hs Hj He.
  assert (E : DS._make_request interpreter_text requests token DS.query
                (DS.variables_of dossier_id instructeur_id subject body)
              = get_or d "data" (JObj [])).
  { unfold DS._make_request. rewrite Hr. cbn [attempt_bind]. rewrite Hs.
    cbn [Z.eqb Pos.eqb negb]. rewrite Hj. cbn [attempt_bind py_contains].
    rewrite He. reflexivity. }
  unfold DS.send_message. rewrite E. split; [|split].
  - intros dd mr Hd Hne Hm Ht. rewrite Hd. cbn [py_contains attempt_bind].
    rewrite Hne. cbn [py_get attempt_bind]. rewrite Hm. cbn [py_get attempt_bind].
    rewrite Ht. reflexivity.
  - intros Hd. unfold get_or. rewrite Hd. reflexivity.
  - intros dd Hd Hne Hm. rewrite Hd. cbn [py_contains attempt_bind].
    rewrite Hne. cbn [py_get attempt_bind]. unfold get_or. rewrite Hm. reflexivity.
Qed.

(** ** The client of the data store *)


End ClientProperties.

Section EntryProperties.

Variable utcoffset : Z -> Z.
Variable make_ds_client : string -> DSClient.
Variable make_grist_client : string -> GristClient.
Variable now : trace -> string.

(** A sender is built only from a configuration that loaded and two
    tokens that are set and not empty.  A configuration file that is
    missing or no JSON, and a token that is missing or empty, end the
    process through [sys.exit(1)].  A flag whose variable is not set is
    off. *)
Theorem sender_needs_config_and_tokens :
  forall (file : config_file) (environ : dict string),
    (forall sender,
        __init__ make_ds_client make_grist_client now file environ = Ok sender ->
        exists c ds_token grist_token,
          file = Loaded c
          /\ dict_get environ "DS_API_TOKEN" = Some ds_token
          /\ ds_token <> EmptyString
          /\ dict_get environ "GRIST_API_TOKEN" = Some grist_token
          /\ grist_token <> EmptyString
          /\ sender = mkSender c (env_flag environ "DRY_RUN")
                        (env_flag environ "FORCE_SEND")
                        (make_ds_client ds_token)
                        (make_grist_client grist_token) now)
    /\ (file = FileNotFoundError \/ file = JSONDecodeError
        \/ (exists c, file = Loaded c)
           /\ (dict_get environ "DS_API_TOKEN" = None
               \/ dict_get environ "DS_API_TOKEN" = Some EmptyString
               \/ dict_get environ "GRIST_API_TOKEN" = None
               \/ dict_get environ "GRIST_API_TOKEN" = Some EmptyString) ->
        __init__ make_ds_client make_grist_client now file environ
        = Raise SystemExit)
    /\ (forall name, dict_get environ name = None -> env_flag environ name = false).
Proof.
  intros file environ. split; [|split].
  - intros sender H. unfold __init__ in H.
    destruct file as [| |e|c]; try discriminate.
    destruct (dict_get environ "DS_API_TOKEN") as [[|a ds]|] eqn:Ed; try discriminate.
    destruct (dict_get environ "GRIST_API_TOKEN") as [[|b gr]|] eqn:Eg; try discriminate.
    injection H as <-. exists c, (String a ds), (String b gr).
    repeat split; discriminate.
  - intros [->|[->|[[c ->] H]]]; try reflexivity. unfold __init__.
    destruct H as [->|[->|[->| ->]]]; try reflexivity;
      destruct (dict_get environ "DS_API_TOKEN") as [[|a ds]|]; reflexivity.
  - intros name H. unfold env_flag, get_or. now rewrite H.
Qed.

Lemma send_batch_returns (self : GitHubActionSender) (t t1 : trace)
    (records : list record) :
  validate_config self = true ->
  get_records_to_process utcoffset self t = (Ok records, t1) ->
  clients_return self ->
  (forall rec, In rec records -> renders utcoffset self rec = true) ->
  exists results t', send_batch utcoffset self t = (Ok results, t').
Proof.
  intros Hv Hg Hc Hr. unfold send_batch. rewrite Hv. cbn [negb].
  unfold run_bind at 1. rewrite Hg.
  destruct records as [|r0 rs]; [eexists _, _; reflexivity|].
  destruct (dispatch_loop_accounts utcoffset self (r0 :: rs) Hc Hr
              (mkBatch false (Z.of_nat (List.length (r0 :: rs))) 0 0 0 []) t1)
    as (results' & t' & H & _).
  eauto.
Qed.

(** The exit status of [main]: 1 when a required field of the
    configuration is missing; 0 when the records are fetched, the clients
    answer every call and the texts render, whatever number of sends the
    messaging client reported as failed. *)
Theorem reported_failures_do_not_fail_the_run :
  forall (file : config_file) (environ : dict string) (t t1 : trace)
         (sender : GitHubActionSender) (records : list record),
    __init__ make_ds_client make_grist_client now file environ = Ok sender ->
    (In EmptyString (required_fields (config sender)) ->
     main utcoffset make_ds_client make_grist_client now file environ t = (1, t))
    /\ (validate_config sender = true ->
        get_records_to_process utcoffset sender t = (Ok records, t1) ->
        clients_return sender ->
        (forall rec, In rec records -> renders utcoffset sender rec = true) ->
        fst (main utcoffset make_ds_client make_grist_client now file environ t) = 0).
Proof.
  intros file environ t t1 sender records Hi. unfold main. rewrite Hi. split.
  - intros H. apply validate_config_required in H.
    unfold send_batch. now rewrite H.
  - intros Hv Hg Hc Hr.
    destruct (send_batch_returns sender t t1 records Hv Hg Hc Hr) as (results & t' & ->).
    reflexivity.
Qed.

End EntryProperties.

(** ** Texts of white space *)

Lemma rstrip_empty (s : string) :
  rstrip s = EmptyString -> str_forallb is_space s = true.
Proof.
  induction s as [|c s IH]; [reflexivity|].
  cbn [rstrip str_forallb]. destruct (rstrip s) as [|c' r]; [|discriminate].
  destruct (is_space c); [intros _; now apply IH|discriminate].
Qed.

Lemma strip_empty (s : string) :
  strip s = EmptyString <-> str_forallb is_space s = true.
Proof.
  split; [|apply strip_spaces].
  unfold strip. intros H. destruct (rstrip_ends s) as [Hr|Hr].
  - now apply rstrip_empty.
  - apply lstrip_ends in Hr. rewrite H in Hr. discriminate.
Qed.

Lemma has_char_app (c : ascii) (a b : string) :
  has_char c (String.append a b) = has_char c a || has_char c b.
Proof.
  induction a as [|x a IH]; [reflexivity|].
  cbn [String.append has_char]. now rewrite IH, orb_assoc.
Qed.

Lemma has_char_not_blank (c : ascii) (s : string) :
  is_space c = false -> has_char c s = true -> str_forallb is_space s = false.
Proof.
  intros Hc. induction s as [|x s IH]; [discriminate|].
  cbn [has_char str_forallb]. intros H. apply orb_true_iff in H as [H|H].
  - apply Ascii.eqb_eq in H. subst x. now rewrite Hc.
  - rewrite (IH H). apply andb_false_r.
Qed.

Lemma rev_digits_range (fuel : nat) :
  forall n, 0 <= n -> Forall (fun d => 0 <= d <= 9) (rev_digits fuel n).
Proof.
  induction fuel as [|k IH]; intros n Hn; cbn [rev_digits]; [constructor|].
  destruct (Z.ltb_spec n 10).
  - constructor; [lia|constructor].
  - constructor.
    + pose proof (Z.mod_pos_bound n 10). lia.
    + apply IH. apply Z.div_pos; lia.
Qed.

Lemma string_of_digits_not_blank (ds : list Z) :
  ds <> [] -> Forall (fun d => 0 <= d <= 9) ds ->
  str_forallb is_space (string_of_digits ds) = false.
Proof.
  destruct ds as [|d ds]; [contradiction|]. intros _ H.
  inversion H as [|? ? Hd _]; subst. cbn [string_of_digits fold_right str_forallb].
  now rewrite (dec_digit_not_space _ (digit_char_dec d Hd)).
Qed.

Lemma string_of_Z_not_blank (z : Z) : str_forallb is_space (string_of_Z z) = false.
Proof.
  unfold string_of_Z. destruct (Z.ltb_spec z 0); [reflexivity|].
  unfold string_of_nonneg. apply string_of_digits_not_blank.
  - intros E. apply (f_equal (@List.length Z)) in E. rewrite length_rev in E.
    cbn [rev_digits] in E. destruct (z <? 10); discriminate.
  - apply Forall_rev. now apply rev_digits_range.
Qed.

Lemma layout_repr_not_blank (ds : string) (decpt : Z) :
  str_forallb is_space (layout_repr ds decpt) = false.
Proof.
  unfold layout_repr.
  destruct ((decpt <=? -4) || (16 <? decpt)).
  - apply (has_char_not_blank "e"); [reflexivity|].
    rewrite has_char_app. cbn [has_char Ascii.eqb Bool.eqb orb]. apply orb_true_r.
  - destruct (decpt <=? 0); [reflexivity|].
    apply (has_char_not_blank "."); [reflexivity|].
    destruct (decpt <? Z.of_nat (String.length ds)).
    + rewrite has_char_app. cbn [has_char Ascii.eqb Bool.eqb orb]. apply orb_true_r.
    + rewrite !has_char_app. cbn [has_char Ascii.eqb Bool.eqb orb].
      now rewrite !orb_true_r.
Qed.

Lemma float_repr_not_blank (f : float) : str_forallb is_space (float_repr f) = false.
Proof.
  destruct f as [[|]|[|]| |s m e]; try reflexivity.
  unfold float_repr.
  destruct (shortest_decimal _ _ _ _ _ _) as [d e10].
  destruct s; [reflexivity|apply layout_repr_not_blank].
Qed.

Lemma str_datetime_not_blank (dt : datetime) :
  str_forallb is_space (str_datetime dt) = false.
Proof.
  apply (has_char_not_blank "-"); [reflexivity|].
  unfold str_datetime, isoformat_date. rewrite !has_char_app.
  cbn [has_char Ascii.eqb Bool.eqb orb]. now rewrite !orb_true_r.
Qed.

Lemma blank_text (v : PyVal) :
  is_none v || String.eqb (strip (py_str v)) EmptyString = blank v.
Proof.
  assert (E : forall s, String.eqb (strip s) EmptyString = str_forallb is_space s).
  { intros s. destruct (String.eqb_spec (strip s) EmptyString) as [H|H].
    - symmetry. now apply strip_empty.
    - destruct (str_forallb is_space s) eqn:Hs; [|reflexivity].
      exfalso. apply H. now apply strip_empty. }
  destruct v as [|b|z|f|s|dt]; cbn [is_none blank py_str orb]; rewrite ?E.
  - reflexivity.
  - now destruct b.
  - apply string_of_Z_not_blank.
  - apply float_repr_not_blank.
  - reflexivity.
  - apply str_datetime_not_blank.
Qed.

(** [empty] holds exactly for [None] and for a text of white space only,
    the empty text included; a number, zero too, and a truth value are
    never empty.  [not_empty] is its negation.  Neither looks at the
    operand. *)
Theorem empty_operator_means_none_or_blank_text :
  forall (field_value : PyVal) (value : string),
    test_filter field_value "empty" value = Ok (blank field_value)
    /\ test_filter field_value "not_empty" value = Ok (negb (blank field_value)).
Proof.
  intros field_value value. unfold test_filter.
  cbn [String.eqb Ascii.eqb Bool.eqb]. rewrite <- blank_text. split; [reflexivity|].
  now rewrite negb_orb.
Qed.

(* ================================================================== *)
(** * The further statements on sample data *)
(* ================================================================== *)

Lemma padded_text_witness :
  parse_date_value utc (VStr "  2023-12-25 ") = parse_date_value utc (VStr "2023-12-25")
  /\ parse_date_value utc (VStr (strip "2023-12-25"))
     = parse_date_value utc (VStr "2023-12-25").
Proof. exact (padded_text_reads_the_same utc "  " "2023-12-25" " " eq_refl eq_refl). Defined.

Lemma parsed_date_witness :
  parse_date_value utc (VStr "29/02/2024") = Ok (Some (mkDate 2024 2 29))
  /\ valid_date (mkDate 2024 2 29) = true.
Proof.
  split; [reflexivity|].
  apply (parsed_date_is_valid utc (VStr "29/02/2024"));
    [intros dt H; discriminate H|reflexivity].
Defined.

Lemma iso_date_witness :
  valid_date (mkDate 2023 12 25) = true
  /\ parse_date_value utc (VStr "2023-12-25T14:30:00.123Z")
     = Ok (Some (mkDate 2023 12 25)).
Proof.
  split; [reflexivity|].
  exact (iso_date_then_anything utc (mkDate 2023 12 25) "T14:30:00.123Z" eq_refl).
Defined.


Lemma date_operators_witness :
  check_date_filter utc (VStr "25/12/2023") "date_before" "2024-01-01" = Ok true
  /\ check_date_filter utc (VStr "25/12/2023") "date_on" "2024-01-01" = Ok false
  /\ check_date_filter utc (VStr "25/12/2023") "date_after" "2024-01-01" = Ok false.
Proof.
  destruct (date_operators_trichotomy utc (VStr "25/12/2023") (mkDate 2023 12 25)
              (mkDate 2024 1 1) eq_refl eq_refl) as (H1 & H2 & H3 & _).
  split; [exact H1|]. split; [exact H2|exact H3].
Defined.

Lemma date_between_witness :
  check_date_filter utc (VStr "25/12/2023") "date_between" "2023-12-25|2023-12-31"
  = Ok true
  /\ check_date_filter utc (VStr "25/12/2023") "date_between" "2023-12-31|2023-12-01"
     = Ok false.
Proof.
  split.
  - destruct (date_between_is_an_inclusive_range utc (VStr "25/12/2023")
                (mkDate 2023 12 25) (mkDate 2023 12 25) (mkDate 2023 12 31)
                eq_refl eq_refl eq_refl) as (H & _).
    exact H.
  - destruct (date_between_is_an_inclusive_range utc (VStr "25/12/2023")
                (mkDate 2023 12 25) (mkDate 2023 12 31) (mkDate 2023 12 1)
                eq_refl eq_refl eq_refl) as (_ & H).
    exact (H eq_refl).
Defined.

Lemma date_filter_witness :
  check_date_filter utc (VStr "n/a") "date_before" "2024-01-01" = Ok false
  /\ check_date_filter utc (VStr "25/12/2023") "date_before" "bientot" = Ok false.
Proof.
  split.
  - destruct (date_filter_reports_false_not_errors utc (VStr "n/a") "date_before"
                "2024-01-01" None eq_refl) as (_ & H & _).
    apply H; [reflexivity|discriminate].
  - destruct (date_filter_reports_false_not_errors utc (VStr "25/12/2023")
                "date_before" "bientot" (Some (mkDate 2023 12 25)) eq_refl)
      as (_ & _ & H).
    apply (H ValueError); [simpl; tauto|discriminate|reflexivity].
Defined.

Lemma text_operators_witness :
  exists eq co st en : bool,
    test_filter (VStr "Bonjour") "equals" "BON" = Ok eq
    /\ test_filter (VStr "Bonjour") "not_equals" "BON" = Ok (negb eq)
    /\ test_filter (VStr "Bonjour") "contains" "BON" = Ok co
    /\ test_filter (VStr "Bonjour") "not_contains" "BON" = Ok (negb co)
    /\ test_filter (VStr "Bonjour") "starts_with" "BON" = Ok st
    /\ test_filter (VStr "Bonjour") "ends_with" "BON" = Ok en
    /\ (eq = true -> st = true /\ en = true)
    /\ (st = true -> co = true)
    /\ (en = true -> co = true).
Proof.
  apply (text_operators_cohere (VStr "Bonjour") "BON"). discriminate.
Defined.

Lemma ignore_case_witness :
  test_filter (VStr "bonjour") "contains" "jou"
  = test_filter (VStr "BonJour") "contains" "JOU".
Proof.
  apply (text_operators_ignore_case "BonJour" "JOU" "contains"). simpl. tauto.
Defined.

Lemma numeric_cohere_witness :
  exists gt lt ge le : bool,
    test_filter (VInt 5) "greater_than" "nan" = Ok gt
    /\ test_filter (VInt 5) "less_than" "nan" = Ok lt
    /\ test_filter (VInt 5) "greater_equal" "nan" = Ok ge
    /\ test_filter (VInt 5) "less_equal" "nan" = Ok le
    /\ (is_nan (float_of_Z 5) || is_nan S754_nan = true ->
        gt = false /\ lt = false /\ ge = false /\ le = false)
    /\ (is_nan (float_of_Z 5) || is_nan S754_nan = false ->
        gt = negb le /\ lt = negb ge).
Proof.
  apply (numeric_operators_cohere (VInt 5) "nan" (float_of_Z 5) S754_nan);
    [discriminate|reflexivity|reflexivity].
Defined.

Lemma empty_value_witness :
  eval_filter utc (rec_fields rec_42) filter_due_any = Ok true
  /\ apply_filters utc [rec_42; rec_45] [filter_amount; filter_due_any] "AND"
     = apply_filters utc [rec_42; rec_45] [filter_amount] "AND".
Proof.
  destruct (filter_with_empty_value_is_neutral utc [rec_42; rec_45] [filter_amount] []
              filter_due_any eq_refl ltac:(discriminate) ltac:(discriminate))
    as (H1 & H2).
  split; [apply H1|exact H2].
Defined.

Lemma filter_logic_witness :
  apply_filters utc [rec_42; rec_45] [filter_amount; filter_due] "or"
  = apply_filters utc [rec_42; rec_45] [filter_amount; filter_due] "AND".
Proof.
  apply (filter_logic_other_than_or_is_and utc). discriminate.
Defined.

Lemma and_within_or_witness :
  apply_filters utc [rec_42; rec_45] [filter_amount; filter_due] "AND" = Ok []
  /\ exists any : list record,
       apply_filters utc [rec_42; rec_45] [filter_amount; filter_due] "OR" = Ok any
       /\ subsequence [] any
       /\ subsequence any [rec_42; rec_45].
Proof.
  split; [reflexivity|].
  apply (and_selection_is_within_or utc [rec_42; rec_45] [filter_amount; filter_due]).
  reflexivity.
Defined.

Lemma and_compose_witness :
  exists mid : list record,
    apply_filters utc [rec_42; rec_45] [filter_amount] "AND" = Ok mid
    /\ apply_filters utc mid [filter_due] "AND" = Ok [].
Proof.
  apply (and_filters_compose utc [rec_42; rec_45] [filter_amount] [filter_due]).
  reflexivity.
Defined.

Lemma store_error_witness :
  send_batch utc
    (mkSender sample_config false false ds_accepting (grist_erring "HTTP 500")
       sample_clock) []
  = (Ok (mkBatch true 0 0 0 0 []), [EvGetRecords "doc-1" "Table1"]).
Proof.
  apply (store_error_reads_as_an_empty_table utc
           (mkSender sample_config false false ds_accepting (grist_erring "HTTP 500")
              sample_clock) [] (RecordsError "HTTP 500"));
    [reflexivity|reflexivity|left; now exists "HTTP 500"].
Defined.

Lemma records_to_process_witness :
  get_records_to_process utc (sample_sender false false ds_accepting three_records) []
  = (Ok [rec_42], [EvGetRecords "doc-1" "Table1"])
  /\ subsequence [rec_42] three_records
  /\ (forall rec, In rec [rec_42] -> dossier_of rec <> EmptyString)
  /\ (exists out' : list record,
         get_records_to_process utc
           (forced (sample_sender false false ds_accepting three_records)) []
         = (Ok out', [EvGetRecords "doc-1" "Table1"])
         /\ subsequence [rec_42] out').
Proof.
  split; [reflexivity|].
  destruct (records_to_process_are_served_records utc
              (sample_sender false false ds_accepting three_records) []
              [EvGetRecords "doc-1" "Table1"] [rec_42] eq_refl)
    as (_ & H1 & H2 & H3).
  split; [exact (H1 three_records eq_refl)|]. split; [exact H2|exact H3].
Defined.

Lemma dry_run_batch_witness :
  filter is_send
    (snd (send_batch utc (sample_sender true false ds_accepting three_records) []))
  = []
  /\ filter is_update
       (snd (send_batch utc (sample_sender true false ds_accepting three_records) []))
     = [].
Proof.
  destruct (dry_run_batch_only_fetches utc
              (sample_sender true false ds_accepting three_records) [] eq_refl)
    as (_ & H1 & H2).
  split; [exact H1|exact H2].
Defined.

Lemma one_message_witness :
  exists (results : batch_result) (t' : trace),
    send_batch utc (sample_sender false false ds_accepting [rec_42; rec_45]) []
    = (Ok results, t')
    /\ map footprint_of t'
       = [Fetched; Sent "42"; Updated 1; Sent "45"; Updated 5].
Proof.
  destruct (send_batch utc (sample_sender false false ds_accepting [rec_42; rec_45]) [])
    as [[results|e] t'] eqn:E; [|vm_compute in E; discriminate E].
  exists results, t'. split; [reflexivity|].
  destruct (each_record_gets_one_message_and_one_write_back utc
              (sample_sender false false ds_accepting [rec_42; rec_45]) [] t' results
              eq_refl E) as (records & calls & Hg & -> & Hc).
  assert (Hr : records = [rec_42; rec_45]).
  { vm_compute in Hg. now injection Hg. }
  subst records. cbn [app map footprint_of fetch_of]. now rewrite Hc.
Defined.

Lemma summary_witness :
  exists (results : batch_result) (t' : trace),
    send_batch utc (sample_sender false false (ds_failing "refus") [rec_42; rec_45]) []
    = (Ok results, t')
    /\ total_records results = 2
    /\ success_count results + error_count results = 2
    /\ Z.of_nat (List.length (details results)) = error_count results
    /\ already_sent_count results = 0.
Proof.
  destruct (send_batch utc
              (sample_sender false false (ds_failing "refus") [rec_42; rec_45]) [])
    as [[results|e] t'] eqn:E; [|vm_compute in E; discriminate E].
  exists results, t'. split; [reflexivity|].
  destruct (summary_counts_add_up utc _ _ _ _ E)
    as (records & Hg & Ht & Hs & _ & _ & Hd & Ha & _).
  assert (Hr : records = [rec_42; rec_45]).
  { vm_compute in Hg. now injection Hg. }
  subst records. cbn in Ht. rewrite Ht in Hs. repeat split; assumption.
Defined.

Lemma template_kept_witness :
  format_message_with_dates utc "Bonjour" (rec_fields rec_42) = Ok "Bonjour".
Proof.
  assert (H : exists out,
             format_message_with_dates utc "Bonjour" (rec_fields rec_42) = Ok out)
    by (eexists; reflexivity).
  destruct H as [out H]. rewrite H. f_equal.
  apply (template_without_placeholders_is_kept utc "Bonjour" (rec_fields rec_42)).
  - intros field_name field_value _. reflexivity.
  - exact H.
Defined.


Lemma dossier_guard_witness :
  send_message_to_record utc (sample_sender false false ds_accepting []) rec_no_dossier []
  = (Ok (mkResult false false (Some "dossier_id manquant")), [])
  /\ exists rest,
       snd (send_message_to_record utc (sample_sender false false ds_accepting [])
              rec_null_dossier [])
       = [] ++ EvSendMessage "None" "instructeur-1" "Dossier {dossier_id}"
                 "Bonjour, echeance le {due}" :: rest.
Proof.
  split.
  - destruct (dossier_guard_rejects_only_missing_or_empty utc
                (sample_sender false false ds_accepting []) rec_no_dossier [])
      as (H & _).
    apply H. now left.
  - destruct (dossier_guard_rejects_only_missing_or_empty utc
                (sample_sender false false ds_accepting []) rec_null_dossier [])
      as (_ & H).
    apply (H VNone); [reflexivity|discriminate|reflexivity|reflexivity|reflexivity].
Defined.


Lemma ds_failure_witness :
  exists msg,
    DS.send_message sample_interpreter_text requests_timing_out "ds-token"
      "42" "instructeur-1" "Sujet" "Texte"
    = Got (error_dict msg).
Proof.
  apply (ds_send_reports_failures sample_interpreter_text requests_timing_out "ds-token").
  intros response d H. discriminate H.
Defined.

Lemma ds_answer_witness :
  DS.send_message sample_interpreter_text (requests_answering message_sent) "ds-token"
    "42" "instructeur-1" "Sujet" "Texte"
  = Got (JObj [ ("success", JBool true);
                ("message", JObj [ ("id", JStr "TWVzc2FnZS0x") ]) ])
  /\ DS.send_message sample_interpreter_text
       (requests_answering (JObj [ ("data", JNull) ])) "ds-token"
       "42" "instructeur-1" "Sujet" "Texte"
     = Threw (ExcNotContainer JNull).
Proof.
  split.
  - destruct (ds_send_on_an_answer sample_interpreter_text
                (requests_answering message_sent) "ds-token"
                "42" "instructeur-1" "Sujet" "Texte"
                (mkResponse 200 EmptyString (Got message_sent))
                [ ("data",
                   JObj [ ("dossierEnvoyerMessage",
                           JObj [ ("message", JObj [ ("id", JStr "TWVzc2FnZS0x") ]);
                                  ("errors", JNull) ]) ]) ]
                eq_refl eq_refl eq_refl eq_refl) as (H & _).
    exact (H _ _ eq_refl eq_refl eq_refl eq_refl).
  - destruct (ds_send_on_an_answer sample_interpreter_text
                (requests_answering (JObj [ ("data", JNull) ])) "ds-token"
                "42" "instructeur-1" "Sujet" "Texte"
                (mkResponse 200 EmptyString (Got (JObj [ ("data", JNull) ])))
                [ ("data", JNull) ]
                eq_refl eq_refl eq_refl eq_refl) as (_ & H & _).
    exact (H eq_refl).
Defined.

Lemma sender_built_witness :
  exists sender,
    __init__ (fun _ => ds_accepting) (fun _ => grist_serving three_records)
      sample_clock (Loaded sample_config) sample_environ = Ok sender
    /\ dry_run sender = true /\ force_send sender = false.
Proof.
  destruct (sender_needs_config_and_tokens (fun _ => ds_accepting)
              (fun _ => grist_serving three_records) sample_clock
              (Loaded sample_config) sample_environ) as (H & _ & Hflag).
  eexists. split; [reflexivity|]. split; [reflexivity|].
  exact (Hflag "FORCE_SEND" eq_refl).
Defined.

Lemma exit_status_witness :
  fst (main utc (fun _ => ds_failing "refus") (fun _ => grist_serving three_records)
         sample_clock (Loaded sample_config)
         [ ("DS_API_TOKEN", "ds-token"); ("GRIST_API_TOKEN", "grist-token") ] [])
  = 0.
Proof.
  destruct (reported_failures_do_not_fail_the_run utc (fun _ => ds_failing "refus")
              (fun _ => grist_serving three_records) sample_clock
              (Loaded sample_config)
              [ ("DS_API_TOKEN", "ds-token"); ("GRIST_API_TOKEN", "grist-token") ]
              [] [EvGetRecords "doc-1" "Table1"]
              (sample_sender false false (ds_failing "refus") three_records)
              [rec_42] eq_refl) as (_ & H).
  apply H.
  - reflexivity.
  - reflexivity.
  - apply failing_client_returns.
  - intros rec [<-|[]]. reflexivity.
Defined.
